(** * FTL configuration subsystem: legacy reader, TOML helper and TOML reader

    A shallow embedding of
      - [src/config/toml_helper.c]  (printTOMLstring, writeTOMLvalue, readTOMLvalue),
      - the legacy reader           (parseFTLconf, readFTLlegacy, getLogFilePathLegacy, ...),
      - the TOML reader             (parseTOML, getPrivacyLevel, getBlockingMode, ...),
    together with the properties of these functions that the specification states.

    Conventions.  A C [char *] is a [string] (a [NULL] pointer is [None] of
    [option string]); a [FILE *] opened for reading is the text of the file, one
    opened for writing is the text written to it.  Machine integers are [Z] with
    the wrap-around written out. *)

From Stdlib Require Import ZArith QArith Qround List String Ascii Bool Lia.
From Stdlib Require Import DecimalString.
From Stdlib Require DecimalPos.
Import ListNotations.
Local Open Scope string_scope.
Local Open Scope Z_scope.

(* ================================================================== *)
(** * The C library, as far as the sources use it *)
(* ================================================================== *)

Module Libc.

(** The double quote and the backslash, named once. *)
Definition dquote : ascii := "034"%char.
Definition backslash : ascii := "092"%char.
Definition NUL : ascii := "000"%char.
Definition LF : ascii := "010"%char.

(** The byte of a character, [0..255]. *)
Definition byte_val (c : ascii) : Z := Z.of_N (N_of_ascii c).

(** [int ch = *p;] for a (signed) [char]. *)
Definition char_val (c : ascii) : Z :=
  let n := byte_val c in if n <? 128 then n else n - 256.

(** The character of [(unsigned char) ch]. *)
Definition ascii_of_Z (z : Z) : ascii := ascii_of_N (Z.to_N (z mod 256)).

(** [isprint], [isspace], [isdigit] and [tolower] in the C locale. *)
Definition isprint (ch : Z) : bool := (32 <=? ch) && (ch <=? 126).
Definition isspace (ch : Z) : bool := (ch =? 32) || ((9 <=? ch) && (ch <=? 13)).
Definition isdigit (ch : Z) : bool := (48 <=? ch) && (ch <=? 57).
Definition tolower (ch : Z) : Z := if (65 <=? ch) && (ch <=? 90) then ch + 32 else ch.

(** [strlen]: the characters before the terminating NUL. *)
Fixpoint strlen (s : string) : nat :=
  match s with
  | EmptyString => O
  | String c s' => if Ascii.eqb c NUL then O else S (strlen s')
  end.

(** The C string a buffer holds: its bytes up to the first NUL. *)
Fixpoint c_str (s : string) : string :=
  match s with
  | EmptyString => EmptyString
  | String c s' => if Ascii.eqb c NUL then EmptyString else String c (c_str s')
  end.

(** [strcasecmp(a, b)]: the difference of the first pair of characters that
    differ after [tolower]; [0] when there is none. *)
Fixpoint strcasecmp (a b : string) : Z :=
  match a, b with
  | EmptyString, EmptyString => 0
  | EmptyString, String y _ => 0 - tolower (byte_val y)
  | String x _, EmptyString => tolower (byte_val x)
  | String x a', String y b' =>
      let d := tolower (byte_val x) - tolower (byte_val y) in
      if d =? 0 then strcasecmp a' b' else d
  end.

(** [strcmp(a, b)]. *)
Fixpoint strcmp (a b : string) : Z :=
  match a, b with
  | EmptyString, EmptyString => 0
  | EmptyString, String y _ => 0 - byte_val y
  | String x _, EmptyString => byte_val x
  | String x a', String y b' =>
      let d := byte_val x - byte_val y in
      if d =? 0 then strcmp a' b' else d
  end.

(** [strstr(haystack, needle)]: the suffix of [haystack] that starts at the
    first occurrence of [needle], [None] for [NULL]. *)
Fixpoint strstr (haystack needle : string) : option string :=
  if String.prefix needle haystack then Some haystack
  else match haystack with
       | EmptyString => None
       | String _ h' => strstr h' needle
       end.

(** One lower-case hexadecimal digit, and the [%02x] conversion of a byte. *)
Definition hex_digit (n : Z) : ascii :=
  if n <? 10 then ascii_of_Z (48 + n) else ascii_of_Z (87 + n).

Definition fmt_02x (n : Z) : string :=
  String (hex_digit (n / 16 mod 16)) (String (hex_digit (n mod 16)) EmptyString).

(** ** Formatted output *)

(** The conversions [%i], [%u], [%li] and [%lu] of [fprintf]: the decimal
    digits of the number, with a minus sign for a negative one. *)
Definition fmt_d (z : Z) : string := NilZero.string_of_int (Z.to_int z).

(** ** Machine integers *)

Definition wrap_u32 (z : Z) : Z := z mod 2 ^ 32.
Definition wrap_u64 (z : Z) : Z := z mod 2 ^ 64.
Definition wrap_s32 (z : Z) : Z := (z + 2 ^ 31) mod 2 ^ 32 - 2 ^ 31.
Definition wrap_s64 (z : Z) : Z := (z + 2 ^ 63) mod 2 ^ 64 - 2 ^ 63.
Definition INT_MAX : Z := 2 ^ 31 - 1.
Definition LONG_MAX : Z := 2 ^ 63 - 1.
Definition LONG_MIN : Z := - 2 ^ 63.
Definition ULONG_MAX : Z := 2 ^ 64 - 1.

(** ** Formatted input *)

(** The outcome of an [sscanf] call with one conversion: the conversion
    assigned a value (return value 1), the input did not match (return value
    0, nothing assigned), or the input ended before the conversion (return
    value [EOF], nothing assigned). *)
Inductive scan (A : Type) : Type :=
  | Assigned (a : A)
  | MatchFail
  | InputFail.
Arguments Assigned {A} a.
Arguments MatchFail {A}.
Arguments InputFail {A}.

Definition EOF : Z := -1.

Definition scan_ret {A} (r : scan A) : Z :=
  match r with Assigned _ => 1 | MatchFail => 0 | InputFail => EOF end.

(** The variable a conversion was pointed at, after the call. *)
Definition scan_store {A} (r : scan A) (old : A) : A :=
  match r with Assigned a => a | _ => old end.

(** Leading white space, which every numeric and string conversion skips. *)
Fixpoint skip_space (s : string) : string :=
  match s with
  | String c s' => if isspace (byte_val c) then skip_space s' else s
  | EmptyString => EmptyString
  end.

(** The value of a digit in [base], when the character is one. *)
Definition digit_val (base : Z) (c : ascii) : option Z :=
  let ch := byte_val c in
  let d := if isdigit ch then ch - 48
           else if (97 <=? ch) && (ch <=? 102) then ch - 87
           else if (65 <=? ch) && (ch <=? 70) then ch - 55
           else 99 in
  if d <? base then Some d else None.

(** The longest run of digits at the head of [s]: its value on top of [acc],
    the number of digits, and what follows. *)
Fixpoint read_digits (base : Z) (s : string) (acc : Z) (n : nat) : Z * nat * string :=
  match s with
  | String c s' =>
      match digit_val base c with
      | Some d => read_digits base s' (acc * base + d) (S n)
      | None => (acc, n, s)
      end
  | EmptyString => (acc, n, s)
  end.

(** An optional sign at the head of [s]. *)
Definition read_sign (s : string) : bool * string :=
  match s with
  | String "-" s' => (true, s')
  | String "+" s' => (false, s')
  | _ => (false, s)
  end.

(** The base [%i] reads a number in, by its prefix: [0x] hexadecimal, [0]
    octal, decimal otherwise. *)
Definition detect_base (s : string) : Z * string :=
  match s with
  | String "0" (String x (String h s')) =>
      if ((x =? "x") || (x =? "X"))%char then
        match digit_val 16 h with
        | Some _ => (16, String h s')
        | None => (8, s)
        end
      else (8, s)
  | String "0" _ => (8, s)
  | _ => (10, s)
  end.

(** A signed number as [strtol] converts it: out of range it is [LONG_MIN]
    or [LONG_MAX]. *)
Definition strtol_value (neg : bool) (magnitude : Z) : Z :=
  let v := if neg then - magnitude else magnitude in
  Z.max LONG_MIN (Z.min LONG_MAX v).

(** An unsigned number as [strtoul] converts it: out of range it is
    [ULONG_MAX], with or without a minus sign; in range a minus sign negates
    the result as an unsigned long. *)
Definition strtoul_value (neg : bool) (magnitude : Z) : Z :=
  if magnitude >? ULONG_MAX then ULONG_MAX
  else if neg then wrap_u64 (- magnitude) else magnitude.

(** A numeric conversion at the head of [s]: the number and the rest of the
    input. *)
Definition scan_number (signed : bool) (detect : bool) (s : string) : scan Z * string :=
  match skip_space s with
  | EmptyString => (InputFail, EmptyString)
  | s1 =>
      let '(neg, s2) := read_sign s1 in
      let '(base, s3) := if detect then detect_base s2 else (10, s2) in
      let '(m, n, rest) := read_digits base s3 0 O in
      match n with
      | O => (MatchFail, s1)
      | _ => (Assigned (if signed then wrap_s32 (strtol_value neg m)
                        else wrap_u32 (strtoul_value neg m)), rest)
      end
  end.

(** [sscanf(buffer, "%i", &value)] and [sscanf(buffer, "%u", &value)]. *)
Definition sscanf_i (buffer : string) : scan Z := fst (scan_number true true buffer).
Definition sscanf_u (buffer : string) : scan Z := fst (scan_number false false buffer).

(** [sscanf(buffer, "%u/%u", &count, &interval)]: the return value and the
    two variables after the call. *)
Definition sscanf_u_slash_u (buffer : string) (count interval : Z) : Z * Z * Z :=
  match scan_number false false buffer with
  | (Assigned c, String "/" rest) =>
      match fst (scan_number false false rest) with
      | Assigned i => (2, c, i)
      | _ => (1, c, interval)
      end
  | (Assigned c, _) => (1, c, interval)
  | (MatchFail, _) => (0, count, interval)
  | (InputFail, _) => (EOF, count, interval)
  end.

(** At most [width] characters from the head of [s] that are not white space. *)
Fixpoint read_word (width : nat) (s : string) : string :=
  match width, s with
  | S w, String c s' =>
      if isspace (byte_val c) then EmptyString else String c (read_word w s')
  | _, _ => EmptyString
  end.

(** [sscanf(buffer, "%127ms", &ptr)]: the return value, and [ptr] after the
    call ([None] is [NULL]).  The first word of the buffer is stored in a
    fresh allocation and 1 is returned.  A word has at least one character,
    so the conversion never fails to match: on a buffer with no word the
    input ends first and [EOF] is returned; the C library has by then
    allocated for the conversion, and on [EOF] it frees the allocation and
    leaves [NULL] in [ptr]. *)
Definition sscanf_ms (buffer : string) : Z * option string :=
  match skip_space buffer with
  | EmptyString => (EOF, None)
  | s => (1, Some (read_word 127 s))
  end.

(** ** Internet addresses *)

(** An octet of an address, and the addresses of the two families. *)
Definition octet := ascii.
Definition in_addr : Type := octet * octet * octet * octet.
Definition in6_addr : Type := list octet.

Definition octet_zero : octet := NUL.
Definition in_addr_zero : in_addr := (octet_zero, octet_zero, octet_zero, octet_zero).
Definition in6_addr_zero : in6_addr := repeat octet_zero 16.

(** The loop of [inet_pton(AF_INET, src, dst)]: [done] are the octets already
    closed by a dot, [cur] the octet being read, [saw_digit] whether it has a
    digit yet.  An octet is a decimal number up to 255 without a leading zero. *)
Fixpoint inet_pton4_loop (src : string) (done : list Z) (cur : Z) (saw_digit : bool)
  : option (list Z) :=
  match src with
  | EmptyString => if saw_digit then Some (done ++ [cur])%list else None
  | String c src' =>
      let ch := byte_val c in
      if isdigit ch then
        let new := cur * 10 + (ch - 48) in
        if saw_digit && (cur =? 0) then None
        else if 255 <? new then None
        else if negb saw_digit && (4 <=? Z.of_nat (List.length done)) then None
        else inet_pton4_loop src' done new true
      else if (ch =? 46) && saw_digit then
        if 3 <=? Z.of_nat (List.length done) then None
        else inet_pton4_loop src' (done ++ [cur])%list 0 false
      else None
  end.

(** [inet_pton(AF_INET, src, &addr)]: the address, [None] when the call
    returns 0 and leaves [addr] as it was. *)
Definition inet_pton4 (src : string) : option in_addr :=
  match inet_pton4_loop src [] 0 false with
  | Some [a; b; c; d] => Some (ascii_of_Z a, ascii_of_Z b, ascii_of_Z c, ascii_of_Z d)
  | _ => None
  end.

(** [inet_ntop(AF_INET, &addr, buf, INET_ADDRSTRLEN)]: dotted decimal. *)
Definition inet_ntop4 (a : in_addr) : string :=
  let '(a0, a1, a2, a3) := a in
  fmt_d (byte_val a0) ++ "." ++ fmt_d (byte_val a1) ++ "." ++
  fmt_d (byte_val a2) ++ "." ++ fmt_d (byte_val a3).

End Libc.
Import Libc.

(* ================================================================== *)
(** * The value model (config.h) *)
(* ================================================================== *)

Module Config.

(** [enum conf_type]: the tag of an item, fixed by the schema. *)
Inductive conf_type : Type :=
  | CONF_BOOL
  | CONF_INT
  | CONF_UINT
  | CONF_LONG
  | CONF_ULONG
  | CONF_STRING
  | CONF_ENUM_PTR_TYPE
  | CONF_ENUM_BUSY_TYPE
  | CONF_ENUM_BLOCKING_MODE
  | CONF_ENUM_REFRESH_HOSTNAMES
  | CONF_ENUM_PRIVACY_LEVEL
  | CONF_STRUCT_IN_ADDR
  | CONF_STRUCT_IN6_ADDR.

(** The closed enumerations, with the enumerators the sources name. *)
Inductive ptr_type : Type := PTR_NONE | PTR_HOSTNAME | PTR_HOSTNAMEFQDN.
Inductive busy_reply : Type := BUSY_DROP | BUSY_REFUSE | BUSY_BLOCK.
Inductive blocking_mode : Type :=
  MODE_NX | MODE_NULL | MODE_IP_NODATA_AAAA | MODE_IP | MODE_NODATA.
Inductive refresh_hostnames : Type :=
  REFRESH_ALL | REFRESH_NONE | REFRESH_UNKNOWN | REFRESH_IPV4_ONLY.

(** The privacy levels, numbered as the legacy reader documents them. *)
Definition PRIVACY_SHOW_ALL : Z := 0.
Definition PRIVACY_HIDE_DOMAINS : Z := 1.
Definition PRIVACY_HIDE_DOMAINS_CLIENTS : Z := 2.
Definition PRIVACY_MAXIMUM : Z := 3.
Definition PRIVACY_NOSTATS : Z := 4.

(** [union conf_value], by the member written last.  The members [i], [ui]
    and [privacy_level] share one 32-bit word and [l], [ul] one 64-bit word:
    a word is kept as its unsigned bit pattern, and read signed or unsigned
    by the member's type. *)
Inductive conf_value : Type :=
  | V_bool (b : bool)
  | V_w32 (w : Z)
  | V_w64 (w : Z)
  | V_str (s : option string)
  | V_ptr_type (e : ptr_type)
  | V_busy_reply (e : busy_reply)
  | V_blocking_mode (e : blocking_mode)
  | V_refresh_hostnames (e : refresh_hostnames)
  | V_in_addr (a : in_addr)
  | V_in6_addr (a : in6_addr).

(** Reading a member.  The sources read an item through the member its tag
    names; a member of another class reads as that class's zero here. *)
Definition get_b (v : conf_value) : bool := match v with V_bool b => b | _ => false end.
Definition get_ui (v : conf_value) : Z := match v with V_w32 w => w | _ => 0 end.
Definition get_i (v : conf_value) : Z := match v with V_w32 w => wrap_s32 w | _ => 0 end.
Definition get_ul (v : conf_value) : Z := match v with V_w64 w => w | _ => 0 end.
Definition get_l (v : conf_value) : Z := match v with V_w64 w => wrap_s64 w | _ => 0 end.
Definition get_s (v : conf_value) : option string := match v with V_str s => s | _ => None end.
Definition get_privacy_level (v : conf_value) : Z := get_ui v.
Definition get_ptr_type (v : conf_value) : ptr_type :=
  match v with V_ptr_type e => e | _ => PTR_NONE end.
Definition get_busy_reply (v : conf_value) : busy_reply :=
  match v with V_busy_reply e => e | _ => BUSY_DROP end.
Definition get_blocking_mode (v : conf_value) : blocking_mode :=
  match v with V_blocking_mode e => e | _ => MODE_NX end.
Definition get_refresh_hostnames (v : conf_value) : refresh_hostnames :=
  match v with V_refresh_hostnames e => e | _ => REFRESH_ALL end.
Definition get_in_addr (v : conf_value) : in_addr :=
  match v with V_in_addr a => a | _ => in_addr_zero end.
Definition get_in6_addr (v : conf_value) : in6_addr :=
  match v with V_in6_addr a => a | _ => in6_addr_zero end.

(** Writing a member: an integer is converted to the member's width. *)
Definition set_i (z : Z) : conf_value := V_w32 (wrap_u32 z).
Definition set_ui (z : Z) : conf_value := V_w32 (wrap_u32 z).
Definition set_l (z : Z) : conf_value := V_w64 (wrap_u64 z).
Definition set_ul (z : Z) : conf_value := V_w64 (wrap_u64 z).
(** [v.b = x] for an integer [x]: the conversion to [bool]. *)
Definition set_b_of_int (z : Z) : conf_value := V_bool (negb (z =? 0)).

(** [struct conf_item]: key, help text, tag, default and current value. *)
Record conf_item : Type := mk_conf_item {
  k : string;
  h : string;
  t : conf_type;
  d : conf_value;
  v : conf_value
}.

Definition with_v (it : conf_item) (x : conf_value) : conf_item :=
  mk_conf_item (k it) (h it) (t it) (d it) x.

(** The items of [struct config] the sources name.  A debug item is reached
    through [get_debug_item(flag)]; [debug_flag n] is the item of the [n]-th
    flag and [debug_all] the one of the pseudo-flag with all bits set. *)
Inductive item : Type :=
  | dns_analyzeAAAA
  | database_maxDBdays
  | resolver_resolveIPv6
  | resolver_resolveIPv4
  | database_DBinterval
  | files_database
  | database_maxHistory
  | misc_privacylevel
  | dns_ignoreLocalhost
  | dns_blockingmode
  | dns_analyzeOnlyAandAAAA
  | database_DBimport
  | files_pid
  | files_setupVars
  | files_macvendor
  | files_gravity
  | database_network_parseARPcache
  | dns_CNAMEdeepInspect
  | misc_delay_startup
  | dns_blockESNI
  | http_paths_webroot
  | http_port
  | http_paths_webhome
  | http_acl
  | http_localAPIauth
  | http_sessionTimeout
  | http_prettyJSON
  | files_ph7_error
  | files_http_info
  | database_network_expire
  | resolver_networkNames
  | dns_EDNS0ECS
  | resolver_refreshNames
  | http_domain
  | dns_rateLimit_count
  | dns_rateLimit_interval
  | dns_reply_host_overwrite_v4
  | dns_reply_host_v4
  | dns_reply_host_overwrite_v6
  | dns_reply_host_v6
  | dns_reply_blocking_overwrite_v4
  | dns_reply_blocking_v4
  | dns_reply_blocking_overwrite_v6
  | dns_reply_blocking_v6
  | dns_showDNSSEC
  | dns_specialDomains_mozillaCanary
  | dns_piholePTR
  | misc_addr2line
  | dns_replyWhenBusy
  | dns_blockTTL
  | dns_specialDomains_iCloudPrivateRelay
  | misc_check_load
  | misc_check_shmem
  | misc_check_disk
  | files_log
  | debug_all
  | debug_flag (n : nat).

(** The stable numeric index of an item in the registry. *)
Definition item_index (i : item) : nat :=
  match i with
  | dns_analyzeAAAA => 0 | database_maxDBdays => 1 | resolver_resolveIPv6 => 2
  | resolver_resolveIPv4 => 3 | database_DBinterval => 4 | files_database => 5
  | database_maxHistory => 6 | misc_privacylevel => 7 | dns_ignoreLocalhost => 8
  | dns_blockingmode => 9 | dns_analyzeOnlyAandAAAA => 10 | database_DBimport => 11
  | files_pid => 12 | files_setupVars => 13 | files_macvendor => 14
  | files_gravity => 15 | database_network_parseARPcache => 16
  | dns_CNAMEdeepInspect => 17 | misc_delay_startup => 18 | dns_blockESNI => 19
  | http_paths_webroot => 20 | http_port => 21 | http_paths_webhome => 22
  | http_acl => 23 | http_localAPIauth => 24 | http_sessionTimeout => 25
  | http_prettyJSON => 26 | files_ph7_error => 27 | files_http_info => 28
  | database_network_expire => 29 | resolver_networkNames => 30 | dns_EDNS0ECS => 31
  | resolver_refreshNames => 32 | http_domain => 33 | dns_rateLimit_count => 34
  | dns_rateLimit_interval => 35 | dns_reply_host_overwrite_v4 => 36
  | dns_reply_host_v4 => 37 | dns_reply_host_overwrite_v6 => 38
  | dns_reply_host_v6 => 39 | dns_reply_blocking_overwrite_v4 => 40
  | dns_reply_blocking_v4 => 41 | dns_reply_blocking_overwrite_v6 => 42
  | dns_reply_blocking_v6 => 43 | dns_showDNSSEC => 44
  | dns_specialDomains_mozillaCanary => 45 | dns_piholePTR => 46
  | misc_addr2line => 47 | dns_replyWhenBusy => 48 | dns_blockTTL => 49
  | dns_specialDomains_iCloudPrivateRelay => 50 | misc_check_load => 51
  | misc_check_shmem => 52 | misc_check_disk => 53 | files_log => 54
  | debug_all => 55
  | debug_flag n => 56 + n
  end%nat.

Definition item_eqb (i j : item) : bool := Nat.eqb (item_index i) (item_index j).

(** [struct config]: every item of the registry. *)
Definition config_t : Type := item -> conf_item.

(** [config.<item>.v = x]. *)
Definition set_v (c : config_t) (i : item) (x : conf_value) : config_t :=
  fun j => if item_eqb i j then with_v (c j) x else c j.

(** The log sink: the severity of a message and its text. *)
Inductive severity : Type :=
  LOG_DEBUG | LOG_INFO | LOG_NOTICE | LOG_WARNING | LOG_ERR | LOG_CRIT.

Definition log_entry : Type := severity * string.

(** The files the readers look for, each [None] when it cannot be opened. *)
Record filesystem : Type := mk_filesystem {
  local_conf : option string;    (* pihole-FTL.conf *)
  global_conf : option string;   (* /etc/pihole/pihole-FTL.conf *)
  local_toml : option string;    (* pihole-FTL.toml *)
  global_toml : option string    (* GLOBALTOMLPATH *)
}.

(** The process state the readers work on: the configuration, the log sink,
    the argument list of the resolver, and whether any debug flag is set. *)
Record state : Type := mk_state {
  config : config_t;
  logged : list log_entry;
  argv_dnsmasq : list string;
  debug_any : bool
}.

Definition set_config (st : state) (c : config_t) : state :=
  mk_state c (logged st) (argv_dnsmasq st) (debug_any st).

(** [config.<item>.v = x] on the state. *)
Definition store (st : state) (i : item) (x : conf_value) : state :=
  set_config st (set_v (config st) i x).

(** The current and the default value of an item. *)
Definition cur (st : state) (i : item) : conf_value := v (config st i).
Definition dflt (st : state) (i : item) : conf_value := d (config st i).

(** A call of the log sink. *)
Definition log_msg (st : state) (sev : severity) (msg : string) : state :=
  mk_state (config st) (logged st ++ [(sev, msg)])%list (argv_dnsmasq st) (debug_any st).

End Config.
Import Config.

(* ================================================================== *)
(** * Collaborators outside the three source files *)
(* ================================================================== *)

Module Toml.

#[local] Set Warnings "-register-all".

(** A parsed table of tomlc99: its key/value pairs, each value kept as the
    raw text of the document, and its sub-tables. *)
Inductive toml_table_t : Type :=
  | toml_table (kval : list (string * string)) (tab : list (string * toml_table_t)).

Fixpoint assoc {A} (key : string) (l : list (string * A)) : option A :=
  match l with
  | [] => None
  | (k0, a) :: l' => if String.eqb k0 key then Some a else assoc key l'
  end.

(** [toml_raw_in] and [toml_table_in]. *)
Definition toml_raw_in (tab : toml_table_t) (key : string) : option string :=
  match tab with toml_table kval _ => assoc key kval end.

Definition toml_table_in (tab : toml_table_t) (key : string) : option toml_table_t :=
  match tab with toml_table _ sub => assoc key sub end.

(** Modelled from the spec: [toml_bool_in] of tomlc99 is not under src/.  The
    writer emits booleans as bare true/false, and the reader's typed boolean
    extraction accepts exactly these two words. *)
Definition toml_rtob (raw : string) : option bool :=
  if String.eqb raw "true" then Some true
  else if String.eqb raw "false" then Some false
  else None.

Definition toml_bool_in (tab : toml_table_t) (key : string) : option bool :=
  match toml_raw_in tab key with Some raw => toml_rtob raw | None => None end.

(** Modelled from the spec: [toml_int_in] of tomlc99 is not under src/.  The
    writer emits integers decimal and the reader's typed numeric extraction
    yields a 64-bit signed datum: an optional sign, decimal digits without a
    leading zero, and a value of the range of [int64_t]. *)
Definition leading_zero (s : string) : bool :=
  match s with
  | String "0" (String _ _) => true
  | _ => false
  end.

Definition toml_rtoi (raw : string) : option Z :=
  let '(neg, s) := read_sign raw in
  if leading_zero s then None
  else
    match read_digits 10 s 0 O with
    | (_, O, _) => None
    | (m, _, EmptyString) =>
        let z := if neg then - m else m in
        if (LONG_MIN <=? z) && (z <=? LONG_MAX) then Some z else None
    | _ => None
    end.

Definition toml_int_in (tab : toml_table_t) (key : string) : option Z :=
  match toml_raw_in tab key with Some raw => toml_rtoi raw | None => None end.

(** The character an escape sequence of a basic string stands for. *)
Definition unescape_char (e : ascii) : option ascii :=
  let ch := byte_val e in
  if ch =? 98 then Some (ascii_of_Z 8)          (* \b *)
  else if ch =? 116 then Some (ascii_of_Z 9)    (* \t *)
  else if ch =? 110 then Some (ascii_of_Z 10)   (* \n *)
  else if ch =? 102 then Some (ascii_of_Z 12)   (* \f *)
  else if ch =? 114 then Some (ascii_of_Z 13)   (* \r *)
  else if ch =? 34 then Some dquote
  else if ch =? 92 then Some backslash
  else None.

(** The body of a basic string up to its closing quote, which ends the raw
    text.  A control character other than the tabulator must be escaped. *)
Fixpoint basic_string_body (s : string) : option string :=
  match s with
  | EmptyString => None
  | String c s' =>
      let ch := byte_val c in
      if ch =? 34 then
        match s' with EmptyString => Some EmptyString | _ => None end
      else if ch =? 92 then
        match s' with
        | String e s'' =>
            match unescape_char e, basic_string_body s'' with
            | Some x, Some r => Some (String x r)
            | _, _ => None
            end
        | EmptyString => None
        end
      else if ((ch <? 32) && negb (ch =? 9)) || (ch =? 127) then None
      else
        match basic_string_body s' with
        | Some r => Some (String c r)
        | None => None
        end
  end.

(** Modelled from the spec: [toml_string_in] of tomlc99 is not under src/.
    The writer emits strings double-quoted with the escapes \b \t \n \f \r,
    the escaped quote and the escaped backslash; the reader's string
    extraction decodes a double-quoted string with these escapes. *)
Definition toml_rtos (raw : string) : option string :=
  match raw with
  | String c body => if Ascii.eqb c dquote then basic_string_body body else None
  | EmptyString => None
  end.

Definition toml_string_in (tab : toml_table_t) (key : string) : option string :=
  match toml_raw_in tab key with Some raw => toml_rtos raw | None => None end.

End Toml.
Import Toml.

(** What the three source files call and do not define: the document parser
    of tomlc99, the enum name tables of datastructure.c, the IPv6 half of
    [inet_ntop]/[inet_pton], the [float] arithmetic of two legacy keys, and
    the names of the debug flags. *)
Class External : Type := {
  (** [toml_parse_file]: the root table, or the error message for a document
      that does not parse. *)
  toml_parse_file : string -> toml_table_t + string;
  (** [get_*_str] and [get_*_val]; [None] stands for the return value [-1]. *)
  get_ptr_type_str : ptr_type -> string;
  get_ptr_type_val : string -> option ptr_type;
  get_busy_reply_str : busy_reply -> string;
  get_busy_reply_val : string -> option busy_reply;
  get_blocking_mode_str : blocking_mode -> string;
  get_blocking_mode_val : string -> option blocking_mode;
  get_refresh_hostnames_str : refresh_hostnames -> string;
  get_refresh_hostnames_val : string -> option refresh_hostnames;
  (** [inet_ntop(AF_INET6, ...)] and [inet_pton(AF_INET6, ...)]. *)
  inet_ntop6 : in6_addr -> string;
  inet_pton6 : string -> option in6_addr;
  (** The C type [float], the conversion [%f], and the two computations the
      legacy reader makes in it: for [DBINTERVAL], [(int)(fvalue * 60)] when
      [0.1f <= fvalue <= 1440.0f]; for [MAXLOGAGE], [(int)(fvalue * 3600)]
      when [0.0f <= fvalue <= 1.0f*MAXLOGAGE]; [None] out of these ranges. *)
  float : Type;
  float_zero : float;
  sscanf_f : string -> scan float;
  DBinterval_of : float -> option Z;
  maxHistory_of : float -> option Z;
  (** [debugstr(flag, &name)] for the flags from [DEBUG_DATABASE] up to, and
      without, [DEBUG_EXTRA], in this order. *)
  debug_names : list string
}.

(* ================================================================== *)
(** * toml_helper.c: the string printer *)
(* ================================================================== *)

(** The test both loops of [printTOMLstring] make on a character: it is
    printable, and neither the double quote (34) nor the backslash (92). *)
Definition verbatim (ch : Z) : bool :=
  isprint ch && negb (ch =? 34) && negb (ch =? 92).

(** The first loop: [for (p = s; *p && ok; p++) ok = ...], started with [ok]. *)
Fixpoint printable_scan (p : string) (ok : bool) : bool :=
  match p with
  | EmptyString => ok
  | String c p' =>
      if Ascii.eqb c NUL then ok
      else if ok then printable_scan p' (verbatim (char_val c))
      else ok
  end.

(** What one turn of the second loop writes for the character [ch]. *)
Definition escape_char (ch : Z) : string :=
  if verbatim ch then String (ascii_of_Z ch) EmptyString
  else if ch =? 8 then "\b"
  else if ch =? 9 then "\t"
  else if ch =? 10 then "\n"
  else if ch =? 12 then "\f"
  else if ch =? 13 then "\r"
  else if ch =? 34 then String backslash (String dquote EmptyString)
  else if ch =? 92 then "\\"
  else "\0x" ++ fmt_02x (Z.land ch 255).

(** The second loop: [for ( ; len; len--, s++)]. *)
Fixpoint escape_loop (len : nat) (s : string) : string :=
  match len, s with
  | S len', String c s' => escape_char (char_val c) ++ escape_loop len' s'
  | _, _ => EmptyString
  end.

(** The slow path of [printTOMLstring] (lines 57-80): the general escaper. *)
Definition printTOMLstring_slow (s : string) : string :=
  String dquote (escape_loop (strlen s) s ++ String dquote EmptyString).

(** The fast path (line 52): the string as it is, between double quotes. *)
Definition printTOMLstring_fast (s : string) : string :=
  String dquote (c_str s ++ String dquote EmptyString).

(** [printTOMLstring(fp, s)]: the text written to [fp]. *)
Definition printTOMLstring (s : option string) : string :=
  let s := match s with None => EmptyString | Some s => s end in
  if printable_scan s true then printTOMLstring_fast s
  else printTOMLstring_slow s.

(** [indentTOML(fp, indent)] (toml_helper.c, lines 85-89): the text written.
    The loop runs while [i < 2*indent], computed in [unsigned int]. *)
Fixpoint indent_loop (n : nat) : string :=
  match n with
  | O => EmptyString
  | S n' => String " " (indent_loop n')
  end.

Definition indentTOML (indent : Z) : string :=
  indent_loop (Z.to_nat (wrap_u32 (2 * wrap_u32 indent))).

(* ================================================================== *)
(** * toml_helper.c: writing and reading a value *)
(* ================================================================== *)

Section TomlHelper.
Context {E : External}.

(** [writeTOMLvalue(fp, t, v)]: the text written to [fp]. *)
Definition writeTOMLvalue (t : conf_type) (v : conf_value) : string :=
  match t with
  | CONF_BOOL => if get_b v then "true" else "false"
  | CONF_INT => fmt_d (get_i v)
  | CONF_UINT | CONF_ENUM_PRIVACY_LEVEL => fmt_d (get_ui v)
  | CONF_LONG => fmt_d (get_l v)
  | CONF_ULONG => fmt_d (get_ul v)
  | CONF_STRING => printTOMLstring (get_s v)
  | CONF_ENUM_PTR_TYPE => printTOMLstring (Some (get_ptr_type_str (get_ptr_type v)))
  | CONF_ENUM_BUSY_TYPE => printTOMLstring (Some (get_busy_reply_str (get_busy_reply v)))
  | CONF_ENUM_BLOCKING_MODE =>
      printTOMLstring (Some (get_blocking_mode_str (get_blocking_mode v)))
  | CONF_ENUM_REFRESH_HOSTNAMES =>
      printTOMLstring (Some (get_refresh_hostnames_str (get_refresh_hostnames v)))
  | CONF_STRUCT_IN_ADDR => printTOMLstring (Some (inet_ntop4 (get_in_addr v)))
  | CONF_STRUCT_IN6_ADDR => printTOMLstring (Some (inet_ntop6 (get_in6_addr v)))
  end.

Definition not_of_type (it : conf_item) (what : string) : list log_entry :=
  [(LOG_DEBUG, k it ++ " does not exist or is not of type " ++ what)].

Definition invalid_option (it : conf_item) : list log_entry :=
  [(LOG_WARNING, "Config setting " ++ k it ++ " is invalid, allowed options are: " ++ h it)].

(** The four enum cases of [readTOMLvalue] differ in the table they consult
    and the member they write. *)
Definition read_enum {A} (get_val : string -> option A) (mk : A -> conf_value)
    (it : conf_item) (key : string) (toml : toml_table_t) : conf_item * list log_entry :=
  match toml_string_in toml key with
  | Some s =>
      match get_val s with
      | Some e => (with_v it (mk e), [])
      | None => (it, invalid_option it)
      end
  | None => (it, not_of_type it "string")
  end.

(** [readTOMLvalue(conf_item, key, toml)]: the item after the call, and what
    the call logged. *)
Definition readTOMLvalue (it : conf_item) (key : string) (toml : toml_table_t)
  : conf_item * list log_entry :=
  match t it with
  | CONF_BOOL =>
      match toml_bool_in toml key with
      | Some b => (with_v it (V_bool b), [])
      | None => (it, not_of_type it "bool")
      end
  | CONF_INT =>
      match toml_int_in toml key with
      | Some i => (with_v it (set_i i), [])
      | None => (it, not_of_type it "integer")
      end
  | CONF_UINT =>
      match toml_int_in toml key with
      | Some i =>
          if 0 <=? i then (with_v it (set_ui i), [])
          else (it, not_of_type it "unsigned integer")
      | None => (it, not_of_type it "unsigned integer")
      end
  | CONF_LONG =>
      match toml_int_in toml key with
      | Some i => (with_v it (set_l i), [])
      | None => (it, not_of_type it "long")
      end
  | CONF_ULONG =>
      match toml_int_in toml key with
      | Some i =>
          if 0 <=? i then (with_v it (set_ul i), [])
          else (it, not_of_type it "unsigned long")
      | None => (it, not_of_type it "unsigned long")
      end
  | CONF_STRING =>
      match toml_string_in toml key with
      | Some s => (with_v it (V_str (Some s)), [])
      | None => (it, not_of_type it "string")
      end
  | CONF_ENUM_PTR_TYPE => read_enum get_ptr_type_val V_ptr_type it key toml
  | CONF_ENUM_BUSY_TYPE => read_enum get_busy_reply_val V_busy_reply it key toml
  | CONF_ENUM_BLOCKING_MODE => read_enum get_blocking_mode_val V_blocking_mode it key toml
  | CONF_ENUM_REFRESH_HOSTNAMES =>
      read_enum get_refresh_hostnames_val V_refresh_hostnames it key toml
  | CONF_ENUM_PRIVACY_LEVEL =>
      match toml_int_in toml key with
      | Some i =>
          if (PRIVACY_SHOW_ALL <=? i) && (i <=? PRIVACY_MAXIMUM)
          then (with_v it (set_i i), [])
          else (it, [(LOG_DEBUG, k it ++ " does not exist or is invalid")])
      | None => (it, [(LOG_DEBUG, k it ++ " does not exist or is invalid")])
      end
  | CONF_STRUCT_IN_ADDR =>
      match toml_string_in toml key with
      | Some s =>
          match inet_pton4 s with
          | Some a => (with_v it (V_in_addr a), [])
          | None => (it, [])
          end
      | None => (it, [])
      end
  | CONF_STRUCT_IN6_ADDR =>
      match toml_string_in toml key with
      | Some s =>
          match inet_pton6 s with
          | Some a => (with_v it (V_in6_addr a), [])
          | None => (it, [])
          end
      | None => (it, [])
      end
  end.

End TomlHelper.

(* ================================================================== *)
(** * The legacy reader *)
(* ================================================================== *)

Module Legacy.

(** An open [FILE *]: the text of the file. *)
Definition FILE : Type := string.

(** [openFTLconf(&path)]: the local file, else the system file. *)
Definition openFTLconf (fs : filesystem) : option FILE * string :=
  match local_conf fs with
  | Some fp => (Some fp, "pihole-FTL.conf")
  | None => (global_conf fs, "/etc/pihole/pihole-FTL.conf")
  end.

(** The lines [getline] returns one after the other, each with its
    terminating newline when it has one; [line] is the part of the current
    line already read. *)
Fixpoint getlines (line : string) (text : string) : list string :=
  match text with
  | EmptyString => match line with EmptyString => [] | _ => [line] end
  | String c text' =>
      if Ascii.eqb c LF then (line ++ String c EmptyString) :: getlines EmptyString text'
      else getlines (line ++ String c EmptyString) text'
  end.

(** Modelled from the spec: [find_equals] of setupVars.c is not under src/.
    It locates the equals sign of a KEY=value line: the line from its first
    equals sign on (the empty rest when it has none). *)
Fixpoint find_equals (s : string) : string :=
  match s with
  | EmptyString => EmptyString
  | String c s' => if Ascii.eqb c "="%char then s else find_equals s'
  end.

(** White space at the end of a string removed. *)
Fixpoint trim_end (s : string) : string :=
  match s with
  | EmptyString => EmptyString
  | String c s' =>
      match trim_end s' with
      | EmptyString => if isspace (byte_val c) then EmptyString else String c EmptyString
      | r => String c r
      end
  end.

(** Modelled from the spec: [trim_whitespace] of setupVars.c is not under
    src/.  Values are trimmed: white space at the beginning and at the end
    of the string is removed. *)
Definition trim_whitespace (s : string) : string := trim_end (skip_space s).

(** [p + 1] for a pointer into a string. *)
Definition next_char (s : string) : string :=
  match s with String _ s' => s' | EmptyString => EmptyString end.

(** The loop of [parseFTLconf] over the lines of the file. *)
Fixpoint parseFTLconf_loop (keystr : string) (lines : list string) : option string :=
  match lines with
  | [] => None
  | line :: rest =>
      let conflinebuffer := c_str line in
      let first := match conflinebuffer with String c _ => c | EmptyString => NUL end in
      (* Skip comment lines *)
      if (Ascii.eqb first "#"%char || Ascii.eqb first ";"%char)%bool
      then parseFTLconf_loop keystr rest
      else
        (* Skip lines with other keys *)
        match strstr conflinebuffer keystr with
        | None => parseFTLconf_loop keystr rest
        | Some _ =>
            (* otherwise: key found *)
            Some (trim_whitespace (next_char (find_equals conflinebuffer)))
        end
  end.

(** [parseFTLconf(fp, key)] on an open file; [None] is [NULL].  The lock and
    its debug tracing are left out. *)
Definition parseFTLconf (fp : FILE) (key : string) : option string :=
  parseFTLconf_loop (key ++ "=") (getlines EmptyString fp).

(** [parseBool(option, ptr)]: [Some b] when the call returns true and has
    set [*ptr = b]; [None] when it returns false and leaves [*ptr]. *)
Definition parseBool (opt : option string) : option bool :=
  match opt with
  | None => None
  | Some o =>
      if (strcasecmp o "false" =? 0) || (strcasecmp o "no" =? 0) then Some false
      else if (strcasecmp o "true" =? 0) || (strcasecmp o "yes" =? 0) then Some true
      else None
  end.

(** [buffer = parseFTLconf(fp, key); parseBool(buffer, &config.<i>.v.b);]. *)
Definition legacy_bool (key : string) (i : item) (fp : FILE) (st : state) : state :=
  match parseBool (parseFTLconf fp key) with
  | Some b => store st i (V_bool b)
  | None => st
  end.

(** [getPath(fp, option, ptr)]: the pointer returned, and the state after
    the call.  [sscanf] writes to the parameter [ptr] itself, so what is
    returned when the call does not return 1 is what [sscanf] left there.
    Allocation does not fail here. *)
Definition getPath (fp : FILE) (opt : string) (ptr : option string) (st : state)
  : option string * state :=
  match parseFTLconf fp opt with
  | None => (ptr, st)
  | Some buffer =>
      let '(ret, ptr) := sscanf_ms buffer in
      if negb (ret =? 1) then (ptr, st)
      else
        match ptr with
        | None => (ptr, st)
        | Some p =>
            if (strlen p =? 0)%nat
            then (ptr, log_msg st LOG_INFO
                    ("   " ++ opt ++ ": Empty path is not possible, using default"))
            else (ptr, st)
        end
  end.

(** [config.<i>.v.s = getPath(fp, key, config.<i>.v.s);]. *)
Definition legacy_path (key : string) (i : item) (fp : FILE) (st : state) : state :=
  let '(p, st1) := getPath fp key (get_s (cur st i)) st in
  store st1 i (V_str p).

(** The contents of the automatic variables of [readFTLlegacy] that are read
    before anything was assigned to them. *)
Record indeterminate : Type := mk_indeterminate {
  unum_init : Z;
  reply_addr6_init : in6_addr
}.

Section Handlers.
Context {E : External}.

(** MAXDBDAYS (lines 107-122). *)
Definition legacy_MAXDBDAYS (fp : FILE) (st : state) : state :=
  let buffer := parseFTLconf fp "MAXDBDAYS" in
  let value := 0 in
  let maxdbdays_max := INT_MAX / 24 / 60 / 60 in
  match buffer with
  | None => st
  | Some buffer =>
      let r := sscanf_i buffer in
      if scan_ret r =? 0 then st
      else
        let value := scan_store r value in
        (* Prevent possible overflow *)
        let value := if value >? maxdbdays_max then maxdbdays_max else value in
        (* Only use valid values *)
        if (value =? -1) || (value >=? 0)
        then store st database_maxDBdays (set_i value)
        else st
  end.

(** DBINTERVAL (lines 134-146). *)
Definition legacy_DBINTERVAL (fp : FILE) (st : state) : state :=
  match parseFTLconf fp "DBINTERVAL" with
  | None => st
  | Some buffer =>
      let r := sscanf_f buffer in
      if scan_ret r =? 0 then st
      else
        match DBinterval_of (scan_store r float_zero) with
        | Some seconds => store st database_DBinterval (set_ui seconds)
        | None => st
        end
  end.

(** DBFILE (lines 148-165).  [sscanf] writes to the item's string; the
    first condition then fails, and the default path is taken, when the key
    is absent or [sscanf] returns 0. *)
Definition legacy_DBFILE (fp : FILE) (st : state) : state :=
  let use_default (st : state) :=
    store st files_database (V_str (get_s (dflt st files_database))) in
  let st1 :=
    match parseFTLconf fp "DBFILE" with
    | None => use_default st
    | Some buffer =>
        let '(ret, ptr) := sscanf_ms buffer in
        let st := store st files_database (V_str ptr) in
        if ret =? 0 then use_default st else st
    end in
  let empty := match get_s (cur st1 files_database) with
               | None => true
               | Some p => (strlen p =? 0)%nat
               end in
  if empty then
    (* Use standard path if path was set to zero but override MAXDBDAYS=0 *)
    store (use_default st1) database_maxDBdays (set_i 0)
  else st1.

(** MAXLOGAGE (lines 167-177). *)
Definition legacy_MAXLOGAGE (fp : FILE) (st : state) : state :=
  match parseFTLconf fp "MAXLOGAGE" with
  | None => st
  | Some buffer =>
      let r := sscanf_f buffer in
      if scan_ret r =? 0 then st
      else
        match maxHistory_of (scan_store r float_zero) with
        | Some seconds => store st database_maxHistory (set_ui seconds)
        | None => st
        end
  end.

(** [getPrivacyLevelLegacy(fp)] (lines 698-731). *)
Definition getPrivacyLevelLegacy (fs : filesystem) (fp : option FILE) (st : state) : state :=
  let fp := match fp with Some f => Some f | None => fst (openFTLconf fs) end in
  match fp with
  | None => st     (* Return silently if there is no config file available *)
  | Some fp =>
      let value := 0 in
      match parseFTLconf fp "PRIVACYLEVEL" with
      | None => st
      | Some buffer =>
          let r := sscanf_i buffer in
          if scan_ret r =? 1 then
            let value := scan_store r value in
            (* Check for change and validity of privacy level *)
            if (value >=? PRIVACY_SHOW_ALL) && (value <=? PRIVACY_MAXIMUM)
               && (value >? get_privacy_level (cur st misc_privacylevel))
            then store st misc_privacylevel (set_ui value)
            else st
          else st
      end
  end.

(** [getBlockingModeLegacy(fp)] (lines 733-774). *)
Definition getBlockingModeLegacy (fs : filesystem) (fp : option FILE) (st : state) : state :=
  (* (Re-)set default value *)
  let st := store st dns_blockingmode
              (V_blocking_mode (get_blocking_mode (dflt st dns_blockingmode))) in
  let fp := match fp with Some f => Some f | None => fst (openFTLconf fs) end in
  match fp with
  | None => st
  | Some fp =>
      match parseFTLconf fp "BLOCKINGMODE" with
      | None => st
      | Some buffer =>
          if strcasecmp buffer "NXDOMAIN" =? 0
          then store st dns_blockingmode (V_blocking_mode MODE_NX)
          else if strcasecmp buffer "NULL" =? 0
          then store st dns_blockingmode (V_blocking_mode MODE_NULL)
          else if strcasecmp buffer "IP-NODATA-AAAA" =? 0
          then store st dns_blockingmode (V_blocking_mode MODE_IP_NODATA_AAAA)
          else if strcasecmp buffer "IP" =? 0
          then store st dns_blockingmode (V_blocking_mode MODE_IP)
          else if strcasecmp buffer "NODATA" =? 0
          then store st dns_blockingmode (V_blocking_mode MODE_NODATA)
          else log_msg st LOG_WARNING "Unknown blocking mode, using NULL as fallback"
      end
  end.

(** IGNORE_LOCALHOST (lines 191-197). *)
Definition legacy_IGNORE_LOCALHOST (fp : FILE) (st : state) : state :=
  let buffer := parseFTLconf fp "IGNORE_LOCALHOST" in
  let st := match parseBool buffer with
            | Some b => store st dns_ignoreLocalhost (V_bool b)
            | None => st
            end in
  match buffer with
  | Some b => if strcasecmp b "yes" =? 0
              then store st dns_ignoreLocalhost (V_bool true) else st
  | None => st
  end.

(** ANALYZE_ONLY_A_AND_AAAA (lines 203-209). *)
Definition legacy_ANALYZE_ONLY_A_AND_AAAA (fp : FILE) (st : state) : state :=
  let buffer := parseFTLconf fp "ANALYZE_ONLY_A_AND_AAAA" in
  let st := match parseBool buffer with
            | Some b => store st dns_analyzeOnlyAandAAAA (V_bool b)
            | None => st
            end in
  match buffer with
  | Some b => if strcasecmp b "true" =? 0
              then store st dns_analyzeOnlyAandAAAA (V_bool true) else st
  | None => st
  end.

(** DELAY_STARTUP (lines 238-244); [unum] is read as it was left on the
    stack when [sscanf] returns [EOF]. *)
Definition legacy_DELAY_STARTUP (ind : indeterminate) (fp : FILE) (st : state) : state :=
  match parseFTLconf fp "DELAY_STARTUP" with
  | None => st
  | Some buffer =>
      let r := sscanf_u buffer in
      let unum := scan_store r (wrap_u32 (unum_init ind)) in
      if negb (scan_ret r =? 0) && (unum >? 0) && (unum <=? 300)
      then store st misc_delay_startup (set_ui unum)
      else st
  end.

(** WEBPORT (lines 254-261). *)
Definition legacy_WEBPORT (fp : FILE) (st : state) : state :=
  match parseFTLconf fp "WEBPORT" with
  | Some buffer =>
      if (0 <? strlen buffer)%nat then store st http_port (V_str (Some buffer)) else st
  | None => st
  end.

(** WEBACL (lines 268-290). *)
Definition legacy_WEBACL (fp : FILE) (st : state) : state :=
  match parseFTLconf fp "WEBACL" with
  | Some buffer => store st http_acl (V_str (Some buffer))
  | None => st
  end.

(** API_SESSION_TIMEOUT (lines 297-304). *)
Definition legacy_API_SESSION_TIMEOUT (fp : FILE) (st : state) : state :=
  let value := 0 in
  match parseFTLconf fp "API_SESSION_TIMEOUT" with
  | None => st
  | Some buffer =>
      let r := sscanf_i buffer in
      let value := scan_store r value in
      if negb (scan_ret r =? 0) && (value >? 0)
      then store st http_sessionTimeout (set_ui value)
      else st
  end.

(** MAXNETAGE (lines 330-340): the state, and [ivalue] after the block. *)
Definition legacy_MAXNETAGE (fp : FILE) (st : state) : state * Z :=
  let ivalue := 0 in
  match parseFTLconf fp "MAXNETAGE" with
  | None => (st, ivalue)
  | Some buffer =>
      let r := sscanf_i buffer in
      let ivalue := scan_store r ivalue in
      if negb (scan_ret r =? 0) && (ivalue >? 0) && (ivalue <=? 8760)
      then (store st database_network_expire (set_ui ivalue), ivalue)
      else (st, ivalue)
  end.

(** REFRESH_HOSTNAMES (lines 360-371). *)
Definition legacy_REFRESH_HOSTNAMES (fp : FILE) (st : state) : state :=
  let buffer := parseFTLconf fp "REFRESH_HOSTNAMES" in
  let buffer_is (name : string) :=
    match buffer with Some b => strcasecmp b name =? 0 | None => false end in
  if buffer_is "ALL" then store st resolver_refreshNames (V_refresh_hostnames REFRESH_ALL)
  else if buffer_is "NONE"
  then store st resolver_refreshNames (V_refresh_hostnames REFRESH_NONE)
  else if buffer_is "UNKNOWN"
  then store st resolver_refreshNames (V_refresh_hostnames REFRESH_UNKNOWN)
  else store st resolver_refreshNames (V_refresh_hostnames REFRESH_IPV4_ONLY).

(** RATE_LIMIT (lines 376-385). *)
Definition legacy_RATE_LIMIT (fp : FILE) (st : state) : state :=
  match parseFTLconf fp "RATE_LIMIT" with
  | None => st
  | Some buffer =>
      let '(ret, count, interval) := sscanf_u_slash_u buffer 0 0 in
      if ret =? 2 then
        store (store st dns_rateLimit_count (set_ui count))
              dns_rateLimit_interval (set_ui interval)
      else st
  end.

(** LOCAL_IPV4 and BLOCK_IPV4 (lines 387-395, 407-414): the flag and the
    address are reset, then set from the key. *)
Definition legacy_addr4 (key : string) (overwrite addr : item) (fp : FILE) (st : state)
  : state :=
  let st := store st overwrite (V_bool false) in
  let st := store st addr (V_in_addr in_addr_zero) in
  match parseFTLconf fp key with
  | None => st
  | Some buffer =>
      match inet_pton4 buffer with
      | Some a => store (store st addr (V_in_addr a)) overwrite (V_bool true)
      | None => st
      end
  end.

(** LOCAL_IPV6 and BLOCK_IPV6 (lines 397-405, 416-423). *)
Definition legacy_addr6 (key : string) (overwrite addr : item) (fp : FILE) (st : state)
  : state :=
  let st := store st overwrite (V_bool false) in
  let st := store st addr (V_in6_addr in6_addr_zero) in
  match parseFTLconf fp key with
  | None => st
  | Some buffer =>
      match inet_pton6 buffer with
      | Some a => store (store st addr (V_in6_addr a)) overwrite (V_bool true)
      | None => st
      end
  end.

(** REPLY_ADDR4 (lines 425-444). *)
Definition legacy_REPLY_ADDR4 (fp : FILE) (st : state) : state :=
  match parseFTLconf fp "REPLY_ADDR4" with
  | None => st
  | Some buffer =>
      match inet_pton4 buffer with
      | None => st
      | Some reply_addr4 =>
          if get_b (cur st dns_reply_host_overwrite_v4)
             || get_b (cur st dns_reply_blocking_overwrite_v4)
          then log_msg st LOG_WARNING
                 "Ignoring REPLY_ADDR4 as LOCAL_IPV4 or BLOCK_IPV4 has been specified."
          else
            let st := store st dns_reply_host_overwrite_v4 (V_bool true) in
            let st := store st dns_reply_host_v4 (V_in_addr reply_addr4) in
            let st := store st dns_reply_blocking_overwrite_v4 (V_bool true) in
            store st dns_reply_blocking_v4 (V_in_addr reply_addr4)
      end
  end.

(** What [inet_pton(AF_INET, buffer, &reply_addr6)] leaves in the sixteen
    bytes of [reply_addr6]: the four octets it parsed, then what was there. *)
Definition in6_of_in4 (a : in_addr) (before : in6_addr) : in6_addr :=
  let '(a0, a1, a2, a3) := a in (a0 :: a1 :: a2 :: a3 :: skipn 4 before)%list.

(** REPLY_ADDR6 (lines 446-465): the value is parsed with [AF_INET]. *)
Definition legacy_REPLY_ADDR6 (ind : indeterminate) (fp : FILE) (st : state) : state :=
  match parseFTLconf fp "REPLY_ADDR6" with
  | None => st
  | Some buffer =>
      match inet_pton4 buffer with
      | None => st
      | Some a =>
          let reply_addr6 := in6_of_in4 a (reply_addr6_init ind) in
          if get_b (cur st dns_reply_host_overwrite_v6)
             || get_b (cur st dns_reply_blocking_overwrite_v6)
          then log_msg st LOG_WARNING
                 "Ignoring REPLY_ADDR6 as LOCAL_IPV6 or BLOCK_IPV6 has been specified."
          else
            let st := store st dns_reply_host_overwrite_v6 (V_bool true) in
            let st := store st dns_reply_host_v6 (V_in6_addr reply_addr6) in
            let st := store st dns_reply_blocking_overwrite_v6 (V_bool true) in
            store st dns_reply_blocking_v6 (V_in6_addr reply_addr6)
      end
  end.

(** PIHOLE_PTR (lines 479-493). *)
Definition legacy_PIHOLE_PTR (fp : FILE) (st : state) : state :=
  match parseFTLconf fp "PIHOLE_PTR" with
  | None => st
  | Some buffer =>
      if (strcasecmp buffer "none" =? 0) || (strcasecmp buffer "false" =? 0)
      then store st dns_piholePTR (V_ptr_type PTR_NONE)
      else if strcasecmp buffer "hostname" =? 0
      then store st dns_piholePTR (V_ptr_type PTR_HOSTNAME)
      else if strcasecmp buffer "hostnamefqdn" =? 0
      then store st dns_piholePTR (V_ptr_type PTR_HOSTNAMEFQDN)
      else st
  end.

(** REPLY_WHEN_BUSY (lines 501-514). *)
Definition legacy_REPLY_WHEN_BUSY (fp : FILE) (st : state) : state :=
  match parseFTLconf fp "REPLY_WHEN_BUSY" with
  | None => st
  | Some buffer =>
      if strcasecmp buffer "DROP" =? 0
      then store st dns_replyWhenBusy (V_busy_reply BUSY_DROP)
      else if strcasecmp buffer "REFUSE" =? 0
      then store st dns_replyWhenBusy (V_busy_reply BUSY_REFUSE)
      else if strcasecmp buffer "BLOCK" =? 0
      then store st dns_replyWhenBusy (V_busy_reply BUSY_BLOCK)
      else st
  end.

(** BLOCK_TTL (lines 516-523). *)
Definition legacy_BLOCK_TTL (fp : FILE) (st : state) : state :=
  let st := store st dns_blockTTL (set_ui 2) in
  let uval := 0 in
  match parseFTLconf fp "BLOCK_TTL" with
  | None => st
  | Some buffer =>
      let r := sscanf_u buffer in
      if scan_ret r =? 0 then st
      else store st dns_blockTTL (set_ui (scan_store r uval))
  end.

(** CHECK_SHMEM (lines 539-547): [ivalue] comes from the blocks above. *)
Definition legacy_CHECK_SHMEM (ivalue : Z) (fp : FILE) (st : state) : state * Z :=
  let st := store st misc_check_shmem (set_ui 90) in
  match parseFTLconf fp "CHECK_SHMEM" with
  | None => (st, ivalue)
  | Some buffer =>
      let r := sscanf_i buffer in
      let ivalue := scan_store r ivalue in
      if negb (scan_ret r =? 0) && (ivalue >=? 0) && (ivalue <=? 100)
      then (store st misc_check_shmem (set_ui ivalue), ivalue)
      else (st, ivalue)
  end.

(** CHECK_DISK (lines 549-557): written through the [bool] member [b]. *)
Definition legacy_CHECK_DISK (ivalue : Z) (fp : FILE) (st : state) : state * Z :=
  let st := store st misc_check_disk (set_b_of_int 90) in
  match parseFTLconf fp "CHECK_DISK" with
  | None => (st, ivalue)
  | Some buffer =>
      let r := sscanf_i buffer in
      let ivalue := scan_store r ivalue in
      if negb (scan_ret r =? 0) && (ivalue >=? 0) && (ivalue <=? 100)
      then (store st misc_check_disk (set_b_of_int ivalue), ivalue)
      else (st, ivalue)
  end.

(** Whether [i] is one of the debug items. *)
Definition is_debug_item (i : item) : bool :=
  match i with debug_all | debug_flag _ => true | _ => false end.

(** Modelled from the spec: [set_all_debug] of config.c is not under src/.
    It sets the default of the debug flag set, no debug instruction set:
    every debug item becomes [b]. *)
Definition set_all_debug (b : bool) (st : state) : state :=
  set_config st (fun j => if is_debug_item j then with_v (config st j) (V_bool b)
                          else config st j).

(** [setDebugOption(fp, option, flag)], with the item of the flag for
    [get_debug_item(flag)] (lines 777-791). *)
Definition setDebugOption (fp : FILE) (opt : string) (debug : item) (st : state) : state :=
  match parseFTLconf fp opt with
  | None => st     (* Return early if the key has not been found *)
  | Some buffer =>
      match parseBool (Some buffer) with
      | Some bit => store st debug (V_bool bit)
      | None => st
      end
  end.

(** The loop over the flags, [n] being the index of the first name left. *)
Fixpoint setDebugOptions (fp : FILE) (names : list string) (n : nat) (st : state) : state :=
  match names with
  | [] => st
  | name :: names' => setDebugOptions fp names' (S n) (setDebugOption fp name (debug_flag n) st)
  end.

(** Modelled from the spec: [parse_debug_options] of config.c is not under
    src/.  After the debug pass the presence of any enabled debug flag is
    recorded in [debug_any]. *)
Definition parse_debug_options (st : state) : state :=
  let any := get_b (cur st debug_all)
             || existsb (fun n => get_b (cur st (debug_flag n)))
                        (seq 0 (List.length debug_names)) in
  mk_state (config st) (logged st) (argv_dnsmasq st) any.

(** [l[n] = x] for an array [l]. *)
Fixpoint array_set {A} (l : list A) (n : nat) (x : A) : list A :=
  match l, n with
  | [], _ => []
  | _ :: l', O => x :: l'
  | y :: l', S n' => y :: array_set l' n' x
  end.

(** [readDebugingSettingsLegacy(fp)] (lines 793-842). *)
Definition readDebugingSettingsLegacy (fs : filesystem) (fp : option FILE) (st : state)
  : state :=
  (* Set default (no debug instructions set) *)
  let st := set_all_debug false st in
  let fp := match fp with Some f => Some f | None => fst (openFTLconf fs) end in
  match fp with
  | None => st
  | Some fp =>
      let st := setDebugOption fp "DEBUG_ALL" debug_all st in
      let st := setDebugOptions fp debug_names O st in
      let st := parse_debug_options st in
      if debug_any st
      then mk_state (config st) (logged st)
             (array_set (argv_dnsmasq st) 2 "--log-debug") (debug_any st)
      else st
  end.

(** [getLogFilePathLegacy(fp)] (lines 52-89): the return value and the state. *)
Definition getLogFilePathLegacy (fs : filesystem) (fp : option FILE) (st : state)
  : bool * state :=
  let fp := match fp with Some f => Some f | None => fst (openFTLconf fs) end in
  match fp with
  | None => (false, st)
  | Some fp =>
      match parseFTLconf fp "LOGFILE" with
      | None =>
          (* No option set => use default log location *)
          (true, store st files_log (V_str (Some "/var/log/pihole/FTL.log")))
      | Some buffer =>
          let '(ret, ptr) := sscanf_ms buffer in
          let st := store st files_log (V_str ptr) in
          if ret =? 0 then
            (* Empty file string *)
            (true, log_msg (store st files_log (V_str None)) LOG_INFO
                     "Using syslog facility")
          else (true, st)
      end
  end.

(** [readFTLlegacy()] (lines 92-572): the path of the file read ([None] for
    [NULL]) and the state after the call. *)
Definition readFTLlegacy (ind : indeterminate) (fs : filesystem) (st : state)
  : option string * state :=
  match openFTLconf fs with
  | (None, _) => (None, st)
  | (Some fp, path) =>
      let st := log_msg st LOG_NOTICE "Reading legacy config file" in
      let st := legacy_bool "AAAA_QUERY_ANALYSIS" dns_analyzeAAAA fp st in
      let st := legacy_MAXDBDAYS fp st in
      let st := legacy_bool "RESOLVE_IPV6" resolver_resolveIPv6 fp st in
      let st := legacy_bool "RESOLVE_IPV4" resolver_resolveIPv4 fp st in
      let st := legacy_DBINTERVAL fp st in
      let st := legacy_DBFILE fp st in
      let st := legacy_MAXLOGAGE fp st in
      let st := getPrivacyLevelLegacy fs (Some fp) st in
      let st := legacy_IGNORE_LOCALHOST fp st in
      let st := getBlockingModeLegacy fs (Some fp) st in
      let st := legacy_ANALYZE_ONLY_A_AND_AAAA fp st in
      let st := legacy_bool "DBIMPORT" database_DBimport fp st in
      let st := legacy_path "PIDFILE" files_pid fp st in
      let st := legacy_path "SETUPVARSFILE" files_setupVars fp st in
      let st := legacy_path "MACVENDORDB" files_macvendor fp st in
      let st := legacy_path "GRAVITYDB" files_gravity fp st in
      let st := legacy_bool "PARSE_ARP_CACHE" database_network_parseARPcache fp st in
      let st := legacy_bool "CNAME_DEEP_INSPECT" dns_CNAMEdeepInspect fp st in
      let st := legacy_DELAY_STARTUP ind fp st in
      let st := legacy_bool "BLOCK_ESNI" dns_blockESNI fp st in
      let st := legacy_path "WEBROOT" http_paths_webroot fp st in
      let st := legacy_WEBPORT fp st in
      let st := legacy_path "WEBHOME" http_paths_webhome fp st in
      let st := legacy_WEBACL fp st in
      let st := legacy_bool "API_AUTH_FOR_LOCALHOST" http_localAPIauth fp st in
      let st := legacy_API_SESSION_TIMEOUT fp st in
      let st := legacy_bool "API_PRETTY_JSON" http_prettyJSON fp st in
      let st := legacy_path "API_ERROR_LOG" files_ph7_error fp st in
      let st := legacy_path "API_INFO_LOG" files_http_info fp st in
      (* NICE: the value is looked up and not used *)
      let r := legacy_MAXNETAGE fp st in
      let st := fst r in
      let ivalue := snd r in
      let st := legacy_bool "NAMES_FROM_NETDB" resolver_networkNames fp st in
      let st := legacy_bool "EDNS0_ECS" dns_EDNS0ECS fp st in
      let st := legacy_REFRESH_HOSTNAMES fp st in
      let st := legacy_path "WEBDOMAIN" http_domain fp st in
      let st := legacy_RATE_LIMIT fp st in
      let st := legacy_addr4 "LOCAL_IPV4" dns_reply_host_overwrite_v4 dns_reply_host_v4 fp st in
      let st := legacy_addr6 "LOCAL_IPV6" dns_reply_host_overwrite_v6 dns_reply_host_v6 fp st in
      let st := legacy_addr4 "BLOCK_IPV4" dns_reply_blocking_overwrite_v4
                  dns_reply_blocking_v4 fp st in
      let st := legacy_addr6 "BLOCK_IPV6" dns_reply_blocking_overwrite_v6
                  dns_reply_blocking_v6 fp st in
      let st := legacy_REPLY_ADDR4 fp st in
      let st := legacy_REPLY_ADDR6 ind fp st in
      let st := legacy_bool "SHOW_DNSSEC" dns_showDNSSEC fp st in
      let st := legacy_bool "MOZILLA_CANARY" dns_specialDomains_mozillaCanary fp st in
      let st := legacy_PIHOLE_PTR fp st in
      let st := legacy_bool "ADDR2LINE" misc_addr2line fp st in
      let st := legacy_REPLY_WHEN_BUSY fp st in
      let st := legacy_BLOCK_TTL fp st in
      let st := legacy_bool "BLOCK_ICLOUD_PR" dns_specialDomains_iCloudPrivateRelay fp st in
      let st := legacy_bool "CHECK_LOAD" misc_check_load fp st in
      let r := legacy_CHECK_SHMEM ivalue fp st in
      let st := fst r in
      let ivalue := snd r in
      let r := legacy_CHECK_DISK ivalue fp st in
      let st := fst r in
      let st := readDebugingSettingsLegacy fs (Some fp) st in
      (Some path, st)
  end.

End Handlers.
End Legacy.

(* ================================================================== *)
(** * The TOML reader *)
(* ================================================================== *)

Module TomlReader.
Section Reader.
Context {E : External}.

(** [openFTLtoml("r")] (toml_helper.c, lines 19-31). *)
Definition openFTLtoml_r (fs : filesystem) : option string :=
  match local_toml fs with
  | Some fp => Some fp
  | None => global_toml fs
  end.

(** [parseTOML()] (lines 84-109): the root table, [None] for [NULL], and the
    state after the call.  The text of [errno] is left as its placeholder. *)
Definition parseTOML (fs : filesystem) (st : state) : option toml_table_t * state :=
  match openFTLtoml_r fs with
  | None =>
      (None, log_msg st LOG_DEBUG "No config file available (%s), using defaults")
  | Some fp =>
      match toml_parse_file fp with
      | inr errbuf => (None, log_msg st LOG_ERR ("Cannot parse config file: " ++ errbuf))
      | inl conf => (Some conf, log_msg st LOG_DEBUG "TOML file parsing: OK")
      end
  end.

(** [getPrivacyLevel()] (lines 111-146). *)
Definition getPrivacyLevel (fs : filesystem) (st : state) : bool * state :=
  let st := log_msg st LOG_DEBUG "Reading TOML config file: privacy level" in
  match parseTOML fs st with
  | (None, st) => (false, st)
  | (Some conf, st) =>
      match toml_table_in conf "misc" with
      | None => (false, log_msg st LOG_DEBUG "misc does not exist")
      | Some misc =>
          match toml_int_in misc "privacyLevel" with
          | None => (false, log_msg st LOG_DEBUG "misc.privacyLevel does not exist")
          | Some i =>
              if (i >=? PRIVACY_SHOW_ALL) && (i <=? PRIVACY_MAXIMUM)
              then (true, store st misc_privacylevel (set_ui i))
              else (true, log_msg st LOG_WARNING "Invalid setting for misc.privacyLevel")
          end
      end
  end.

(** [getBlockingMode()] (lines 148-187). *)
Definition getBlockingMode (fs : filesystem) (st : state) : bool * state :=
  let st := log_msg st LOG_DEBUG "Reading TOML config file: DNS blocking mode" in
  match parseTOML fs st with
  | (None, st) => (false, st)
  | (Some conf, st) =>
      match toml_table_in conf "dns" with
      | None => (false, log_msg st LOG_DEBUG "dns does not exist")
      | Some dns =>
          match toml_string_in dns "blockingmode" with
          | None => (false, log_msg st LOG_DEBUG "dns.blockingmode DOES NOT EXIST")
          | Some s =>
              match get_blocking_mode_val s with
              | Some blocking_mode =>
                  (true, store st dns_blockingmode (V_blocking_mode blocking_mode))
              | None =>
                  (true, log_msg st LOG_WARNING
                           ("Config setting " ++ k (config st dns_blockingmode)
                            ++ " is invalid, allowed options are: "
                            ++ h (config st dns_blockingmode)))
              end
          end
      end
  end.

(** [getLogFilePathTOML()] (lines 189-221).  [strcmp] reads through
    [config.files.log.v.s]; the call has no defined result ([None]) when that
    pointer is [NULL]. *)
Definition getLogFilePathTOML (fs : filesystem) (st : state) : option (bool * state) :=
  let st := log_msg st LOG_DEBUG "Reading TOML config file: log file path" in
  match parseTOML fs st with
  | (None, st) => Some (false, st)
  | (Some conf, st) =>
      match toml_table_in conf "files" with
      | None => Some (false, log_msg st LOG_DEBUG "files does not exist")
      | Some files =>
          match toml_string_in files "log" with
          | None => Some (false, log_msg st LOG_DEBUG "files.log DOES NOT EXIST")
          | Some s =>
              match get_s (cur st files_log) with
              | None => None
              | Some current =>
                  (* Only replace string when it is different *)
                  if negb (strcmp current s =? 0)
                  then Some (true, store st files_log (V_str (Some s)))
                  else Some (true, st)
              end
          end
      end
  end.

End Reader.
End TomlReader.

(* ================================================================== *)
(** * One set of collaborators and one registry, for the examples *)
(* ================================================================== *)

Module Reference.

(** The text of [s] up to the first occurrence of [c], and what follows it. *)
Fixpoint split_at (c : ascii) (s : string) : string * option string :=
  match s with
  | EmptyString => (EmptyString, None)
  | String x s' =>
      if Ascii.eqb x c then (EmptyString, Some s')
      else let '(a, b) := split_at c s' in (String x a, b)
  end.

(** A document parser for flat documents: blank lines, [#] comments, table
    headers [[name]] and [key = value] lines. *)
Definition parse_line (line : string)
    (acc : list (string * string) * list (string * list (string * string)))
  : option (list (string * string) * list (string * list (string * string))) :=
  let l := Legacy.trim_whitespace line in
  match l with
  | EmptyString => Some acc
  | String "#" _ => Some acc
  | String "[" rest =>
      match split_at "]" rest with
      | (name, Some EmptyString) => Some (fst acc, (name, []) :: snd acc)
      | _ => None
      end
  | _ =>
      match split_at "=" l with
      | (key, Some raw) =>
          let kv := (Legacy.trim_whitespace key, Legacy.trim_whitespace raw) in
          match snd acc with
          | [] => Some ((fst acc ++ [kv])%list, [])
          | (name, kvs) :: tabs => Some (fst acc, (name, (kvs ++ [kv])%list) :: tabs)
          end
      | _ => None
      end
  end.

Fixpoint parse_lines (lines : list string)
    (acc : list (string * string) * list (string * list (string * string)))
  : option (list (string * string) * list (string * list (string * string))) :=
  match lines with
  | [] => Some acc
  | l :: ls => match parse_line l acc with
               | Some acc' => parse_lines ls acc'
               | None => None
               end
  end.

Definition parse_file (text : string) : toml_table_t + string :=
  match parse_lines (Legacy.getlines EmptyString text) ([], []) with
  | Some (kval, tabs) =>
      inl (toml_table kval (map (fun '(n, kvs) => (n, toml_table kvs [])) (rev tabs)))
  | None => inr "syntax error"
  end.

(** Name tables for the enums, with the names the legacy reader accepts,
    looked up without regard to case. *)
Definition ptr_type_str (e : ptr_type) : string :=
  match e with
  | PTR_NONE => "NONE" | PTR_HOSTNAME => "HOSTNAME" | PTR_HOSTNAMEFQDN => "HOSTNAMEFQDN"
  end.
Definition busy_reply_str (e : busy_reply) : string :=
  match e with BUSY_DROP => "DROP" | BUSY_REFUSE => "REFUSE" | BUSY_BLOCK => "BLOCK" end.
Definition blocking_mode_str (e : blocking_mode) : string :=
  match e with
  | MODE_NX => "NXDOMAIN" | MODE_NULL => "NULL" | MODE_IP_NODATA_AAAA => "IP-NODATA-AAAA"
  | MODE_IP => "IP" | MODE_NODATA => "NODATA"
  end.
Definition refresh_hostnames_str (e : refresh_hostnames) : string :=
  match e with
  | REFRESH_ALL => "ALL" | REFRESH_NONE => "NONE" | REFRESH_UNKNOWN => "UNKNOWN"
  | REFRESH_IPV4_ONLY => "IPV4_ONLY"
  end.

Definition lookup_name {A} (str : A -> string) (all : list A) (name : string) : option A :=
  find (fun e => strcasecmp name (str e) =? 0)%Z all.

(** IPv6 text: groups of up to four hexadecimal digits, with at most one
    double colon for a run of zero groups on input and none on output. *)
Fixpoint split_colons (s : string) (cur : string) : list string :=
  match s with
  | EmptyString => [cur]
  | String c s' =>
      if Ascii.eqb c ":"%char then cur :: split_colons s' EmptyString
      else split_colons s' (cur ++ String c EmptyString)
  end.

Definition hex_group (g : string) : option Z :=
  match read_digits 16 g 0 O with
  | (_, O, _) => None
  | (m, n, EmptyString) => if (n <=? 4)%nat then Some m else None
  | _ => None
  end.

Fixpoint hex_groups (gs : list string) : option (list Z) :=
  match gs with
  | [] => Some []
  | g :: gs' => match hex_group g, hex_groups gs' with
                | Some z, Some zs => Some (z :: zs)
                | _, _ => None
                end
  end.

Definition groups_of (s : string) : option (list Z) :=
  match s with EmptyString => Some [] | _ => hex_groups (split_colons s EmptyString) end.

(** The text before and after the first double colon. *)
Fixpoint split_double_colon (s : string) : string * option string :=
  match s with
  | String ":" (String ":" rest) => (EmptyString, Some rest)
  | String c s' => let '(a, b) := split_double_colon s' in (String c a, b)
  | EmptyString => (EmptyString, None)
  end.

Definition octets_of_groups (gs : list Z) : in6_addr :=
  flat_map (fun g => [ascii_of_Z (g / 256); ascii_of_Z g]) gs.

Definition pton6 (s : string) : option in6_addr :=
  match split_double_colon s with
  | (_, None) =>
      match groups_of s with
      | Some gs => if (List.length gs =? 8)%nat then Some (octets_of_groups gs) else None
      | None => None
      end
  | (a, Some b) =>
      match groups_of a, groups_of b with
      | Some ga, Some gb =>
          let n := (List.length ga + List.length gb)%nat in
          if (n <=? 7)%nat
          then Some (octets_of_groups (ga ++ repeat 0%Z (8 - n) ++ gb)%list)
          else None
      | _, _ => None
      end
  end.

Fixpoint hex_of (fuel : nat) (z : Z) (acc : string) : string :=
  match fuel with
  | O => acc
  | S f => let acc' := String (hex_digit (z mod 16)) acc in
           if (z / 16 =? 0)%Z then acc' else hex_of f (z / 16) acc'
  end.

Fixpoint groups_of_octets (a : in6_addr) : list Z :=
  match a with
  | hi :: lo :: a' => (byte_val hi * 256 + byte_val lo)%Z :: groups_of_octets a'
  | _ => []
  end.

Definition ntop6 (a : in6_addr) : string :=
  String.concat ":" (map (fun g => hex_of 4 g EmptyString) (groups_of_octets a)).

(** [float] as an exact rational, read from decimal digits with an optional
    fraction. *)
Definition scan_rational (buffer : string) : scan Q :=
  match skip_space buffer with
  | EmptyString => InputFail
  | s1 =>
      let '(neg, s2) := read_sign s1 in
      let '(ip, n, rest) := read_digits 10 s2 0 O in
      let '(fp, m) := match rest with
                      | String "." frac =>
                          let '(f, m, _) := read_digits 10 frac 0 O in (f, m)
                      | _ => (0%Z, O)
                      end in
      match n, m with
      | O, O => MatchFail
      | _, _ =>
          let q := (inject_Z ip + (inject_Z fp / inject_Z (10 ^ Z.of_nat m)))%Q in
          Assigned (if neg then (- q)%Q else q)
      end
  end.

Definition scaled_in_range (lo hi scale : Q) (x : Q) : option Z :=
  if Qle_bool lo x && Qle_bool x hi then Some (Qfloor (x * scale)) else None.

#[export] Instance reference : External := {
  toml_parse_file := parse_file;
  get_ptr_type_str := ptr_type_str;
  get_ptr_type_val := lookup_name ptr_type_str [PTR_NONE; PTR_HOSTNAME; PTR_HOSTNAMEFQDN];
  get_busy_reply_str := busy_reply_str;
  get_busy_reply_val := lookup_name busy_reply_str [BUSY_DROP; BUSY_REFUSE; BUSY_BLOCK];
  get_blocking_mode_str := blocking_mode_str;
  get_blocking_mode_val :=
    lookup_name blocking_mode_str [MODE_NX; MODE_NULL; MODE_IP_NODATA_AAAA; MODE_IP; MODE_NODATA];
  get_refresh_hostnames_str := refresh_hostnames_str;
  get_refresh_hostnames_val :=
    lookup_name refresh_hostnames_str
      [REFRESH_ALL; REFRESH_NONE; REFRESH_UNKNOWN; REFRESH_IPV4_ONLY];
  inet_ntop6 := ntop6;
  inet_pton6 := pton6;
  float := Q;
  float_zero := 0%Q;
  sscanf_f := scan_rational;
  DBinterval_of := scaled_in_range (1 # 10) (1440 # 1) (60 # 1);
  maxHistory_of := scaled_in_range 0 (24 # 1) (3600 # 1);
  debug_names := ["DEBUG_DATABASE"; "DEBUG_LOCKS"; "DEBUG_CONFIG"]
}.

(** A registry with the defaults the comments of the legacy reader name. *)
Definition new_item (key : string) (ty : conf_type) (dv : conf_value) : conf_item :=
  mk_conf_item key "" ty dv dv.

Definition registry : config_t := fun i =>
  match i with
  | dns_analyzeAAAA => new_item "dns.analyzeAAAA" CONF_BOOL (V_bool true)
  | database_maxDBdays => new_item "database.maxDBdays" CONF_INT (V_w32 365)
  | resolver_resolveIPv6 => new_item "resolver.resolveIPv6" CONF_BOOL (V_bool true)
  | resolver_resolveIPv4 => new_item "resolver.resolveIPv4" CONF_BOOL (V_bool true)
  | database_DBinterval => new_item "database.DBinterval" CONF_UINT (V_w32 60)
  | files_database =>
      new_item "files.database" CONF_STRING (V_str (Some "/etc/pihole/pihole-FTL.db"))
  | database_maxHistory => new_item "database.maxHistory" CONF_UINT (V_w32 86400)
  | misc_privacylevel => new_item "misc.privacylevel" CONF_ENUM_PRIVACY_LEVEL (V_w32 0)
  | dns_ignoreLocalhost => new_item "dns.ignoreLocalhost" CONF_BOOL (V_bool false)
  | dns_blockingmode =>
      new_item "dns.blockingmode" CONF_ENUM_BLOCKING_MODE (V_blocking_mode MODE_IP)
  | dns_analyzeOnlyAandAAAA => new_item "dns.analyzeOnlyAandAAAA" CONF_BOOL (V_bool false)
  | database_DBimport => new_item "database.DBimport" CONF_BOOL (V_bool true)
  | files_pid => new_item "files.pid" CONF_STRING (V_str (Some "/run/pihole-FTL.pid"))
  | files_setupVars =>
      new_item "files.setupVars" CONF_STRING (V_str (Some "/etc/pihole/setupVars.conf"))
  | files_macvendor =>
      new_item "files.macvendor" CONF_STRING (V_str (Some "/etc/pihole/macvendor.db"))
  | files_gravity =>
      new_item "files.gravity" CONF_STRING (V_str (Some "/etc/pihole/gravity.db"))
  | database_network_parseARPcache =>
      new_item "database.network.parseARPcache" CONF_BOOL (V_bool true)
  | dns_CNAMEdeepInspect => new_item "dns.CNAMEdeepInspect" CONF_BOOL (V_bool true)
  | misc_delay_startup => new_item "misc.delay_startup" CONF_UINT (V_w32 0)
  | dns_blockESNI => new_item "dns.blockESNI" CONF_BOOL (V_bool true)
  | http_paths_webroot => new_item "http.paths.webroot" CONF_STRING (V_str (Some "/var/www/html"))
  | http_port => new_item "http.port" CONF_STRING (V_str (Some "8080"))
  | http_paths_webhome => new_item "http.paths.webhome" CONF_STRING (V_str (Some "/admin/"))
  | http_acl => new_item "http.acl" CONF_STRING (V_str (Some "+0.0.0.0/0"))
  | http_localAPIauth => new_item "http.localAPIauth" CONF_BOOL (V_bool true)
  | http_sessionTimeout => new_item "http.sessionTimeout" CONF_UINT (V_w32 300)
  | http_prettyJSON => new_item "http.prettyJSON" CONF_BOOL (V_bool false)
  | files_ph7_error =>
      new_item "files.ph7_error" CONF_STRING (V_str (Some "/var/log/pihole/PH7.log"))
  | files_http_info =>
      new_item "files.http_info" CONF_STRING (V_str (Some "/var/log/pihole/HTTP_info.log"))
  | database_network_expire => new_item "database.network.expire" CONF_UINT (V_w32 365)
  | resolver_networkNames => new_item "resolver.networkNames" CONF_BOOL (V_bool true)
  | dns_EDNS0ECS => new_item "dns.EDNS0ECS" CONF_BOOL (V_bool true)
  | resolver_refreshNames =>
      new_item "resolver.refreshNames" CONF_ENUM_REFRESH_HOSTNAMES
        (V_refresh_hostnames REFRESH_IPV4_ONLY)
  | http_domain => new_item "http.domain" CONF_STRING (V_str (Some "pi.hole"))
  | dns_rateLimit_count => new_item "dns.rateLimit.count" CONF_UINT (V_w32 1000)
  | dns_rateLimit_interval => new_item "dns.rateLimit.interval" CONF_UINT (V_w32 60)
  | dns_reply_host_overwrite_v4 =>
      new_item "dns.reply.host.overwrite_v4" CONF_BOOL (V_bool false)
  | dns_reply_host_v4 =>
      new_item "dns.reply.host.IPv4" CONF_STRUCT_IN_ADDR (V_in_addr in_addr_zero)
  | dns_reply_host_overwrite_v6 =>
      new_item "dns.reply.host.overwrite_v6" CONF_BOOL (V_bool false)
  | dns_reply_host_v6 =>
      new_item "dns.reply.host.IPv6" CONF_STRUCT_IN6_ADDR (V_in6_addr in6_addr_zero)
  | dns_reply_blocking_overwrite_v4 =>
      new_item "dns.reply.blocking.overwrite_v4" CONF_BOOL (V_bool false)
  | dns_reply_blocking_v4 =>
      new_item "dns.reply.blocking.IPv4" CONF_STRUCT_IN_ADDR (V_in_addr in_addr_zero)
  | dns_reply_blocking_overwrite_v6 =>
      new_item "dns.reply.blocking.overwrite_v6" CONF_BOOL (V_bool false)
  | dns_reply_blocking_v6 =>
      new_item "dns.reply.blocking.IPv6" CONF_STRUCT_IN6_ADDR (V_in6_addr in6_addr_zero)
  | dns_showDNSSEC => new_item "dns.showDNSSEC" CONF_BOOL (V_bool true)
  | dns_specialDomains_mozillaCanary =>
      new_item "dns.specialDomains.mozillaCanary" CONF_BOOL (V_bool true)
  | dns_piholePTR => new_item "dns.piholePTR" CONF_ENUM_PTR_TYPE (V_ptr_type PTR_HOSTNAME)
  | misc_addr2line => new_item "misc.addr2line" CONF_BOOL (V_bool true)
  | dns_replyWhenBusy =>
      new_item "dns.replyWhenBusy" CONF_ENUM_BUSY_TYPE (V_busy_reply BUSY_BLOCK)
  | dns_blockTTL => new_item "dns.blockTTL" CONF_UINT (V_w32 2)
  | dns_specialDomains_iCloudPrivateRelay =>
      new_item "dns.specialDomains.iCloudPrivateRelay" CONF_BOOL (V_bool true)
  | misc_check_load => new_item "misc.check.load" CONF_BOOL (V_bool true)
  | misc_check_shmem => new_item "misc.check.shmem" CONF_UINT (V_w32 90)
  | misc_check_disk => new_item "misc.check.disk" CONF_UINT (V_w32 90)
  | files_log => new_item "files.log" CONF_STRING (V_str (Some "/var/log/pihole/FTL.log"))
  | debug_all => new_item "debug.all" CONF_BOOL (V_bool false)
  | debug_flag n => new_item "debug" CONF_BOOL (V_bool false)
  end.

(** A line of a file: the text and its newline. *)
Definition line (s : string) : string := s ++ String LF EmptyString.

(** The state at start-up, and a file system with one legacy file. *)
Definition startup : state :=
  mk_state registry [] ["pihole-FTL"; "-k"; ""] false.

Definition no_files : filesystem := mk_filesystem None None None None.

Definition legacy_file (text : string) : filesystem :=
  mk_filesystem None (Some text) None None.

Definition toml_file (text : string) : filesystem :=
  mk_filesystem None None None (Some text).

(** [config.<i>.v = x] on the start-up state. *)
Definition startup_with (i : item) (x : conf_value) : state := store startup i x.

(** Nothing was left on the stack. *)
Definition zeroed : Legacy.indeterminate :=
  Legacy.mk_indeterminate 0 in6_addr_zero.

End Reference.

(* ================================================================== *)
(** * The vocabulary of the statements *)
(* ================================================================== *)

Module Statements.

Import Legacy TomlReader.

(** ** Strings *)

(** A character the claim about the fast path speaks of: printable ASCII,
    and neither the double quote nor the backslash. *)
Definition plain_char (c : ascii) : Prop :=
  32 <= byte_val c <= 126 /\ c <> dquote /\ c <> backslash.

Definition plain (s : string) : Prop := Forall plain_char (list_ascii_of_string s).

(** The string a, double quote, b, newline, c. *)
Definition quote_newline_example : string :=
  String "a" (String dquote (String "b" (String LF "c"))).

(** A character the string printer writes in a form the reader decodes:
    printable ASCII, or one of the five control characters with an escape of
    their own (backspace, tabulator, newline, form feed, carriage return). *)
Definition escapable (c : ascii) : bool :=
  let b := byte_val c in
  ((32 <=? b) && (b <=? 126))
  || (b =? 8) || (b =? 9) || (b =? 10) || (b =? 12) || (b =? 13).

Definition all_escapable (s : string) : bool :=
  forallb escapable (list_ascii_of_string s).

(** ** Decimal text *)

(** The number a run of decimal digits denotes on top of [acc]. *)
Fixpoint digits_value (d : Decimal.uint) (acc : Z) : Z :=
  match d with
  | Decimal.Nil => acc
  | Decimal.D0 d => digits_value d (acc * 10 + 0)
  | Decimal.D1 d => digits_value d (acc * 10 + 1)
  | Decimal.D2 d => digits_value d (acc * 10 + 2)
  | Decimal.D3 d => digits_value d (acc * 10 + 3)
  | Decimal.D4 d => digits_value d (acc * 10 + 4)
  | Decimal.D5 d => digits_value d (acc * 10 + 5)
  | Decimal.D6 d => digits_value d (acc * 10 + 6)
  | Decimal.D7 d => digits_value d (acc * 10 + 7)
  | Decimal.D8 d => digits_value d (acc * 10 + 8)
  | Decimal.D9 d => digits_value d (acc * 10 + 9)
  end.

(** ** Legacy values *)

(** The file a handler works on: the one it was handed, else the one it
    opens itself. *)
Definition file_used (fs : filesystem) (fp : option FILE) : option FILE :=
  match fp with Some f => Some f | None => fst (openFTLconf fs) end.

(** A string in lower case. *)
Definition lower_case (s : string) : list Z :=
  map (fun c => tolower (byte_val c)) (list_ascii_of_string s).

Section WithCollaborators.
Context {E : External}.

(** The stored privacy level. *)
Definition level (st : state) : Z := get_privacy_level (cur st misc_privacylevel).

(** ** Values that survive the round trip *)

(** The values of a tag that the reader takes back from the text the writer
    emits for them.  A value is of the member its tag names; beyond that, an
    unsigned long is below 2^63 (the datum of the document is a signed 64-bit
    integer), a privacy level is one the reader accepts, a string is not
    [NULL] and is made of escapable characters, and the name of an enum value
    and the text of an IPv6 address, which the collaborators supply, are made
    of escapable characters and are mapped back by the collaborator. *)
Definition survives (ty : conf_type) (x : conf_value) : Prop :=
  match ty, x with
  | CONF_BOOL, V_bool _ => True
  | CONF_INT, V_w32 w => 0 <= w < 2 ^ 32
  | CONF_UINT, V_w32 w => 0 <= w < 2 ^ 32
  | CONF_LONG, V_w64 w => 0 <= w < 2 ^ 64
  | CONF_ULONG, V_w64 w => 0 <= w < 2 ^ 63
  | CONF_ENUM_PRIVACY_LEVEL, V_w32 w => PRIVACY_SHOW_ALL <= w <= PRIVACY_MAXIMUM
  | CONF_STRING, V_str (Some s) => all_escapable s = true
  | CONF_ENUM_PTR_TYPE, V_ptr_type e =>
      all_escapable (get_ptr_type_str e) = true /\
      get_ptr_type_val (get_ptr_type_str e) = Some e
  | CONF_ENUM_BUSY_TYPE, V_busy_reply e =>
      all_escapable (get_busy_reply_str e) = true /\
      get_busy_reply_val (get_busy_reply_str e) = Some e
  | CONF_ENUM_BLOCKING_MODE, V_blocking_mode e =>
      all_escapable (get_blocking_mode_str e) = true /\
      get_blocking_mode_val (get_blocking_mode_str e) = Some e
  | CONF_ENUM_REFRESH_HOSTNAMES, V_refresh_hostnames e =>
      all_escapable (get_refresh_hostnames_str e) = true /\
      get_refresh_hostnames_val (get_refresh_hostnames_str e) = Some e
  | CONF_STRUCT_IN_ADDR, V_in_addr _ => True
  | CONF_STRUCT_IN6_ADDR, V_in6_addr a =>
      all_escapable (inet_ntop6 a) = true /\ inet_pton6 (inet_ntop6 a) = Some a
  | _, _ => False
  end.

(** A table that holds under [key] what [writeTOMLvalue] emits for [src]. *)
Definition written (key : string) (src : conf_item) : toml_table_t :=
  toml_table [(key, writeTOMLvalue (t src) (v src))] [].

(** ** Keys that set nothing *)

(** The value of [key] in the file is absent, or is none of the words
    [parseBool] knows. *)
Definition no_bool (fp : FILE) (key : string) : Prop :=
  parseBool (parseFTLconf fp key) = None.

(** The value is absent, or does not match the numeric conversion, or is a
    number that the test [ok] of the handler does not let through. *)
Definition no_number {A} (conv : string -> scan A) (ok : A -> bool) (fp : FILE)
  (key : string) : Prop :=
  match parseFTLconf fp key with
  | None => True
  | Some buffer =>
      match conv buffer with
      | Assigned a => ok a = false
      | MatchFail => True
      | InputFail => False
      end
  end.

(** The tests of the numeric handlers on the number that was read. *)
Definition maxdbdays_ok (value : Z) : bool := (value =? -1) || (value >=? 0).
Definition privacy_ok (value : Z) : bool :=
  (value >=? PRIVACY_SHOW_ALL) && (value <=? PRIVACY_MAXIMUM).
Definition delay_ok (unum : Z) : bool := (unum >? 0) && (unum <=? 300).
Definition timeout_ok (value : Z) : bool := value >? 0.
Definition netage_ok (ivalue : Z) : bool := (ivalue >? 0) && (ivalue <=? 8760).
Definition percent_ok (ivalue : Z) : bool := (ivalue >=? 0) && (ivalue <=? 100).
Definition any_ok (uval : Z) : bool := true.
Definition in_range {A B} (f : A -> option B) (a : A) : bool :=
  match f a with Some _ => true | None => false end.

(** The file has a value under [key] that holds no word. *)
Definition blank (fp : FILE) (key : string) : bool :=
  match parseFTLconf fp key with
  | None => false
  | Some buffer =>
      match skip_space buffer with EmptyString => true | String _ _ => false end
  end.

(** The value is absent, or holds no word. *)
Definition no_word (fp : FILE) (key : string) : Prop :=
  match parseFTLconf fp key with
  | None => True
  | Some buffer => skip_space buffer = EmptyString
  end.

(** The value is absent, or is none of [names] in any letter case. *)
Definition no_name (names : list string) (fp : FILE) (key : string) : Prop :=
  match parseFTLconf fp key with
  | None => True
  | Some buffer => forallb (fun n => negb (strcasecmp buffer n =? 0)) names = true
  end.

(** The value is absent, or is no address for the parser the handler uses. *)
Definition no_address {A} (pton : string -> option A) (fp : FILE) (key : string) : Prop :=
  match parseFTLconf fp key with
  | None => True
  | Some buffer => pton buffer = None
  end.

Definition absent (fp : FILE) (key : string) : Prop := parseFTLconf fp key = None.

(** The value is absent or empty. *)
Definition no_text (fp : FILE) (key : string) : Prop :=
  match parseFTLconf fp key with
  | None => True
  | Some buffer => strlen buffer = O
  end.

(** For each item: the keys that reach it are absent from the file, or
    their values are malformed for the handler.  For the keys read through
    [getPath] and for WEBACL this is the absent key only. *)
Definition no_usable_key (fp : FILE) (i : item) : Prop :=
  match i with
  | dns_analyzeAAAA => no_bool fp "AAAA_QUERY_ANALYSIS"
  | database_maxDBdays => no_number sscanf_i maxdbdays_ok fp "MAXDBDAYS" /\ no_word fp "DBFILE"
  | resolver_resolveIPv6 => no_bool fp "RESOLVE_IPV6"
  | resolver_resolveIPv4 => no_bool fp "RESOLVE_IPV4"
  | database_DBinterval => no_number sscanf_f (in_range DBinterval_of) fp "DBINTERVAL"
  | files_database => no_word fp "DBFILE"
  | database_maxHistory => no_number sscanf_f (in_range maxHistory_of) fp "MAXLOGAGE"
  | misc_privacylevel => no_number sscanf_i privacy_ok fp "PRIVACYLEVEL"
  | dns_ignoreLocalhost => no_bool fp "IGNORE_LOCALHOST"
  | dns_blockingmode =>
      no_name ["NXDOMAIN"; "NULL"; "IP-NODATA-AAAA"; "IP"; "NODATA"] fp "BLOCKINGMODE"
  | dns_analyzeOnlyAandAAAA => no_bool fp "ANALYZE_ONLY_A_AND_AAAA"
  | database_DBimport => no_bool fp "DBIMPORT"
  | files_pid => absent fp "PIDFILE"
  | files_setupVars => absent fp "SETUPVARSFILE"
  | files_macvendor => absent fp "MACVENDORDB"
  | files_gravity => absent fp "GRAVITYDB"
  | database_network_parseARPcache => no_bool fp "PARSE_ARP_CACHE"
  | dns_CNAMEdeepInspect => no_bool fp "CNAME_DEEP_INSPECT"
  | misc_delay_startup => no_number sscanf_u delay_ok fp "DELAY_STARTUP"
  | dns_blockESNI => no_bool fp "BLOCK_ESNI"
  | http_paths_webroot => absent fp "WEBROOT"
  | http_port => no_text fp "WEBPORT"
  | http_paths_webhome => absent fp "WEBHOME"
  | http_acl => absent fp "WEBACL"
  | http_localAPIauth => no_bool fp "API_AUTH_FOR_LOCALHOST"
  | http_sessionTimeout => no_number sscanf_i timeout_ok fp "API_SESSION_TIMEOUT"
  | http_prettyJSON => no_bool fp "API_PRETTY_JSON"
  | files_ph7_error => absent fp "API_ERROR_LOG"
  | files_http_info => absent fp "API_INFO_LOG"
  | database_network_expire => no_number sscanf_i netage_ok fp "MAXNETAGE"
  | resolver_networkNames => no_bool fp "NAMES_FROM_NETDB"
  | dns_EDNS0ECS => no_bool fp "EDNS0_ECS"
  | resolver_refreshNames => no_name ["ALL"; "NONE"; "UNKNOWN"] fp "REFRESH_HOSTNAMES"
  | http_domain => absent fp "WEBDOMAIN"
  | dns_rateLimit_count | dns_rateLimit_interval =>
      match parseFTLconf fp "RATE_LIMIT" with
      | None => True
      | Some buffer => fst (fst (sscanf_u_slash_u buffer 0 0)) <> 2
      end
  | dns_reply_host_overwrite_v4 | dns_reply_host_v4 =>
      no_address inet_pton4 fp "LOCAL_IPV4" /\ no_address inet_pton4 fp "REPLY_ADDR4"
  | dns_reply_blocking_overwrite_v4 | dns_reply_blocking_v4 =>
      no_address inet_pton4 fp "BLOCK_IPV4" /\ no_address inet_pton4 fp "REPLY_ADDR4"
  | dns_reply_host_overwrite_v6 | dns_reply_host_v6 =>
      no_address inet_pton6 fp "LOCAL_IPV6" /\ no_address inet_pton4 fp "REPLY_ADDR6"
  | dns_reply_blocking_overwrite_v6 | dns_reply_blocking_v6 =>
      no_address inet_pton6 fp "BLOCK_IPV6" /\ no_address inet_pton4 fp "REPLY_ADDR6"
  | dns_showDNSSEC => no_bool fp "SHOW_DNSSEC"
  | dns_specialDomains_mozillaCanary => no_bool fp "MOZILLA_CANARY"
  | dns_piholePTR => no_name ["none"; "false"; "hostname"; "hostnamefqdn"] fp "PIHOLE_PTR"
  | misc_addr2line => no_bool fp "ADDR2LINE"
  | dns_replyWhenBusy => no_name ["DROP"; "REFUSE"; "BLOCK"] fp "REPLY_WHEN_BUSY"
  | dns_blockTTL => no_number sscanf_u any_ok fp "BLOCK_TTL"
  | dns_specialDomains_iCloudPrivateRelay => no_bool fp "BLOCK_ICLOUD_PR"
  | misc_check_load => no_bool fp "CHECK_LOAD"
  | misc_check_shmem => no_number sscanf_i percent_ok fp "CHECK_SHMEM"
  | misc_check_disk => no_number sscanf_i percent_ok fp "CHECK_DISK"
  | files_log => True
  | debug_all => no_bool fp "DEBUG_ALL"
  | debug_flag n =>
      match nth_error debug_names n with
      | Some name => no_bool fp name
      | None => True
      end
  end.

(** The items [getPath] serves. *)
Definition is_path_item (i : item) : bool :=
  match i with
  | files_pid | files_setupVars | files_macvendor | files_gravity
  | http_paths_webroot | http_paths_webhome | files_ph7_error | files_http_info
  | http_domain => true
  | _ => false
  end.

(** The path items hold a string (possibly [NULL]) before the call. *)
Definition paths_hold_strings (st : state) : Prop :=
  forall i, is_path_item i = true -> cur st i = V_str (get_s (cur st i)).

Definition empty_path (p : option string) : bool :=
  match p with None => true | Some p => (strlen p =? 0)%nat end.

(** What an item holds after [readFTLlegacy] when no key sets it: the
    constant or the default its handler starts from when it has one, and
    else the value it held before.  The days of history are 0 when there
    is no database path to use: the value of DBFILE holds no word, or the
    default path is empty. *)
Definition standing (fp : FILE) (st : state) (i : item) : conf_value :=
  match i with
  | database_maxDBdays =>
      if blank fp "DBFILE" || empty_path (get_s (dflt st files_database))
      then set_i 0 else cur st i
  | files_database => V_str (get_s (dflt st files_database))
  | dns_blockingmode => V_blocking_mode (get_blocking_mode (dflt st dns_blockingmode))
  | resolver_refreshNames => V_refresh_hostnames REFRESH_IPV4_ONLY
  | dns_reply_host_overwrite_v4 | dns_reply_host_overwrite_v6
  | dns_reply_blocking_overwrite_v4 | dns_reply_blocking_overwrite_v6 => V_bool false
  | dns_reply_host_v4 | dns_reply_blocking_v4 => V_in_addr in_addr_zero
  | dns_reply_host_v6 | dns_reply_blocking_v6 => V_in6_addr in6_addr_zero
  | dns_blockTTL => set_ui 2
  | misc_check_shmem => set_ui 90
  | debug_all | debug_flag _ => V_bool false
  | _ => cur st i
  end.

(** ** The structured file *)

(** The structured file is entirely absent, or its document does not parse. *)
Definition unreadable (fs : filesystem) : Prop :=
  match openFTLtoml_r fs with
  | None => True
  | Some text => exists errbuf, toml_parse_file text = inr errbuf
  end.

End WithCollaborators.

End Statements.
Import Statements.

(* ================================================================== *)
(** * Further vocabulary: texts, schema, ranges *)
(* ================================================================== *)

Module Notions.

(** ** Texts *)

(** A text of printable ASCII characters only: no control character, so no
    newline, and no byte above 126. *)
Definition printable_text (s : string) : bool :=
  forallb (fun c => isprint (byte_val c)) (list_ascii_of_string s).

(** The value of a hexadecimal digit, 0 for any other character. *)
Definition hex_val (c : ascii) : Z :=
  match digit_val 16 c with Some n => n | None => 0 end.

(** The inverse of the escaping loop of [printTOMLstring]: the characters up
    to the closing double quote, each escape replaced by the character it
    was written for. *)
Fixpoint unescape_loop (s : string) : option string :=
  match s with
  | EmptyString => None
  | String c r =>
      if Ascii.eqb c dquote then Some EmptyString
      else if Ascii.eqb c backslash then
        match r with
        | String e r' =>
            if Ascii.eqb e "0" then
              match r' with
              | String _ (String hi (String lo r'')) =>
                  option_map (String (ascii_of_Z (hex_val hi * 16 + hex_val lo)))
                             (unescape_loop r'')
              | _ => None
              end
            else
              match unescape_char e with
              | Some x => option_map (String x) (unescape_loop r')
              | None => None
              end
        | EmptyString => None
        end
      else option_map (String c) (unescape_loop r)
  end.

(** A value between double quotes. *)
Definition quoted (s : string) : string := String dquote (s ++ String dquote EmptyString).

(** A text without white space. *)
Definition no_space (s : string) : bool :=
  forallb (fun c => negb (isspace (byte_val c))) (list_ascii_of_string s).

(** A line that starts with the number sign or the semicolon. *)
Definition is_comment (l : string) : bool :=
  match c_str l with
  | String c _ => (Ascii.eqb c "#" || Ascii.eqb c ";")%bool
  | EmptyString => false
  end.

(** A line of text has no newline in it. *)
Definition one_line (l : string) : Prop := ~ In LF (list_ascii_of_string l).

(** Both states hold the same values, log, argument list and debug mark. *)
Definition same_state (a b : state) : Prop :=
  (forall i, config a i = config b i) /\
  logged a = logged b /\ argv_dnsmasq a = argv_dnsmasq b /\ debug_any a = debug_any b.

(** ** Keys *)

(** The key of each boolean item that [readFTLlegacy] hands to [parseBool]. *)
Definition bool_key (i : item) : option string :=
  match i with
  | dns_analyzeAAAA => Some "AAAA_QUERY_ANALYSIS"
  | resolver_resolveIPv6 => Some "RESOLVE_IPV6"
  | resolver_resolveIPv4 => Some "RESOLVE_IPV4"
  | dns_ignoreLocalhost => Some "IGNORE_LOCALHOST"
  | dns_analyzeOnlyAandAAAA => Some "ANALYZE_ONLY_A_AND_AAAA"
  | database_DBimport => Some "DBIMPORT"
  | database_network_parseARPcache => Some "PARSE_ARP_CACHE"
  | dns_CNAMEdeepInspect => Some "CNAME_DEEP_INSPECT"
  | dns_blockESNI => Some "BLOCK_ESNI"
  | http_localAPIauth => Some "API_AUTH_FOR_LOCALHOST"
  | http_prettyJSON => Some "API_PRETTY_JSON"
  | resolver_networkNames => Some "NAMES_FROM_NETDB"
  | dns_EDNS0ECS => Some "EDNS0_ECS"
  | dns_showDNSSEC => Some "SHOW_DNSSEC"
  | dns_specialDomains_mozillaCanary => Some "MOZILLA_CANARY"
  | misc_addr2line => Some "ADDR2LINE"
  | dns_specialDomains_iCloudPrivateRelay => Some "BLOCK_ICLOUD_PR"
  | misc_check_load => Some "CHECK_LOAD"
  | _ => None
  end.

(** The key of each item that [readFTLlegacy] sets through [getPath]. *)
Definition path_key (i : item) : option string :=
  match i with
  | files_pid => Some "PIDFILE"
  | files_setupVars => Some "SETUPVARSFILE"
  | files_macvendor => Some "MACVENDORDB"
  | files_gravity => Some "GRAVITYDB"
  | http_paths_webroot => Some "WEBROOT"
  | http_paths_webhome => Some "WEBHOME"
  | files_ph7_error => Some "API_ERROR_LOG"
  | files_http_info => Some "API_INFO_LOG"
  | http_domain => Some "WEBDOMAIN"
  | _ => None
  end.

(** The key of each enum item and the words [readFTLlegacy] compares its
    value with, each with the value the word stands for. *)
Definition enum_words (i : item) : option (string * list (string * conf_value)) :=
  match i with
  | dns_blockingmode =>
      Some ("BLOCKINGMODE",
            [("NXDOMAIN", V_blocking_mode MODE_NX);
             ("NULL", V_blocking_mode MODE_NULL);
             ("IP-NODATA-AAAA", V_blocking_mode MODE_IP_NODATA_AAAA);
             ("IP", V_blocking_mode MODE_IP);
             ("NODATA", V_blocking_mode MODE_NODATA)])
  | resolver_refreshNames =>
      Some ("REFRESH_HOSTNAMES",
            [("ALL", V_refresh_hostnames REFRESH_ALL);
             ("NONE", V_refresh_hostnames REFRESH_NONE);
             ("UNKNOWN", V_refresh_hostnames REFRESH_UNKNOWN)])
  | dns_piholePTR =>
      Some ("PIHOLE_PTR",
            [("none", V_ptr_type PTR_NONE);
             ("false", V_ptr_type PTR_NONE);
             ("hostname", V_ptr_type PTR_HOSTNAME);
             ("hostnamefqdn", V_ptr_type PTR_HOSTNAMEFQDN)])
  | dns_replyWhenBusy =>
      Some ("REPLY_WHEN_BUSY",
            [("DROP", V_busy_reply BUSY_DROP);
             ("REFUSE", V_busy_reply BUSY_REFUSE);
             ("BLOCK", V_busy_reply BUSY_BLOCK)])
  | _ => None
  end.

(** ** Items and states *)

(** What the schema fixes of an item: its key, its help text, its tag and
    its default. *)
Definition schema (st : state) (i : item) : string * string * conf_type * conf_value :=
  (k (config st i), h (config st i), t (config st i), d (config st i)).

(** [lo <= x <= hi]. *)
Definition within (lo hi x : Z) : Prop := lo <= x <= hi.

End Notions.
Import Notions.

(* ================================================================== *)
(** * Properties: the string printer *)
(* ================================================================== *)

Module StringPrinter.

Lemma ascii_of_char_val : forall c, ascii_of_Z (char_val c) = c.
Proof.
  intros c.
  destruct c as [[|] [|] [|] [|] [|] [|] [|] [|]]; reflexivity.
Qed.

Lemma plain_char_verbatim : forall c, plain_char c -> verbatim (char_val c) = true.
Proof.
  intros c (Hr & Hq & Hb).
  destruct c as [[|] [|] [|] [|] [|] [|] [|] [|]];
    try reflexivity;
    try (exfalso; apply Hq; reflexivity);
    try (exfalso; apply Hb; reflexivity);
    exfalso; vm_compute in Hr; destruct Hr as [H1 H2];
    first [apply H1; reflexivity | apply H2; reflexivity].
Qed.

Lemma verbatim_not_NUL : forall c, verbatim (char_val c) = true -> Ascii.eqb c NUL = false.
Proof.
  intros c H.
  destruct (Ascii.eqb_spec c NUL) as [->|]; [discriminate H | reflexivity].
Qed.

Lemma printable_scan_false : forall p, printable_scan p false = false.
Proof.
  induction p as [|c p IH]; simpl; [reflexivity|].
  destruct (Ascii.eqb c NUL); reflexivity.
Qed.

(** Where the first loop ends with [ok] set, the second loop would copy
    every character as it is. *)
Lemma escape_loop_verbatim : forall s,
  printable_scan s true = true -> escape_loop (strlen s) s = c_str s.
Proof.
  induction s as [|c s IH]; simpl; intros H; [reflexivity|].
  destruct (Ascii.eqb c NUL) eqn:Hnul; [reflexivity|].
  simpl.
  destruct (verbatim (char_val c)) eqn:Hv.
  - unfold escape_char. rewrite Hv, ascii_of_char_val. simpl.
    now rewrite IH.
  - now rewrite printable_scan_false in H.
Qed.

Lemma plain_scan : forall s, plain s -> printable_scan s true = true.
Proof.
  induction s as [|c s IH]; simpl; intros H; [reflexivity|].
  inversion H as [|? ? Hc Hs]; subst.
  pose proof (plain_char_verbatim c Hc) as Hv.
  rewrite (verbatim_not_NUL c Hv), Hv.
  now apply IH.
Qed.

Lemma plain_c_str : forall s, plain s -> c_str s = s.
Proof.
  induction s as [|c s IH]; simpl; intros H; [reflexivity|].
  inversion H as [|? ? Hc Hs]; subst.
  rewrite (verbatim_not_NUL c (plain_char_verbatim c Hc)).
  now rewrite IH.
Qed.

(** Whatever the string, the text written is that of the general escaper. *)
Lemma printTOMLstring_is_slow : forall s,
  printTOMLstring (Some s) = printTOMLstring_slow s.
Proof.
  intros s. unfold printTOMLstring.
  destruct (printable_scan s true) eqn:H; [|reflexivity].
  unfold printTOMLstring_fast, printTOMLstring_slow.
  now rewrite escape_loop_verbatim.
Qed.

(** C2: for a string of printable ASCII characters without double quote and
    backslash [printTOMLstring] takes the fast path, which writes the string
    as it is between double quotes, and that text is the one the escaping
    loop of the slow path produces; for the string a"b<newline>c the text
    written is "a\"b\nc". *)
Theorem printTOMLstring_fast_path_is_slow_path :
  (forall s, plain s ->
     printable_scan s true = true /\
     printTOMLstring (Some s) = printTOMLstring_fast s /\
     printTOMLstring_fast s = String dquote (s ++ String dquote EmptyString) /\
     printTOMLstring_fast s = printTOMLstring_slow s) /\
  printTOMLstring (Some quote_newline_example)
  = String dquote
      (String "a" (String backslash (String dquote
         (String "b" (String backslash (String "n" (String "c"
            (String dquote EmptyString)))))))).
Proof.
  split; [|reflexivity].
  intros s Hs.
  pose proof (plain_scan s Hs) as Hscan.
  repeat split.
  - exact Hscan.
  - unfold printTOMLstring. now rewrite Hscan.
  - unfold printTOMLstring_fast. now rewrite plain_c_str.
  - unfold printTOMLstring_fast, printTOMLstring_slow.
    now rewrite escape_loop_verbatim.
Qed.

Lemma plain_pihole : plain "/var/log/pihole/FTL.log".
Proof.
  repeat constructor; vm_compute; intuition discriminate.
Qed.

Lemma printTOMLstring_fast_path_witness :
  plain "/var/log/pihole/FTL.log" /\
  printTOMLstring_fast "/var/log/pihole/FTL.log"
  = printTOMLstring_slow "/var/log/pihole/FTL.log".
Proof.
  split; [exact plain_pihole|].
  apply (proj1 printTOMLstring_fast_path_is_slow_path "/var/log/pihole/FTL.log" plain_pihole).
Defined.

End StringPrinter.

(* ================================================================== *)
(** * Properties: decimal numbers through the document *)
(* ================================================================== *)

Module DecimalText.

Import Decimal.

Lemma read_digits_string_of_uint : forall d acc n,
  read_digits 10 (NilEmpty.string_of_uint d) acc n
  = (digits_value d acc, (n + nb_digits d)%nat, EmptyString).
Proof.
  intros u; induction u as [|u IH|u IH|u IH|u IH|u IH|u IH|u IH|u IH|u IH|u IH];
    intros acc n; simpl nb_digits.
  1: simpl; repeat f_equal; lia.
  all: cbn [NilEmpty.string_of_uint read_digits digits_value];
    match goal with
    | |- context [digit_val 10 ?c] =>
        let r := eval vm_compute in (digit_val 10 c) in
        change (digit_val 10 c) with r
    end;
    cbv iota; rewrite IH; f_equal; f_equal; lia.
Qed.

Lemma digits_value_of_uint_acc : forall d acc,
  digits_value d (Zpos acc) = Zpos (Pos.of_uint_acc d acc).
Proof.
  intros u; induction u as [|u IH|u IH|u IH|u IH|u IH|u IH|u IH|u IH|u IH|u IH];
    intros acc; cbn [digits_value Pos.of_uint_acc]; try reflexivity;
    rewrite <- IH; f_equal; lia.
Qed.

Lemma digits_value_of_uint : forall d, digits_value d 0 = Z.of_N (Pos.of_uint d).
Proof.
  intros u; induction u as [|u IH|u IH|u IH|u IH|u IH|u IH|u IH|u IH|u IH|u IH];
    cbn [digits_value Pos.of_uint Z.of_N]; try reflexivity;
    try (rewrite <- digits_value_of_uint_acc; reflexivity).
  exact IH.
Qed.

Lemma digits_value_to_uint : forall p, digits_value (Pos.to_uint p) 0 = Zpos p.
Proof.
  intros p. rewrite digits_value_of_uint, DecimalPos.Unsigned.of_to. reflexivity.
Qed.

Lemma unorm_D0 : forall u u', unorm u = D0 u' -> u' = Nil.
Proof.
  intros u; induction u as [|u IH|u IH|u IH|u IH|u IH|u IH|u IH|u IH|u IH|u IH];
    simpl; intros u' H; try discriminate; try (now inversion H).
  now apply IH.
Qed.

Lemma to_uint_no_leading_zero : forall p u, Pos.to_uint p <> D0 u.
Proof.
  intros p u H.
  pose proof (DecimalPos.Unsigned.to_of (Pos.to_uint p)) as Hn.
  rewrite DecimalPos.Unsigned.of_to in Hn. simpl in Hn.
  rewrite H in Hn. symmetry in Hn.
  pose proof (unorm_D0 _ _ Hn) as ->.
  now apply (DecimalPos.Unsigned.to_uint_nonzero p).
Qed.

Lemma string_of_uint_nonnil : forall u, u <> Nil ->
  NilZero.string_of_uint u = NilEmpty.string_of_uint u.
Proof.
  intros u H. destruct u; [now elim H|..]; reflexivity.
Qed.

(** The digits of a positive number carry no sign and no leading zero, and
    are read as the number. *)
Lemma to_uint_text : forall p,
  let s := NilEmpty.string_of_uint (Pos.to_uint p) in
  read_sign s = (false, s) /\ leading_zero s = false /\
  exists n, read_digits 10 s 0 O = (Zpos p, S n, EmptyString).
Proof.
  intros p s. subst s.
  pose proof (to_uint_no_leading_zero p) as Hz.
  pose proof (DecimalPos.Unsigned.to_uint_nonnil p) as Hnil.
  pose proof (digits_value_to_uint p) as Hv.
  pose proof (read_digits_string_of_uint (Pos.to_uint p) 0 O) as Hread.
  rewrite Hread, Hv.
  destruct (Pos.to_uint p) as [|u|u|u|u|u|u|u|u|u|u];
    try (exfalso; apply Hnil; reflexivity);
    try (exfalso; apply (Hz u); reflexivity);
    (split; [reflexivity|split; [reflexivity|]]);
    eexists; reflexivity.
Qed.

(** Every number of the range of [int64_t], written in decimal, is read
    back by the integer accessor. *)
Lemma toml_rtoi_fmt_d : forall z,
  LONG_MIN <= z <= LONG_MAX -> toml_rtoi (fmt_d z) = Some z.
Proof.
  intros z Hz. unfold fmt_d, toml_rtoi.
  destruct z as [|p|p]; [reflexivity|..];
    destruct (to_uint_text p) as (Hs & Hl & n & Hr);
    cbn [Z.to_int NilZero.string_of_int];
    rewrite (string_of_uint_nonnil _ (DecimalPos.Unsigned.to_uint_nonnil p)).
  - rewrite Hs, Hl, Hr.
    replace ((LONG_MIN <=? Zpos p) && (Zpos p <=? LONG_MAX)) with true; [reflexivity|].
    symmetry. apply andb_true_intro; split; apply Z.leb_le; lia.
  - cbn [read_sign]. rewrite Hl, Hr.
    replace ((LONG_MIN <=? - Zpos p) && (- Zpos p <=? LONG_MAX)) with true; [reflexivity|].
    symmetry. apply andb_true_intro; split; apply Z.leb_le; lia.
Qed.

End DecimalText.

(* ================================================================== *)
(** * Properties: strings and addresses through the document *)
(* ================================================================== *)

Module QuotedText.

Import StringPrinter.

Lemma escape_char_decoded : forall c rest,
  escapable c = true ->
  basic_string_body (escape_char (char_val c) ++ rest)
  = match basic_string_body rest with
    | Some r => Some (String c r)
    | None => None
    end.
Proof.
  intros c rest H.
  destruct c as [[|] [|] [|] [|] [|] [|] [|] [|]];
    try (vm_compute in H; discriminate H); reflexivity.
Qed.

Lemma escapable_not_NUL : forall c, escapable c = true -> Ascii.eqb c NUL = false.
Proof.
  intros c H.
  destruct (Ascii.eqb_spec c NUL) as [->|]; [discriminate H | reflexivity].
Qed.

Lemma append_assoc : forall a b c : string, ((a ++ b) ++ c = a ++ (b ++ c))%string.
Proof.
  intros a; induction a as [|x a IH]; intros b c; simpl; [reflexivity|].
  now rewrite IH.
Qed.

(** The text of the escaping loop, closed by the quote, decodes to the string. *)
Lemma escape_loop_decoded : forall s,
  all_escapable s = true ->
  basic_string_body (escape_loop (strlen s) s ++ String dquote EmptyString) = Some s.
Proof.
  intros s; induction s as [|c s IH]; intros H; [reflexivity|].
  unfold all_escapable in H. simpl in H. apply andb_prop in H. destruct H as [Hc Hs].
  cbn [strlen]. rewrite (escapable_not_NUL c Hc).
  cbn [escape_loop]. rewrite append_assoc, (escape_char_decoded c _ Hc).
  now rewrite (IH Hs).
Qed.

(** A string of escapable characters is read back from what
    [printTOMLstring] writes for it. *)
Lemma toml_rtos_printTOMLstring : forall s,
  all_escapable s = true -> toml_rtos (printTOMLstring (Some s)) = Some s.
Proof.
  intros s H. rewrite printTOMLstring_is_slow.
  unfold printTOMLstring_slow, toml_rtos.
  change (Ascii.eqb dquote dquote) with true. cbv iota.
  now apply escape_loop_decoded.
Qed.

(** ** Dotted-quad text *)

Lemma ascii_of_byte_val : forall c, ascii_of_Z (byte_val c) = c.
Proof.
  intros c. destruct c as [[|] [|] [|] [|] [|] [|] [|] [|]]; reflexivity.
Qed.

(** One octet in decimal, at the head of the text and with fewer than four
    octets read so far, is read as that octet. *)
Lemma inet_pton4_octet : forall o rest done,
  (4 <=? Z.of_nat (List.length done)) = false ->
  inet_pton4_loop (fmt_d (byte_val o) ++ rest) done 0 false
  = inet_pton4_loop rest done (byte_val o) true.
Proof.
  intros o rest done Hd.
  destruct o as [[|] [|] [|] [|] [|] [|] [|] [|]];
    cbn -[Z.of_nat List.length Z.leb inet_pton4_loop];
    repeat (cbn [inet_pton4_loop]; cbv zeta;
            match goal with
            | |- context [isdigit (byte_val ?c)] =>
                let r := eval vm_compute in (isdigit (byte_val c)) in
                change (isdigit (byte_val c)) with r
            end; cbv iota;
            try rewrite Hd; cbn [negb andb];
            match goal with
            | |- context [?a * 10 + (byte_val ?c - 48)] =>
                let r := eval vm_compute in (a * 10 + (byte_val c - 48)) in
                change (a * 10 + (byte_val c - 48)) with r
            end;
            repeat match goal with
            | |- context [?a =? ?b] =>
                let r := eval vm_compute in (a =? b) in change (a =? b) with r
            | |- context [?a <? ?b] =>
                let r := eval vm_compute in (a <? b) in change (a <? b) with r
            end; cbn [negb andb]; cbv iota);
    reflexivity.
Qed.

Lemma append_empty : forall s : string, (s ++ EmptyString)%string = s.
Proof.
  intros s; induction s as [|c s IH]; simpl; [reflexivity|now rewrite IH].
Qed.

(** The dot after an octet closes it. *)
Lemma inet_pton4_dot : forall rest done cur,
  (3 <=? Z.of_nat (List.length done)) = false ->
  inet_pton4_loop (String "." rest) done cur true
  = inet_pton4_loop rest (done ++ [cur])%list 0 false.
Proof.
  intros rest done cur H. cbn [inet_pton4_loop]. cbv zeta.
  change (isdigit (byte_val ".")) with false.
  change (byte_val "." =? 46) with true. cbn [andb]. cbv iota.
  now rewrite H.
Qed.

(** An address written by [inet_ntop] is read back by [inet_pton]. *)
Lemma inet_pton4_ntop4 : forall a, inet_pton4 (inet_ntop4 a) = Some a.
Proof.
  intros [[[a0 a1] a2] a3]. unfold inet_pton4, inet_ntop4.
  rewrite <- (append_empty (fmt_d (byte_val a3))).
  cbn [append].
  rewrite inet_pton4_octet by reflexivity.
  rewrite inet_pton4_dot by reflexivity.
  rewrite inet_pton4_octet by reflexivity.
  rewrite inet_pton4_dot by reflexivity.
  rewrite inet_pton4_octet by reflexivity.
  rewrite inet_pton4_dot by reflexivity.
  rewrite inet_pton4_octet by reflexivity.
  cbn [inet_pton4_loop app].
  now rewrite !ascii_of_byte_val.
Qed.

Lemma all_escapable_app : forall a b,
  all_escapable (a ++ b) = all_escapable a && all_escapable b.
Proof.
  intros a; induction a as [|c a IH]; intros b; [reflexivity|].
  unfold all_escapable in *. simpl. now rewrite IH, andb_assoc.
Qed.

(** The text of an address holds digits and dots only. *)
Lemma fmt_d_octet_escapable : forall o, all_escapable (fmt_d (byte_val o)) = true.
Proof.
  intros o.
  destruct o as [[|] [|] [|] [|] [|] [|] [|] [|]]; vm_compute; reflexivity.
Qed.

Lemma inet_ntop4_escapable : forall a, all_escapable (inet_ntop4 a) = true.
Proof.
  intros [[[a0 a1] a2] a3]. unfold inet_ntop4.
  now rewrite !all_escapable_app, !fmt_d_octet_escapable.
Qed.

End QuotedText.

(* ================================================================== *)
(** * Properties: writing a value and reading it back *)
(* ================================================================== *)

Module RoundTrip.

Import StringPrinter DecimalText QuotedText.

Lemma wrap_u32_s32 : forall w, 0 <= w < 2 ^ 32 -> wrap_u32 (wrap_s32 w) = w.
Proof.
  intros w H. unfold wrap_u32, wrap_s32.
  change (2 ^ 32) with 4294967296 in *. change (2 ^ 31) with 2147483648.
  Z.to_euclidean_division_equations; lia.
Qed.

Lemma wrap_u64_s64 : forall w, 0 <= w < 2 ^ 64 -> wrap_u64 (wrap_s64 w) = w.
Proof.
  intros w H. unfold wrap_u64, wrap_s64.
  change (2 ^ 64) with 18446744073709551616 in *.
  change (2 ^ 63) with 9223372036854775808.
  Z.to_euclidean_division_equations; lia.
Qed.

Lemma wrap_s32_range : forall w, - 2 ^ 31 <= wrap_s32 w < 2 ^ 31.
Proof.
  intros w. unfold wrap_s32.
  change (2 ^ 32) with 4294967296. change (2 ^ 31) with 2147483648.
  Z.to_euclidean_division_equations; lia.
Qed.

Lemma wrap_s64_range : forall w, LONG_MIN <= wrap_s64 w <= LONG_MAX.
Proof.
  intros w. unfold wrap_s64, LONG_MIN, LONG_MAX.
  change (2 ^ 64) with 18446744073709551616.
  change (2 ^ 63) with 9223372036854775808.
  Z.to_euclidean_division_equations; lia.
Qed.

Section WriteRead.
Context {E : External}.

Lemma read_enum_written : forall {A} (get_val : string -> option A) (mk : A -> conf_value)
    (name : string) (e : A) (dst : conf_item) (key : string) (toml : toml_table_t),
  all_escapable name = true ->
  get_val name = Some e ->
  toml_raw_in toml key = Some (printTOMLstring (Some name)) ->
  read_enum get_val mk dst key toml = (with_v dst (mk e), []).
Proof.
  intros A get_val mk name e dst key toml Hn Hv Hraw.
  unfold read_enum, toml_string_in.
  now rewrite Hraw, (toml_rtos_printTOMLstring name Hn), Hv.
Qed.

(** C1, as amended: for an item [src] whose current value survives, an item
    [dst] of the same tag, and a table that holds under [key] the text
    [writeTOMLvalue] emits for [src], [readTOMLvalue] stores in [dst] the
    value that was serialized, and changes nothing else of [dst]. *)
Theorem write_then_read_round_trip :
  forall (src dst : conf_item) (key : string) (toml : toml_table_t),
    survives (t src) (v src) ->
    t dst = t src ->
    toml_raw_in toml key = Some (writeTOMLvalue (t src) (v src)) ->
    fst (readTOMLvalue dst key toml) = with_v dst (v src).
Proof.
  intros src dst key toml Hs Ht Hraw.
  unfold readTOMLvalue. rewrite Ht.
  destruct (t src); destruct (v src) as [b|w|w|s|e|e|e|e|a|a];
    simpl in Hs; try contradiction; cbn [writeTOMLvalue] in Hraw.
  - (* bool *)
    unfold toml_bool_in. rewrite Hraw. cbn [get_b]. now destruct b.
  - (* int *)
    unfold toml_int_in. rewrite Hraw. cbn [get_i].
    rewrite toml_rtoi_fmt_d.
    + cbn [fst]. unfold set_i. now rewrite wrap_u32_s32.
    + pose proof (wrap_s32_range w). unfold LONG_MIN, LONG_MAX.
      change (2 ^ 31) with 2147483648 in *.
      change (2 ^ 63) with 9223372036854775808. lia.
  - (* unsigned int *)
    unfold toml_int_in. rewrite Hraw. cbn [get_ui].
    change (2 ^ 32) with 4294967296 in Hs.
    rewrite toml_rtoi_fmt_d
      by (unfold LONG_MIN, LONG_MAX; change (2 ^ 63) with 9223372036854775808; lia).
    replace (0 <=? w) with true by (symmetry; apply Z.leb_le; lia).
    cbn [fst]. unfold set_ui, wrap_u32. rewrite Z.mod_small; [reflexivity|].
    change (2 ^ 32) with 4294967296. lia.
  - (* long *)
    unfold toml_int_in. rewrite Hraw. cbn [get_l].
    rewrite toml_rtoi_fmt_d by apply wrap_s64_range.
    cbn [fst]. unfold set_l. now rewrite wrap_u64_s64.
  - (* unsigned long *)
    unfold toml_int_in. rewrite Hraw. cbn [get_ul].
    change (2 ^ 63) with 9223372036854775808 in Hs.
    rewrite toml_rtoi_fmt_d
      by (unfold LONG_MIN, LONG_MAX; change (2 ^ 63) with 9223372036854775808; lia).
    replace (0 <=? w) with true by (symmetry; apply Z.leb_le; lia).
    cbn [fst]. unfold set_ul, wrap_u64. rewrite Z.mod_small; [reflexivity|].
    change (2 ^ 64) with 18446744073709551616. lia.
  - (* string *)
    destruct s as [s|]; [|contradiction].
    unfold toml_string_in. rewrite Hraw. cbn [get_s].
    now rewrite toml_rtos_printTOMLstring.
  - (* PTR type *)
    destruct Hs as [Hn Hv]. now rewrite (read_enum_written _ _ _ e dst key toml Hn Hv Hraw).
  - (* busy reply *)
    destruct Hs as [Hn Hv]. now rewrite (read_enum_written _ _ _ e dst key toml Hn Hv Hraw).
  - (* blocking mode *)
    destruct Hs as [Hn Hv]. now rewrite (read_enum_written _ _ _ e dst key toml Hn Hv Hraw).
  - (* refresh hostnames *)
    destruct Hs as [Hn Hv]. now rewrite (read_enum_written _ _ _ e dst key toml Hn Hv Hraw).
  - (* privacy level *)
    unfold toml_int_in. rewrite Hraw. cbn [get_ui].
    unfold PRIVACY_SHOW_ALL, PRIVACY_MAXIMUM in *.
    rewrite toml_rtoi_fmt_d
      by (unfold LONG_MIN, LONG_MAX; change (2 ^ 63) with 9223372036854775808; lia).
    replace ((0 <=? w) && (w <=? 3)) with true
      by (symmetry; apply andb_true_intro; split; apply Z.leb_le; lia).
    cbn [fst]. unfold set_i, wrap_u32. rewrite Z.mod_small; [reflexivity|].
    change (2 ^ 32) with 4294967296. lia.
  - (* IPv4 address *)
    unfold toml_string_in. rewrite Hraw. cbn [get_in_addr].
    rewrite toml_rtos_printTOMLstring by apply inet_ntop4_escapable.
    now rewrite inet_pton4_ntop4.
  - (* IPv6 address *)
    destruct Hs as [Hn Hv].
    unfold toml_string_in. rewrite Hraw. cbn [get_in6_addr].
    now rewrite toml_rtos_printTOMLstring, Hv.
Qed.

End WriteRead.

End RoundTrip.

(* ================================================================== *)
(** * Properties: what a legacy handler writes *)
(* ================================================================== *)

Module Frame.

Import Legacy.

Lemma item_eqb_refl : forall i, item_eqb i i = true.
Proof.
  intros i. unfold item_eqb. apply Nat.eqb_refl.
Qed.

Lemma cur_store : forall st j x i,
  cur (store st j x) i = if item_eqb j i then x else cur st i.
Proof.
  intros st j x i. unfold cur, store, set_config, set_v. simpl.
  now destruct (item_eqb j i).
Qed.

Lemma cur_store_same : forall st j x, cur (store st j x) j = x.
Proof.
  intros. now rewrite cur_store, item_eqb_refl.
Qed.

Lemma cur_store_other : forall st j x i,
  item_eqb j i = false -> cur (store st j x) i = cur st i.
Proof.
  intros st j x i H. now rewrite cur_store, H.
Qed.

Lemma dflt_store : forall st j x i, dflt (store st j x) i = dflt st i.
Proof.
  intros st j x i. unfold dflt, store, set_config, set_v. simpl.
  now destruct (item_eqb j i).
Qed.

Lemma cur_log_msg : forall st sev msg i, cur (log_msg st sev msg) i = cur st i.
Proof. reflexivity. Qed.

Lemma dflt_log_msg : forall st sev msg i, dflt (log_msg st sev msg) i = dflt st i.
Proof. reflexivity. Qed.

(** Storing into an item the value it holds changes no current value. *)
Lemma cur_store_held : forall st j i, cur (store st j (cur st j)) i = cur st i.
Proof.
  intros st j i. rewrite cur_store.
  destruct (item_eqb j i) eqn:H; [|reflexivity].
  unfold item_eqb in H. apply Nat.eqb_eq in H.
  f_equal.
  destruct j, i; simpl in H; try discriminate H; try reflexivity.
  f_equal. lia.
Qed.

End Frame.

Module Handlers.

Import Legacy Frame.

(** Case analysis on everything a handler branches on, then the stores. *)
Ltac handler_cases :=
  repeat match goal with
         | |- context [match ?x with _ => _ end] =>
             lazymatch x with
             | context [match _ with _ => _ end] => fail
             | _ => destruct x
             end
         end.

Ltac frame_solve :=
  intros; handler_cases; cbn [fst snd];
  repeat first [ rewrite cur_store_other by assumption
               | rewrite dflt_store
               | rewrite cur_log_msg
               | rewrite dflt_log_msg ];
  reflexivity.

Section Frames.
Context {E : External}.

(** ** Items a handler leaves alone *)

Lemma legacy_bool_frame : forall key j fp st i,
  item_eqb j i = false -> cur (legacy_bool key j fp st) i = cur st i.
Proof. unfold legacy_bool. frame_solve. Qed.

Lemma legacy_bool_dflt : forall key j fp st i,
  dflt (legacy_bool key j fp st) i = dflt st i.
Proof. unfold legacy_bool. frame_solve. Qed.

Lemma legacy_path_frame : forall key j fp st i,
  item_eqb j i = false -> cur (legacy_path key j fp st) i = cur st i.
Proof. unfold legacy_path, getPath. frame_solve. Qed.

Lemma legacy_MAXDBDAYS_frame : forall fp st i,
  item_eqb database_maxDBdays i = false -> cur (legacy_MAXDBDAYS fp st) i = cur st i.
Proof. unfold legacy_MAXDBDAYS. frame_solve. Qed.

Lemma legacy_MAXDBDAYS_dflt : forall fp st i, dflt (legacy_MAXDBDAYS fp st) i = dflt st i.
Proof. unfold legacy_MAXDBDAYS. frame_solve. Qed.

Lemma legacy_DBINTERVAL_frame : forall fp st i,
  item_eqb database_DBinterval i = false -> cur (legacy_DBINTERVAL fp st) i = cur st i.
Proof. unfold legacy_DBINTERVAL. frame_solve. Qed.

Lemma legacy_DBINTERVAL_dflt : forall fp st i, dflt (legacy_DBINTERVAL fp st) i = dflt st i.
Proof. unfold legacy_DBINTERVAL. frame_solve. Qed.

Lemma legacy_DBFILE_frame : forall fp st i,
  item_eqb files_database i = false -> item_eqb database_maxDBdays i = false ->
  cur (legacy_DBFILE fp st) i = cur st i.
Proof. unfold legacy_DBFILE. frame_solve. Qed.

Lemma legacy_DBFILE_dflt : forall fp st i, dflt (legacy_DBFILE fp st) i = dflt st i.
Proof. unfold legacy_DBFILE. frame_solve. Qed.

Lemma legacy_MAXLOGAGE_frame : forall fp st i,
  item_eqb database_maxHistory i = false -> cur (legacy_MAXLOGAGE fp st) i = cur st i.
Proof. unfold legacy_MAXLOGAGE. frame_solve. Qed.

Lemma legacy_MAXLOGAGE_dflt : forall fp st i, dflt (legacy_MAXLOGAGE fp st) i = dflt st i.
Proof. unfold legacy_MAXLOGAGE. frame_solve. Qed.

Lemma getPrivacyLevelLegacy_frame : forall fs fp st i,
  item_eqb misc_privacylevel i = false ->
  cur (getPrivacyLevelLegacy fs fp st) i = cur st i.
Proof. unfold getPrivacyLevelLegacy. frame_solve. Qed.

Lemma getPrivacyLevelLegacy_dflt : forall fs fp st i,
  dflt (getPrivacyLevelLegacy fs fp st) i = dflt st i.
Proof. unfold getPrivacyLevelLegacy. frame_solve. Qed.

Lemma legacy_IGNORE_LOCALHOST_frame : forall fp st i,
  item_eqb dns_ignoreLocalhost i = false ->
  cur (legacy_IGNORE_LOCALHOST fp st) i = cur st i.
Proof. unfold legacy_IGNORE_LOCALHOST. frame_solve. Qed.

Lemma legacy_IGNORE_LOCALHOST_dflt : forall fp st i,
  dflt (legacy_IGNORE_LOCALHOST fp st) i = dflt st i.
Proof. unfold legacy_IGNORE_LOCALHOST. frame_solve. Qed.

Lemma getBlockingModeLegacy_frame : forall fs fp st i,
  item_eqb dns_blockingmode i = false ->
  cur (getBlockingModeLegacy fs fp st) i = cur st i.
Proof. unfold getBlockingModeLegacy. frame_solve. Qed.

Lemma legacy_ANALYZE_ONLY_A_AND_AAAA_frame : forall fp st i,
  item_eqb dns_analyzeOnlyAandAAAA i = false ->
  cur (legacy_ANALYZE_ONLY_A_AND_AAAA fp st) i = cur st i.
Proof. unfold legacy_ANALYZE_ONLY_A_AND_AAAA. frame_solve. Qed.

Lemma legacy_DELAY_STARTUP_frame : forall ind fp st i,
  item_eqb misc_delay_startup i = false ->
  cur (legacy_DELAY_STARTUP ind fp st) i = cur st i.
Proof. unfold legacy_DELAY_STARTUP. frame_solve. Qed.

Lemma legacy_WEBPORT_frame : forall fp st i,
  item_eqb http_port i = false -> cur (legacy_WEBPORT fp st) i = cur st i.
Proof. unfold legacy_WEBPORT. frame_solve. Qed.

Lemma legacy_WEBACL_frame : forall fp st i,
  item_eqb http_acl i = false -> cur (legacy_WEBACL fp st) i = cur st i.
Proof. unfold legacy_WEBACL. frame_solve. Qed.

Lemma legacy_API_SESSION_TIMEOUT_frame : forall fp st i,
  item_eqb http_sessionTimeout i = false ->
  cur (legacy_API_SESSION_TIMEOUT fp st) i = cur st i.
Proof. unfold legacy_API_SESSION_TIMEOUT. frame_solve. Qed.

Lemma legacy_MAXNETAGE_frame : forall fp st i,
  item_eqb database_network_expire i = false ->
  cur (fst (legacy_MAXNETAGE fp st)) i = cur st i.
Proof. unfold legacy_MAXNETAGE. frame_solve. Qed.

Lemma legacy_REFRESH_HOSTNAMES_frame : forall fp st i,
  item_eqb resolver_refreshNames i = false ->
  cur (legacy_REFRESH_HOSTNAMES fp st) i = cur st i.
Proof. unfold legacy_REFRESH_HOSTNAMES. frame_solve. Qed.

Lemma legacy_RATE_LIMIT_frame : forall fp st i,
  item_eqb dns_rateLimit_count i = false -> item_eqb dns_rateLimit_interval i = false ->
  cur (legacy_RATE_LIMIT fp st) i = cur st i.
Proof. unfold legacy_RATE_LIMIT. frame_solve. Qed.

Lemma legacy_addr4_frame : forall key o a fp st i,
  item_eqb o i = false -> item_eqb a i = false ->
  cur (legacy_addr4 key o a fp st) i = cur st i.
Proof. unfold legacy_addr4. frame_solve. Qed.

Lemma legacy_addr6_frame : forall key o a fp st i,
  item_eqb o i = false -> item_eqb a i = false ->
  cur (legacy_addr6 key o a fp st) i = cur st i.
Proof. unfold legacy_addr6. frame_solve. Qed.

Lemma legacy_REPLY_ADDR4_frame : forall fp st i,
  item_eqb dns_reply_host_overwrite_v4 i = false ->
  item_eqb dns_reply_host_v4 i = false ->
  item_eqb dns_reply_blocking_overwrite_v4 i = false ->
  item_eqb dns_reply_blocking_v4 i = false ->
  cur (legacy_REPLY_ADDR4 fp st) i = cur st i.
Proof. unfold legacy_REPLY_ADDR4. frame_solve. Qed.

Lemma legacy_REPLY_ADDR6_frame : forall ind fp st i,
  item_eqb dns_reply_host_overwrite_v6 i = false ->
  item_eqb dns_reply_host_v6 i = false ->
  item_eqb dns_reply_blocking_overwrite_v6 i = false ->
  item_eqb dns_reply_blocking_v6 i = false ->
  cur (legacy_REPLY_ADDR6 ind fp st) i = cur st i.
Proof. unfold legacy_REPLY_ADDR6. frame_solve. Qed.

Lemma legacy_PIHOLE_PTR_frame : forall fp st i,
  item_eqb dns_piholePTR i = false -> cur (legacy_PIHOLE_PTR fp st) i = cur st i.
Proof. unfold legacy_PIHOLE_PTR. frame_solve. Qed.

Lemma legacy_REPLY_WHEN_BUSY_frame : forall fp st i,
  item_eqb dns_replyWhenBusy i = false -> cur (legacy_REPLY_WHEN_BUSY fp st) i = cur st i.
Proof. unfold legacy_REPLY_WHEN_BUSY. frame_solve. Qed.

Lemma legacy_BLOCK_TTL_frame : forall fp st i,
  item_eqb dns_blockTTL i = false -> cur (legacy_BLOCK_TTL fp st) i = cur st i.
Proof. unfold legacy_BLOCK_TTL. frame_solve. Qed.

Lemma legacy_CHECK_SHMEM_frame : forall iv fp st i,
  item_eqb misc_check_shmem i = false ->
  cur (fst (legacy_CHECK_SHMEM iv fp st)) i = cur st i.
Proof. unfold legacy_CHECK_SHMEM. frame_solve. Qed.

Lemma legacy_CHECK_DISK_frame : forall iv fp st i,
  item_eqb misc_check_disk i = false ->
  cur (fst (legacy_CHECK_DISK iv fp st)) i = cur st i.
Proof. unfold legacy_CHECK_DISK. frame_solve. Qed.

End Frames.
End Handlers.

(* ================================================================== *)
(** * Properties: a key that is absent or malformed *)
(* ================================================================== *)

Module DefaultStands.

Import Legacy Frame Handlers.

Section Absent.
Context {E : External}.

(** ** A handler whose key is absent or malformed *)

Lemma parseBool_none_not : forall b word,
  parseBool (Some b) = None ->
  In word ["false"; "no"; "true"; "yes"] -> (strcasecmp b word =? 0) = false.
Proof.
  intros b word H Hin. unfold parseBool in H.
  destruct (strcasecmp b "false" =? 0) eqn:H1; [discriminate H|].
  destruct (strcasecmp b "no" =? 0) eqn:H2; [discriminate H|].
  destruct (strcasecmp b "true" =? 0) eqn:H3; [discriminate H|].
  destruct (strcasecmp b "yes" =? 0) eqn:H4; [discriminate H|].
  simpl in Hin. intuition (subst; assumption).
Qed.

Ltac unusable H :=
  intros;
  repeat match goal with
         | X : _ /\ _ |- _ => destruct X
         end;
  match type of H with
  | context [parseFTLconf ?fp ?key] =>
      destruct (parseFTLconf fp key) eqn:?
  end.

Lemma legacy_bool_stands : forall key j fp st i,
  no_bool fp key -> cur (legacy_bool key j fp st) i = cur st i.
Proof.
  intros key j fp st i H. unfold legacy_bool. unfold no_bool in H. now rewrite H.
Qed.

Lemma legacy_MAXDBDAYS_stands : forall fp st i,
  no_number sscanf_i maxdbdays_ok fp "MAXDBDAYS" ->
  cur (legacy_MAXDBDAYS fp st) i = cur st i.
Proof.
  intros fp st i H. unfold legacy_MAXDBDAYS, no_number in *.
  destruct (parseFTLconf fp "MAXDBDAYS") as [buffer|]; [|reflexivity].
  destruct (sscanf_i buffer) as [n| |]; [|reflexivity|contradiction].
  cbn [scan_ret scan_store]. change (1 =? 0) with false. cbv iota zeta.
  unfold maxdbdays_ok in H. apply orb_false_elim in H. destruct H as [H1 H2].
  assert (Hn : n < -1).
  { apply Z.eqb_neq in H1. rewrite Z.geb_leb in H2. apply Z.leb_gt in H2. lia. }
  replace (n >? INT_MAX / 24 / 60 / 60) with false.
  - now rewrite H1, H2.
  - symmetry. rewrite Z.gtb_ltb. apply Z.ltb_ge.
    change (INT_MAX / 24 / 60 / 60) with 24855. lia.
Qed.

Lemma legacy_DBINTERVAL_stands : forall fp st i,
  no_number sscanf_f (in_range DBinterval_of) fp "DBINTERVAL" ->
  cur (legacy_DBINTERVAL fp st) i = cur st i.
Proof.
  intros fp st i H. unfold legacy_DBINTERVAL, no_number, in_range in *.
  destruct (parseFTLconf fp "DBINTERVAL") as [buffer|]; [|reflexivity].
  destruct (sscanf_f buffer) as [f| |]; [|reflexivity|contradiction].
  cbn [scan_ret scan_store]. change (1 =? 0) with false. cbv iota.
  now destruct (DBinterval_of f).
Qed.

Lemma legacy_MAXLOGAGE_stands : forall fp st i,
  no_number sscanf_f (in_range maxHistory_of) fp "MAXLOGAGE" ->
  cur (legacy_MAXLOGAGE fp st) i = cur st i.
Proof.
  intros fp st i H. unfold legacy_MAXLOGAGE, no_number, in_range in *.
  destruct (parseFTLconf fp "MAXLOGAGE") as [buffer|]; [|reflexivity].
  destruct (sscanf_f buffer) as [f| |]; [|reflexivity|contradiction].
  cbn [scan_ret scan_store]. change (1 =? 0) with false. cbv iota.
  now destruct (maxHistory_of f).
Qed.

Lemma absent_no_word : forall fp key, absent fp key -> no_word fp key.
Proof. intros fp key H. unfold absent, no_word in *. now rewrite H. Qed.

Lemma absent_not_blank : forall fp key, absent fp key -> blank fp key = false.
Proof. intros fp key H. unfold absent, blank in *. now rewrite H. Qed.

Lemma legacy_DBFILE_path_stands : forall fp st,
  no_word fp "DBFILE" ->
  cur (legacy_DBFILE fp st) files_database = V_str (get_s (dflt st files_database)).
Proof.
  intros fp st H. unfold legacy_DBFILE, no_word, sscanf_ms in *.
  destruct (parseFTLconf fp "DBFILE") as [buffer|].
  - rewrite H. change (EOF =? 0) with false. cbv iota.
    rewrite cur_store_same. cbn [get_s].
    rewrite cur_store_other by reflexivity. rewrite cur_store_same.
    now rewrite dflt_store.
  - rewrite cur_store_same. cbn [get_s].
    destruct (get_s (dflt st files_database)) as [p|] eqn:Hp; cbn [strlen].
    + destruct (strlen p =? 0)%nat.
      * rewrite cur_store_other by reflexivity. rewrite cur_store_same.
        now rewrite dflt_store, Hp.
      * now rewrite cur_store_same.
    + rewrite cur_store_other by reflexivity. rewrite cur_store_same.
      now rewrite dflt_store, Hp.
Qed.

Lemma legacy_DBFILE_days_stands : forall fp st,
  no_word fp "DBFILE" ->
  cur (legacy_DBFILE fp st) database_maxDBdays
  = if blank fp "DBFILE" || empty_path (get_s (dflt st files_database)) then set_i 0
    else cur st database_maxDBdays.
Proof.
  intros fp st H. unfold legacy_DBFILE, no_word, blank, sscanf_ms in *.
  destruct (parseFTLconf fp "DBFILE") as [buffer|].
  - rewrite H. change (EOF =? 0) with false. cbv iota.
    rewrite cur_store_same. cbn [get_s orb]. now rewrite cur_store_same.
  - rewrite cur_store_same. cbn [get_s orb]. unfold empty_path.
    destruct (get_s (dflt st files_database)) as [p|].
    + destruct (strlen p =? 0)%nat.
      * now rewrite cur_store_same.
      * now rewrite cur_store_other by reflexivity.
    + now rewrite cur_store_same.
Qed.

Lemma getPrivacyLevelLegacy_stands : forall fs fp st i,
  no_number sscanf_i privacy_ok fp "PRIVACYLEVEL" ->
  cur (getPrivacyLevelLegacy fs (Some fp) st) i = cur st i.
Proof.
  intros fs fp st i H. unfold getPrivacyLevelLegacy, no_number, privacy_ok in *.
  destruct (parseFTLconf fp "PRIVACYLEVEL") as [buffer|]; [|reflexivity].
  destruct (sscanf_i buffer) as [n| |]; [|reflexivity|contradiction].
  cbn [scan_ret scan_store]. change (1 =? 1) with true. cbv iota zeta.
  now rewrite H.
Qed.

Lemma legacy_IGNORE_LOCALHOST_stands : forall fp st i,
  no_bool fp "IGNORE_LOCALHOST" -> cur (legacy_IGNORE_LOCALHOST fp st) i = cur st i.
Proof.
  intros fp st i H. unfold legacy_IGNORE_LOCALHOST, no_bool in *. rewrite H.
  destruct (parseFTLconf fp "IGNORE_LOCALHOST") as [b|]; [|reflexivity].
  rewrite (parseBool_none_not b "yes" H); [reflexivity|simpl; tauto].
Qed.

Lemma legacy_ANALYZE_ONLY_A_AND_AAAA_stands : forall fp st i,
  no_bool fp "ANALYZE_ONLY_A_AND_AAAA" ->
  cur (legacy_ANALYZE_ONLY_A_AND_AAAA fp st) i = cur st i.
Proof.
  intros fp st i H. unfold legacy_ANALYZE_ONLY_A_AND_AAAA, no_bool in *. rewrite H.
  destruct (parseFTLconf fp "ANALYZE_ONLY_A_AND_AAAA") as [b|]; [|reflexivity].
  rewrite (parseBool_none_not b "true" H); [reflexivity|simpl; tauto].
Qed.

Lemma getBlockingModeLegacy_stands : forall fs fp st,
  no_name ["NXDOMAIN"; "NULL"; "IP-NODATA-AAAA"; "IP"; "NODATA"] fp "BLOCKINGMODE" ->
  cur (getBlockingModeLegacy fs (Some fp) st) dns_blockingmode
  = V_blocking_mode (get_blocking_mode (dflt st dns_blockingmode)).
Proof.
  intros fs fp st H. unfold getBlockingModeLegacy, no_name in *.
  destruct (parseFTLconf fp "BLOCKINGMODE") as [b|]; [|now rewrite cur_store_same].
  cbn [forallb] in H.
  repeat (apply andb_prop in H; destruct H as [?H H]).
  repeat match goal with
         | X : negb ?c = true |- _ => apply negb_true_iff in X; rewrite X
         end.
  now rewrite cur_log_msg, cur_store_same.
Qed.

Lemma legacy_path_stands : forall key j fp st i,
  absent fp key ->
  cur (legacy_path key j fp st) i
  = if item_eqb j i then V_str (get_s (cur st j)) else cur st i.
Proof.
  intros key j fp st i H. unfold legacy_path, getPath, absent in *.
  rewrite H. now rewrite cur_store.
Qed.

Lemma legacy_DELAY_STARTUP_stands : forall ind fp st i,
  no_number sscanf_u delay_ok fp "DELAY_STARTUP" ->
  cur (legacy_DELAY_STARTUP ind fp st) i = cur st i.
Proof.
  intros ind fp st i H. unfold legacy_DELAY_STARTUP, no_number, delay_ok in *.
  destruct (parseFTLconf fp "DELAY_STARTUP") as [buffer|]; [|reflexivity].
  destruct (sscanf_u buffer) as [n| |]; [|reflexivity|contradiction].
  cbn [scan_ret scan_store]. change (negb (1 =? 0)) with true. cbn [andb].
  now rewrite H.
Qed.

Lemma legacy_WEBPORT_stands : forall fp st i,
  no_text fp "WEBPORT" -> cur (legacy_WEBPORT fp st) i = cur st i.
Proof.
  intros fp st i H. unfold legacy_WEBPORT, no_text in *.
  destruct (parseFTLconf fp "WEBPORT"); [|reflexivity]. now rewrite H.
Qed.

Lemma legacy_WEBACL_stands : forall fp st i,
  absent fp "WEBACL" -> cur (legacy_WEBACL fp st) i = cur st i.
Proof.
  intros fp st i H. unfold legacy_WEBACL, absent in *. now rewrite H.
Qed.

Lemma legacy_API_SESSION_TIMEOUT_stands : forall fp st i,
  no_number sscanf_i timeout_ok fp "API_SESSION_TIMEOUT" ->
  cur (legacy_API_SESSION_TIMEOUT fp st) i = cur st i.
Proof.
  intros fp st i H. unfold legacy_API_SESSION_TIMEOUT, no_number, timeout_ok in *.
  destruct (parseFTLconf fp "API_SESSION_TIMEOUT") as [buffer|]; [|reflexivity].
  destruct (sscanf_i buffer) as [n| |]; [|reflexivity|contradiction].
  cbn [scan_ret scan_store]. change (negb (1 =? 0)) with true. cbn [andb].
  now rewrite H.
Qed.

Lemma legacy_MAXNETAGE_stands : forall fp st i,
  no_number sscanf_i netage_ok fp "MAXNETAGE" ->
  cur (fst (legacy_MAXNETAGE fp st)) i = cur st i.
Proof.
  intros fp st i H. unfold legacy_MAXNETAGE, no_number, netage_ok in *.
  destruct (parseFTLconf fp "MAXNETAGE") as [buffer|]; [|reflexivity].
  destruct (sscanf_i buffer) as [n| |]; [|reflexivity|contradiction].
  cbn [scan_ret scan_store]. change (negb (1 =? 0)) with true. cbn [andb].
  now rewrite H.
Qed.

Lemma legacy_REFRESH_HOSTNAMES_stands : forall fp st,
  no_name ["ALL"; "NONE"; "UNKNOWN"] fp "REFRESH_HOSTNAMES" ->
  cur (legacy_REFRESH_HOSTNAMES fp st) resolver_refreshNames
  = V_refresh_hostnames REFRESH_IPV4_ONLY.
Proof.
  intros fp st H. unfold legacy_REFRESH_HOSTNAMES, no_name in *.
  destruct (parseFTLconf fp "REFRESH_HOSTNAMES") as [b|]; [|now rewrite cur_store_same].
  cbn [forallb] in H.
  repeat (apply andb_prop in H; destruct H as [?H H]).
  repeat match goal with
         | X : negb ?c = true |- _ => apply negb_true_iff in X; rewrite X
         end.
  now rewrite cur_store_same.
Qed.

Lemma legacy_RATE_LIMIT_stands : forall fp st i,
  match parseFTLconf fp "RATE_LIMIT" with
  | None => True
  | Some buffer => fst (fst (sscanf_u_slash_u buffer 0 0)) <> 2
  end ->
  cur (legacy_RATE_LIMIT fp st) i = cur st i.
Proof.
  intros fp st i H. unfold legacy_RATE_LIMIT.
  destruct (parseFTLconf fp "RATE_LIMIT") as [b|]; [|reflexivity].
  destruct (sscanf_u_slash_u b 0 0) as [[ret c] iv]. cbn [fst] in H.
  destruct (Z.eqb_spec ret 2); [contradiction|reflexivity].
Qed.

Lemma legacy_addr4_stands : forall key o a fp st i,
  no_address inet_pton4 fp key -> item_eqb a o = false ->
  cur (legacy_addr4 key o a fp st) i
  = if item_eqb a i then V_in_addr in_addr_zero
    else if item_eqb o i then V_bool false else cur st i.
Proof.
  intros key o a fp st i H Hao. unfold legacy_addr4, no_address in *.
  destruct (parseFTLconf fp key); [rewrite H|]; now rewrite !cur_store.
Qed.

Lemma legacy_addr6_stands : forall key o a fp st i,
  no_address inet_pton6 fp key -> item_eqb a o = false ->
  cur (legacy_addr6 key o a fp st) i
  = if item_eqb a i then V_in6_addr in6_addr_zero
    else if item_eqb o i then V_bool false else cur st i.
Proof.
  intros key o a fp st i H Hao. unfold legacy_addr6, no_address in *.
  destruct (parseFTLconf fp key); [rewrite H|]; now rewrite !cur_store.
Qed.

Lemma legacy_REPLY_ADDR4_stands : forall fp st i,
  no_address inet_pton4 fp "REPLY_ADDR4" -> cur (legacy_REPLY_ADDR4 fp st) i = cur st i.
Proof.
  intros fp st i H. unfold legacy_REPLY_ADDR4, no_address in *.
  destruct (parseFTLconf fp "REPLY_ADDR4"); [|reflexivity]. now rewrite H.
Qed.

Lemma legacy_REPLY_ADDR6_stands : forall ind fp st i,
  no_address inet_pton4 fp "REPLY_ADDR6" ->
  cur (legacy_REPLY_ADDR6 ind fp st) i = cur st i.
Proof.
  intros ind fp st i H. unfold legacy_REPLY_ADDR6, no_address in *.
  destruct (parseFTLconf fp "REPLY_ADDR6"); [|reflexivity]. now rewrite H.
Qed.

Lemma legacy_PIHOLE_PTR_stands : forall fp st i,
  no_name ["none"; "false"; "hostname"; "hostnamefqdn"] fp "PIHOLE_PTR" ->
  cur (legacy_PIHOLE_PTR fp st) i = cur st i.
Proof.
  intros fp st i H. unfold legacy_PIHOLE_PTR, no_name in *.
  destruct (parseFTLconf fp "PIHOLE_PTR") as [b|]; [|reflexivity].
  cbn [forallb] in H.
  repeat (apply andb_prop in H; destruct H as [?H H]).
  repeat match goal with
         | X : negb ?c = true |- _ => apply negb_true_iff in X; rewrite X
         end.
  reflexivity.
Qed.

Lemma legacy_REPLY_WHEN_BUSY_stands : forall fp st i,
  no_name ["DROP"; "REFUSE"; "BLOCK"] fp "REPLY_WHEN_BUSY" ->
  cur (legacy_REPLY_WHEN_BUSY fp st) i = cur st i.
Proof.
  intros fp st i H. unfold legacy_REPLY_WHEN_BUSY, no_name in *.
  destruct (parseFTLconf fp "REPLY_WHEN_BUSY") as [b|]; [|reflexivity].
  cbn [forallb] in H.
  repeat (apply andb_prop in H; destruct H as [?H H]).
  repeat match goal with
         | X : negb ?c = true |- _ => apply negb_true_iff in X; rewrite X
         end.
  reflexivity.
Qed.

Lemma legacy_BLOCK_TTL_stands : forall fp st,
  no_number sscanf_u any_ok fp "BLOCK_TTL" ->
  cur (legacy_BLOCK_TTL fp st) dns_blockTTL = set_ui 2.
Proof.
  intros fp st H. unfold legacy_BLOCK_TTL, no_number, any_ok in *.
  destruct (parseFTLconf fp "BLOCK_TTL") as [buffer|]; [|now rewrite cur_store_same].
  destruct (sscanf_u buffer) as [n| |]; [discriminate H| |contradiction].
  cbn [scan_ret Z.eqb]. now rewrite cur_store_same.
Qed.

Lemma legacy_CHECK_SHMEM_stands : forall iv fp st,
  no_number sscanf_i percent_ok fp "CHECK_SHMEM" ->
  cur (fst (legacy_CHECK_SHMEM iv fp st)) misc_check_shmem = set_ui 90.
Proof.
  intros iv fp st H. unfold legacy_CHECK_SHMEM, no_number, percent_ok in *.
  destruct (parseFTLconf fp "CHECK_SHMEM") as [buffer|];
    [|cbn [fst]; now rewrite cur_store_same].
  destruct (sscanf_i buffer) as [n| |]; [| |contradiction];
    cbn [scan_ret scan_store Z.eqb negb andb].
  - change (negb (1 =? 0)) with true. cbn [andb]. rewrite H. cbn [fst].
    now rewrite cur_store_same.
  - cbn [fst]. now rewrite cur_store_same.
Qed.

(** ** The debug pass *)

Lemma cur_set_all_debug : forall b st i,
  cur (set_all_debug b st) i = if is_debug_item i then V_bool b else cur st i.
Proof.
  intros b st i. unfold cur, set_all_debug, set_config. simpl.
  now destruct (is_debug_item i).
Qed.

Lemma setDebugOption_frame : forall fp opt j st i,
  item_eqb j i = false -> cur (setDebugOption fp opt j st) i = cur st i.
Proof. unfold setDebugOption. frame_solve. Qed.

Lemma setDebugOption_stands : forall fp opt j st i,
  no_bool fp opt -> cur (setDebugOption fp opt j st) i = cur st i.
Proof.
  intros fp opt j st i H. unfold setDebugOption, no_bool in *.
  destruct (parseFTLconf fp opt); [|reflexivity]. now rewrite H.
Qed.

Lemma setDebugOptions_frame : forall names fp n st i,
  (forall m, item_eqb (debug_flag m) i = false) ->
  cur (setDebugOptions fp names n st) i = cur st i.
Proof.
  intros names; induction names as [|name names IH]; intros fp n st i H; [reflexivity|].
  cbn [setDebugOptions]. rewrite IH by assumption.
  now apply setDebugOption_frame.
Qed.

Lemma setDebugOptions_stands : forall names fp n st m,
  (forall name, (n <= m)%nat -> nth_error names (m - n) = Some name -> no_bool fp name) ->
  cur (setDebugOptions fp names n st) (debug_flag m) = cur st (debug_flag m).
Proof.
  intros names; induction names as [|name names IH]; intros fp n st m H; [reflexivity|].
  cbn [setDebugOptions]. rewrite IH.
  - destruct (Nat.eq_dec n m) as [->|Hne].
    + apply setDebugOption_stands. apply H; [lia|].
      now rewrite Nat.sub_diag.
    + apply setDebugOption_frame. unfold item_eqb. cbn [item_index].
      apply Nat.eqb_neq. lia.
  - intros nm Hle Hnth. apply H; [lia|].
    replace (m - n)%nat with (S (m - S n)) by lia. exact Hnth.
Qed.

Lemma cur_readDebug_tail : forall fs fp st i,
  cur (readDebugingSettingsLegacy fs (Some fp) st) i
  = cur (setDebugOptions fp debug_names O
           (setDebugOption fp "DEBUG_ALL" debug_all (set_all_debug false st))) i.
Proof.
  intros fs fp st i. unfold readDebugingSettingsLegacy.
  match goal with |- context [if ?c then _ else _] => destruct c end; reflexivity.
Qed.

Lemma readDebugingSettingsLegacy_frame : forall fs fp st i,
  is_debug_item i = false ->
  cur (readDebugingSettingsLegacy fs (Some fp) st) i = cur st i.
Proof.
  intros fs fp st i H. rewrite cur_readDebug_tail.
  rewrite setDebugOptions_frame by (intros m; now destruct i).
  rewrite setDebugOption_frame by (now destruct i).
  now rewrite cur_set_all_debug, H.
Qed.

Lemma readDebugingSettingsLegacy_all_stands : forall fs fp st,
  no_bool fp "DEBUG_ALL" ->
  cur (readDebugingSettingsLegacy fs (Some fp) st) debug_all = V_bool false.
Proof.
  intros fs fp st H. rewrite cur_readDebug_tail.
  rewrite setDebugOptions_frame by reflexivity.
  now rewrite setDebugOption_stands, cur_set_all_debug.
Qed.

Lemma readDebugingSettingsLegacy_flag_stands : forall fs fp st n,
  match nth_error debug_names n with
  | Some name => no_bool fp name
  | None => True
  end ->
  cur (readDebugingSettingsLegacy fs (Some fp) st) (debug_flag n) = V_bool false.
Proof.
  intros fs fp st n H. rewrite cur_readDebug_tail.
  rewrite setDebugOptions_stands.
  - rewrite setDebugOption_frame by reflexivity. now rewrite cur_set_all_debug.
  - intros name _ Hnth. rewrite Nat.sub_0_r in Hnth. now rewrite Hnth in H.
Qed.

End Absent.

(** ** The whole pass *)

(** One rewriting step through the outermost handler around [cur] or
    [dflt]: the handler leaves the item alone, or its key is unusable. *)
Ltac legacy_step :=
  match goal with
  | |- context [cur ?s _] =>
      lazymatch s with
      | log_msg _ _ _ => rewrite cur_log_msg
      | legacy_bool _ _ _ _ =>
          first [ rewrite legacy_bool_frame by reflexivity
                | rewrite legacy_bool_stands by assumption ]
      | legacy_path _ _ _ _ =>
          first [ rewrite legacy_path_frame by reflexivity
                | rewrite legacy_path_stands by assumption ]
      | legacy_MAXDBDAYS _ _ =>
          first [ rewrite legacy_MAXDBDAYS_frame by reflexivity
                | rewrite legacy_MAXDBDAYS_stands by assumption ]
      | legacy_DBINTERVAL _ _ =>
          first [ rewrite legacy_DBINTERVAL_frame by reflexivity
                | rewrite legacy_DBINTERVAL_stands by assumption ]
      | legacy_DBFILE _ _ =>
          first [ rewrite legacy_DBFILE_frame by reflexivity
                | rewrite legacy_DBFILE_path_stands by assumption
                | rewrite legacy_DBFILE_days_stands by assumption ]
      | legacy_MAXLOGAGE _ _ =>
          first [ rewrite legacy_MAXLOGAGE_frame by reflexivity
                | rewrite legacy_MAXLOGAGE_stands by assumption ]
      | getPrivacyLevelLegacy _ _ _ =>
          first [ rewrite getPrivacyLevelLegacy_frame by reflexivity
                | rewrite getPrivacyLevelLegacy_stands by assumption ]
      | legacy_IGNORE_LOCALHOST _ _ =>
          first [ rewrite legacy_IGNORE_LOCALHOST_frame by reflexivity
                | rewrite legacy_IGNORE_LOCALHOST_stands by assumption ]
      | getBlockingModeLegacy _ _ _ =>
          first [ rewrite getBlockingModeLegacy_frame by reflexivity
                | rewrite getBlockingModeLegacy_stands by assumption ]
      | legacy_ANALYZE_ONLY_A_AND_AAAA _ _ =>
          first [ rewrite legacy_ANALYZE_ONLY_A_AND_AAAA_frame by reflexivity
                | rewrite legacy_ANALYZE_ONLY_A_AND_AAAA_stands by assumption ]
      | legacy_DELAY_STARTUP _ _ _ =>
          first [ rewrite legacy_DELAY_STARTUP_frame by reflexivity
                | rewrite legacy_DELAY_STARTUP_stands by assumption ]
      | legacy_WEBPORT _ _ =>
          first [ rewrite legacy_WEBPORT_frame by reflexivity
                | rewrite legacy_WEBPORT_stands by assumption ]
      | legacy_WEBACL _ _ =>
          first [ rewrite legacy_WEBACL_frame by reflexivity
                | rewrite legacy_WEBACL_stands by assumption ]
      | legacy_API_SESSION_TIMEOUT _ _ =>
          first [ rewrite legacy_API_SESSION_TIMEOUT_frame by reflexivity
                | rewrite legacy_API_SESSION_TIMEOUT_stands by assumption ]
      | fst (legacy_MAXNETAGE _ _) =>
          first [ rewrite legacy_MAXNETAGE_frame by reflexivity
                | rewrite legacy_MAXNETAGE_stands by assumption ]
      | legacy_REFRESH_HOSTNAMES _ _ =>
          first [ rewrite legacy_REFRESH_HOSTNAMES_frame by reflexivity
                | rewrite legacy_REFRESH_HOSTNAMES_stands by assumption ]
      | legacy_RATE_LIMIT _ _ =>
          first [ rewrite legacy_RATE_LIMIT_frame by reflexivity
                | rewrite legacy_RATE_LIMIT_stands by assumption ]
      | legacy_addr4 _ _ _ _ _ =>
          first [ rewrite legacy_addr4_frame by reflexivity
                | rewrite legacy_addr4_stands by first [assumption | reflexivity] ]
      | legacy_addr6 _ _ _ _ _ =>
          first [ rewrite legacy_addr6_frame by reflexivity
                | rewrite legacy_addr6_stands by first [assumption | reflexivity] ]
      | legacy_REPLY_ADDR4 _ _ =>
          first [ rewrite legacy_REPLY_ADDR4_frame by reflexivity
                | rewrite legacy_REPLY_ADDR4_stands by assumption ]
      | legacy_REPLY_ADDR6 _ _ _ =>
          first [ rewrite legacy_REPLY_ADDR6_frame by reflexivity
                | rewrite legacy_REPLY_ADDR6_stands by assumption ]
      | legacy_PIHOLE_PTR _ _ =>
          first [ rewrite legacy_PIHOLE_PTR_frame by reflexivity
                | rewrite legacy_PIHOLE_PTR_stands by assumption ]
      | legacy_REPLY_WHEN_BUSY _ _ =>
          first [ rewrite legacy_REPLY_WHEN_BUSY_frame by reflexivity
                | rewrite legacy_REPLY_WHEN_BUSY_stands by assumption ]
      | legacy_BLOCK_TTL _ _ =>
          first [ rewrite legacy_BLOCK_TTL_frame by reflexivity
                | rewrite legacy_BLOCK_TTL_stands by assumption ]
      | fst (legacy_CHECK_SHMEM _ _ _) =>
          first [ rewrite legacy_CHECK_SHMEM_frame by reflexivity
                | rewrite legacy_CHECK_SHMEM_stands by assumption ]
      | fst (legacy_CHECK_DISK _ _ _) => rewrite legacy_CHECK_DISK_frame by reflexivity
      | readDebugingSettingsLegacy _ _ _ =>
          first [ rewrite readDebugingSettingsLegacy_frame by reflexivity
                | rewrite readDebugingSettingsLegacy_all_stands by assumption
                | rewrite readDebugingSettingsLegacy_flag_stands by assumption ]
      end
  | |- context [dflt ?s _] =>
      lazymatch s with
      | log_msg _ _ _ => rewrite dflt_log_msg
      | legacy_bool _ _ _ _ => rewrite legacy_bool_dflt
      | legacy_MAXDBDAYS _ _ => rewrite legacy_MAXDBDAYS_dflt
      | legacy_DBINTERVAL _ _ => rewrite legacy_DBINTERVAL_dflt
      | legacy_DBFILE _ _ => rewrite legacy_DBFILE_dflt
      | legacy_MAXLOGAGE _ _ => rewrite legacy_MAXLOGAGE_dflt
      | getPrivacyLevelLegacy _ _ _ => rewrite getPrivacyLevelLegacy_dflt
      | legacy_IGNORE_LOCALHOST _ _ => rewrite legacy_IGNORE_LOCALHOST_dflt
      end
  end.

Section Whole.
Context {E : External}.

(** C3, as amended: for every item but the disk limit, when every key that
    reaches the item is absent from the legacy file, or has a value that is
    malformed for its handler, the item holds after [readFTLlegacy] what
    stands for it: its value from before the call, unless its handler starts
    from a constant or from the item's default, which it then holds. *)
Theorem default_stands_on_absent_or_malformed :
  forall (ind : indeterminate) (fs : filesystem) (fp : FILE) (path : string)
         (st : state) (i : item),
    openFTLconf fs = (Some fp, path) ->
    paths_hold_strings st ->
    i <> misc_check_disk ->
    no_usable_key fp i ->
    cur (snd (readFTLlegacy ind fs st)) i = standing fp st i.
Proof.
  intros ind fs fp path st i Hopen Hpaths Hi H.
  unfold readFTLlegacy. rewrite Hopen. cbv zeta. cbn [snd].
  destruct i; try (now elim Hi); cbn [no_usable_key] in H;
    repeat match goal with X : _ /\ _ |- _ => destruct X end;
    repeat legacy_step;
    cbn [item_eqb item_index Nat.eqb standing];
    first [ reflexivity | symmetry; apply Hpaths; reflexivity ].
Qed.

End Whole.
End DefaultStands.

(* ================================================================== *)
(** * Properties: MAXDBDAYS, PRIVACYLEVEL and BLOCKINGMODE *)
(* ================================================================== *)

Module LegacyKeys.

Import Legacy Frame Handlers DefaultStands RoundTrip.

Lemma sscanf_i_range : forall buffer value,
  sscanf_i buffer = Assigned value -> - 2 ^ 31 <= value < 2 ^ 31.
Proof.
  intros buffer value H. unfold sscanf_i, scan_number in H.
  destruct (skip_space buffer) as [|c s]; [discriminate H|].
  destruct (read_sign (String c s)) as [neg s2].
  destruct (detect_base s2) as [base s3].
  destruct (read_digits base s3 0 0) as [[m n] rest].
  destruct n; [discriminate H|].
  cbn [fst] in H. inversion H. apply wrap_s32_range.
Qed.

Lemma get_i_set_i : forall z, - 2 ^ 31 <= z < 2 ^ 31 -> get_i (set_i z) = z.
Proof.
  intros z H. unfold get_i, set_i, wrap_s32, wrap_u32.
  change (2 ^ 32) with 4294967296. change (2 ^ 31) with 2147483648 in *.
  Z.to_euclidean_division_equations; lia.
Qed.

Lemma gtb_true : forall a b, b < a -> (a >? b) = true.
Proof. intros a b H. rewrite Z.gtb_ltb. apply Z.ltb_lt. exact H. Qed.

Lemma gtb_false : forall a b, a <= b -> (a >? b) = false.
Proof. intros a b H. rewrite Z.gtb_ltb. apply Z.ltb_ge. exact H. Qed.

Lemma geb_true : forall a b, b <= a -> (a >=? b) = true.
Proof. intros a b H. rewrite Z.geb_leb. apply Z.leb_le. exact H. Qed.

Lemma geb_false : forall a b, a < b -> (a >=? b) = false.
Proof. intros a b H. rewrite Z.geb_leb. apply Z.leb_gt. exact H. Qed.

Section Keys.
Context {E : External}.

(** Past its own handler, only the handler of DBFILE writes the item of
    MAXDBDAYS. *)
Lemma readFTLlegacy_maxDBdays : forall ind fs fp path st,
  openFTLconf fs = (Some fp, path) ->
  cur (snd (readFTLlegacy ind fs st)) database_maxDBdays
  = cur (legacy_DBFILE fp
           (legacy_DBINTERVAL fp
              (legacy_bool "RESOLVE_IPV4" resolver_resolveIPv4 fp
                 (legacy_bool "RESOLVE_IPV6" resolver_resolveIPv6 fp
                    (legacy_MAXDBDAYS fp
                       (legacy_bool "AAAA_QUERY_ANALYSIS" dns_analyzeAAAA fp
                          (log_msg st LOG_NOTICE "Reading legacy config file")))))))
        database_maxDBdays.
Proof.
  intros ind fs fp path st Hopen.
  unfold readFTLlegacy. rewrite Hopen. cbv zeta. cbn [snd].
  repeat legacy_step. reflexivity.
Qed.

(** The value the handler of MAXDBDAYS stores does not depend on the state
    it starts from. *)
Lemma legacy_MAXDBDAYS_same : forall fp st1 st2,
  cur st1 database_maxDBdays = cur st2 database_maxDBdays ->
  cur (legacy_MAXDBDAYS fp st1) database_maxDBdays
  = cur (legacy_MAXDBDAYS fp st2) database_maxDBdays.
Proof.
  intros fp st1 st2 H. unfold legacy_MAXDBDAYS.
  handler_cases; rewrite ?cur_store_same; auto.
Qed.

(** C6: with MAXDBDAYS=value in the legacy file, the handler of the key
    stores [INT_MAX/86400] for a value above it, leaves the item as it was
    for a value below -1, and stores -1 and every value from 0 to
    [INT_MAX/86400] as it is; and with no DBFILE key and a non-empty default
    database path, that is what the item holds after the whole load. *)
Theorem maxdbdays_clamped_or_rejected :
  forall (fp : FILE) (buffer : string) (st : state) (value : Z),
    parseFTLconf fp "MAXDBDAYS" = Some buffer ->
    sscanf_i buffer = Assigned value ->
    let after := cur (legacy_MAXDBDAYS fp st) database_maxDBdays in
    (INT_MAX / 86400 < value -> get_i after = INT_MAX / 86400) /\
    (value < -1 -> after = cur st database_maxDBdays) /\
    (value = -1 -> get_i after = -1) /\
    (0 <= value <= INT_MAX / 86400 -> get_i after = value) /\
    (forall ind fs path,
        openFTLconf fs = (Some fp, path) ->
        absent fp "DBFILE" ->
        empty_path (get_s (dflt st files_database)) = false ->
        cur (snd (readFTLlegacy ind fs st)) database_maxDBdays = after).
Proof.
  intros fp buffer st value Hkey Hscan after. subst after.
  pose proof (sscanf_i_range buffer value Hscan) as Hrange.
  change (2 ^ 31) with 2147483648 in Hrange.
  split; [|split; [|split; [|split]]].
  - intros Hv. unfold legacy_MAXDBDAYS. rewrite Hkey, Hscan.
    cbn [scan_ret scan_store Z.eqb].
    change (INT_MAX / 24 / 60 / 60) with 24855. change (INT_MAX / 86400) with 24855 in *.
    rewrite gtb_true by lia.
    change ((24855 =? -1) || (24855 >=? 0)) with true. cbv iota.
    now rewrite cur_store_same.
  - intros Hv. unfold legacy_MAXDBDAYS. rewrite Hkey, Hscan.
    cbn [scan_ret scan_store Z.eqb].
    change (INT_MAX / 24 / 60 / 60) with 24855.
    rewrite gtb_false by lia.
    replace (value =? -1) with false by (symmetry; apply Z.eqb_neq; lia).
    rewrite geb_false by lia. reflexivity.
  - intros Hv. subst value. unfold legacy_MAXDBDAYS. rewrite Hkey, Hscan.
    cbn [scan_ret scan_store Z.eqb].
    change (INT_MAX / 24 / 60 / 60) with 24855.
    change (-1 >? 24855) with false. cbv iota.
    change ((-1 =? -1) || (-1 >=? 0)) with true. cbv iota.
    now rewrite cur_store_same.
  - intros Hv. unfold legacy_MAXDBDAYS. rewrite Hkey, Hscan.
    cbn [scan_ret scan_store Z.eqb].
    change (INT_MAX / 24 / 60 / 60) with 24855. change (INT_MAX / 86400) with 24855 in *.
    rewrite gtb_false by lia. rewrite geb_true by lia.
    rewrite orb_true_r, cur_store_same.
    apply get_i_set_i. change (2 ^ 31) with 2147483648. lia.
  - intros ind fs path Hopen Hdb Hpath.
    rewrite (readFTLlegacy_maxDBdays ind fs fp path st Hopen).
    rewrite legacy_DBFILE_days_stands by (now apply absent_no_word).
    rewrite (absent_not_blank _ _ Hdb). cbn [orb].
    repeat legacy_step. rewrite Hpath. repeat legacy_step.
    apply legacy_MAXDBDAYS_same. now repeat legacy_step.
Qed.

(** ** PRIVACYLEVEL *)

Lemma getPrivacyLevelLegacy_monotone : forall fs fp st,
  level st <= level (getPrivacyLevelLegacy fs fp st).
Proof.
  intros fs fp st. unfold getPrivacyLevelLegacy.
  destruct (match fp with Some f => Some f | None => fst (openFTLconf fs) end) as [f|];
    [|lia].
  destruct (parseFTLconf f "PRIVACYLEVEL") as [buffer|]; [|lia].
  destruct (scan_ret (sscanf_i buffer) =? 1); [|lia].
  cbv zeta.
  set (value := scan_store (sscanf_i buffer) 0).
  destruct ((value >=? PRIVACY_SHOW_ALL) && (value <=? PRIVACY_MAXIMUM)
            && (value >? get_privacy_level (cur st misc_privacylevel))) eqn:Hc; [|lia].
  apply andb_prop in Hc. destruct Hc as [Hc Hgt].
  apply andb_prop in Hc. destruct Hc as [Hlo Hhi].
  rewrite Z.geb_leb in Hlo. apply Z.leb_le in Hlo. apply Z.leb_le in Hhi.
  rewrite Z.gtb_ltb in Hgt. apply Z.ltb_lt in Hgt.
  unfold PRIVACY_SHOW_ALL, PRIVACY_MAXIMUM in *.
  unfold level. rewrite cur_store_same.
  unfold get_privacy_level, get_ui, set_ui, wrap_u32 in *.
  rewrite Z.mod_small by (change (2 ^ 32) with 4294967296; lia).
  lia.
Qed.

(** C7: [getPrivacyLevelLegacy] never lowers the stored privacy level, nor
    does a whole legacy load; from level 1 a file with PRIVACYLEVEL=0 leaves
    level 1; and a value of the valid range above the stored level replaces
    it. *)
Theorem privacy_level_never_lowered :
  (forall fs fp st, level st <= level (getPrivacyLevelLegacy fs fp st)) /\
  (forall ind fs st, level st <= level (snd (readFTLlegacy ind fs st))) /\
  level (getPrivacyLevelLegacy
           (Reference.legacy_file (Reference.line "PRIVACYLEVEL=0")) None
           (Reference.startup_with misc_privacylevel (V_w32 1))) = 1 /\
  (forall fs fp0 fp st buffer value,
      file_used fs fp0 = Some fp ->
      parseFTLconf fp "PRIVACYLEVEL" = Some buffer ->
      sscanf_i buffer = Assigned value ->
      PRIVACY_SHOW_ALL <= value <= PRIVACY_MAXIMUM ->
      level st < value ->
      level (getPrivacyLevelLegacy fs fp0 st) = value).
Proof.
  split; [exact getPrivacyLevelLegacy_monotone|].
  split; [|split; [reflexivity|]].
  - intros ind fs st. unfold readFTLlegacy.
    destruct (openFTLconf fs) as [[fp|] path]; [|cbn [snd]; lia].
    cbv zeta. cbn [snd]. unfold level at 2.
    repeat legacy_step.
    match goal with
    | |- _ <= get_privacy_level (cur (getPrivacyLevelLegacy ?a ?b ?s) _) =>
        apply Z.le_trans with (m := level s);
          [|apply (getPrivacyLevelLegacy_monotone a b s)]
    end.
    unfold level. repeat legacy_step. lia.
  - intros fs fp0 fp st buffer value Hfile Hkey Hscan Hrange Hgt.
    unfold getPrivacyLevelLegacy. unfold file_used in Hfile.
    rewrite Hfile, Hkey, Hscan.
    change (scan_ret (Assigned value) =? 1) with true. cbv iota zeta. cbn [scan_store].
    unfold PRIVACY_SHOW_ALL, PRIVACY_MAXIMUM, level in *.
    rewrite geb_true by lia.
    replace (value <=? 3) with true by (symmetry; apply Z.leb_le; lia).
    rewrite gtb_true by lia. cbn [andb].
    rewrite cur_store_same.
    unfold get_privacy_level, get_ui, set_ui, wrap_u32.
    apply Z.mod_small. change (2 ^ 32) with 4294967296. lia.
Qed.

(** ** BLOCKINGMODE *)

Lemma strcasecmp_lower_case : forall a b,
  lower_case a = lower_case b -> strcasecmp a b = 0.
Proof.
  intros a; induction a as [|x a IH]; intros [|y b] H; try discriminate H;
    [reflexivity|].
  unfold lower_case in H. simpl in H. inversion H as [[Hxy Hab]].
  cbn [strcasecmp]. cbv zeta. rewrite Hxy, Z.sub_diag. cbn [Z.eqb].
  now apply IH.
Qed.

(** C8: a BLOCKINGMODE value that is NXDOMAIN in any letter case selects
    the NXDOMAIN mode, as the three spellings nxdomain, NXDOMAIN and NxDomain
    do in a legacy load; a value that is no known mode, such as bogus, leaves
    the item at its default and logs a warning. *)
Theorem blockingmode_case_insensitive :
  (forall fs fp0 fp st buffer,
      file_used fs fp0 = Some fp ->
      parseFTLconf fp "BLOCKINGMODE" = Some buffer ->
      lower_case buffer = lower_case "NXDOMAIN" ->
      cur (getBlockingModeLegacy fs fp0 st) dns_blockingmode = V_blocking_mode MODE_NX) /\
  (forall spelling, In spelling ["nxdomain"; "NXDOMAIN"; "NxDomain"] ->
      forall ind mode,
      cur (snd (readFTLlegacy (E := Reference.reference) ind
                  (Reference.legacy_file (Reference.line ("BLOCKINGMODE=" ++ spelling)))
                  (Reference.startup_with dns_blockingmode (V_blocking_mode mode))))
          dns_blockingmode
      = V_blocking_mode MODE_NX) /\
  (forall fs fp0 fp st buffer,
      file_used fs fp0 = Some fp ->
      parseFTLconf fp "BLOCKINGMODE" = Some buffer ->
      no_name ["NXDOMAIN"; "NULL"; "IP-NODATA-AAAA"; "IP"; "NODATA"] fp "BLOCKINGMODE" ->
      let st' := getBlockingModeLegacy fs fp0 st in
      cur st' dns_blockingmode
      = V_blocking_mode (get_blocking_mode (dflt st dns_blockingmode)) /\
      logged st'
      = (logged st ++ [(LOG_WARNING, "Unknown blocking mode, using NULL as fallback")])%list) /\
  (let st := Reference.startup in
   let st' := getBlockingModeLegacy
                (Reference.legacy_file (Reference.line "BLOCKINGMODE=bogus")) None st in
   cur st' dns_blockingmode = cur st dns_blockingmode /\
   logged st' = [(LOG_WARNING, "Unknown blocking mode, using NULL as fallback")]).
Proof.
  split; [|split; [|split]].
  - intros fs fp0 fp st buffer Hfile Hkey Hlow.
    unfold getBlockingModeLegacy. unfold file_used in Hfile.
    rewrite Hfile, Hkey, (strcasecmp_lower_case _ _ Hlow). cbn [Z.eqb].
    now rewrite cur_store_same.
  - intros spelling Hin ind mode.
    unfold readFTLlegacy.
    change (openFTLconf (Reference.legacy_file (Reference.line ("BLOCKINGMODE=" ++ spelling))))
      with (Some (Reference.line ("BLOCKINGMODE=" ++ spelling)),
            "/etc/pihole/pihole-FTL.conf").
    cbv zeta. cbn [snd]. repeat legacy_step.
    simpl in Hin.
    destruct Hin as [<-|[<-|[<-|[]]]];
      unfold getBlockingModeLegacy;
      match goal with
      | |- context [parseFTLconf ?f ?key] =>
          let r := eval vm_compute in (parseFTLconf f key) in
          change (parseFTLconf f key) with r
      end;
      cbv iota;
      match goal with
      | |- context [strcasecmp ?a ?b =? 0] =>
          let r := eval vm_compute in (strcasecmp a b =? 0) in
          change (strcasecmp a b =? 0) with r
      end;
      cbv iota; now rewrite cur_store_same.
  - intros fs fp0 fp st buffer Hfile Hkey Hno st'. subst st'.
    unfold getBlockingModeLegacy. unfold file_used in Hfile. unfold no_name in Hno.
    rewrite Hfile. rewrite Hkey in *.
    cbn [forallb] in Hno.
    repeat (apply andb_prop in Hno; destruct Hno as [?H Hno]).
    repeat match goal with
           | X : negb ?c = true |- _ => apply negb_true_iff in X; rewrite X
           end.
    split; [now rewrite cur_log_msg, cur_store_same | reflexivity].
  - split; reflexivity.
Qed.

(** ** LOGFILE *)


End Keys.
End LegacyKeys.

(* ================================================================== *)
(** * Properties: key lookup, deprecated addresses, the log file path *)
(* ================================================================== *)

Module Findings.

Import Legacy Frame Handlers DefaultStands LegacyKeys Reference.

(** ** parseFTLconf *)

(** C4: the lookup is a substring search.  For the key MAXDBDAYS it selects
    the line XMAXDBDAYS=7, whose key is a longer one, and the line
    NICE=1 MAXDBDAYS=9, which holds the key after another value, and returns
    what follows the first equals sign of the line; a legacy load then takes
    7 for MAXDBDAYS from the first of these files. *)
Theorem parseFTLconf_selects_interior_match :
  parseFTLconf (line "XMAXDBDAYS=7") "MAXDBDAYS" = Some "7" /\
  parseFTLconf (line "NICE=1 MAXDBDAYS=9") "MAXDBDAYS" = Some "1 MAXDBDAYS=9" /\
  get_i (cur (snd (readFTLlegacy zeroed (legacy_file (line "XMAXDBDAYS=7")) startup))
             database_maxDBdays) = 7.
Proof.
  repeat split; vm_compute; reflexivity.
Qed.

(** What the lookup does do: without a line that holds KEY= it returns
    [NULL], and a comment line is never selected. *)
Lemma parseFTLconf_loop_none : forall keystr lines,
  Forall (fun l => strstr (c_str l) keystr = None) lines ->
  parseFTLconf_loop keystr lines = None.
Proof.
  intros keystr lines H. induction H as [|l lines Hl _ IH]; [reflexivity|].
  cbn [parseFTLconf_loop]. cbv zeta. rewrite Hl.
  now destruct (_ || _)%bool.
Qed.

Lemma parseFTLconf_loop_first : forall keystr l lines,
  (forall c s, c_str l = String c s -> c <> "#"%char /\ c <> ";"%char) ->
  strstr (c_str l) keystr <> None ->
  parseFTLconf_loop keystr (l :: lines)
  = Some (trim_whitespace (next_char (find_equals (c_str l)))).
Proof.
  intros keystr l lines Hc Hs. cbn [parseFTLconf_loop]. cbv zeta.
  destruct (strstr (c_str l) keystr) as [hit|] eqn:Hstr; [|contradiction].
  destruct (c_str l) as [|c rest] eqn:Hl.
  - reflexivity.
  - destruct (Hc c rest eq_refl) as [H1 H2].
    apply Ascii.eqb_neq in H1. apply Ascii.eqb_neq in H2.
    now rewrite H1, H2.
Qed.

(** ** REPLY_ADDR4 and REPLY_ADDR6 *)

Lemma inet_pton4_loop_colon : forall src done cur0 saw,
  In ":"%char (list_ascii_of_string src) -> inet_pton4_loop src done cur0 saw = None.
Proof.
  intros src; induction src as [|c src IH]; intros done cur0 saw Hin; [destruct Hin|].
  cbn [inet_pton4_loop]. cbv zeta.
  destruct Hin as [->|Hin].
  - change (isdigit (byte_val ":")) with false.
    change (byte_val ":" =? 46) with false. reflexivity.
  - destruct (isdigit (byte_val c)).
    + repeat match goal with |- context [if ?b then _ else _] => destruct b end;
        try reflexivity; now apply IH.
    + repeat match goal with |- context [if ?b then _ else _] => destruct b end;
        try reflexivity; now apply IH.
Qed.

(** No text with a colon in it, so no IPv6 address in colon-hex notation,
    is an address for [inet_pton(AF_INET, ...)]. *)
Lemma inet_pton4_colon : forall src,
  In ":"%char (list_ascii_of_string src) -> inet_pton4 src = None.
Proof.
  intros src H. unfold inet_pton4. now rewrite inet_pton4_loop_colon.
Qed.

(** The handler of REPLY_ADDR6 does nothing for a value in colon-hex
    notation. *)
Lemma legacy_REPLY_ADDR6_ignores_colon_hex : forall ind fp st buffer,
  parseFTLconf fp "REPLY_ADDR6" = Some buffer ->
  In ":"%char (list_ascii_of_string buffer) ->
  legacy_REPLY_ADDR6 ind fp st = st.
Proof.
  intros ind fp st buffer Hkey Hin. unfold legacy_REPLY_ADDR6.
  now rewrite Hkey, inet_pton4_colon.
Qed.

(** The IPv4 half of the precedence rule: a valid REPLY_ADDR4 sets both
    addresses and both flags when neither flag is set, and is ignored with a
    warning when one is. *)
Lemma legacy_REPLY_ADDR4_precedence : forall fp st buffer a,
  parseFTLconf fp "REPLY_ADDR4" = Some buffer ->
  inet_pton4 buffer = Some a ->
  let st' := legacy_REPLY_ADDR4 fp st in
  (get_b (cur st dns_reply_host_overwrite_v4) = false ->
   get_b (cur st dns_reply_blocking_overwrite_v4) = false ->
   cur st' dns_reply_host_v4 = V_in_addr a /\
   cur st' dns_reply_blocking_v4 = V_in_addr a /\
   cur st' dns_reply_host_overwrite_v4 = V_bool true /\
   cur st' dns_reply_blocking_overwrite_v4 = V_bool true) /\
  (get_b (cur st dns_reply_host_overwrite_v4) = true \/
   get_b (cur st dns_reply_blocking_overwrite_v4) = true ->
   config st' = config st /\
   logged st'
   = (logged st ++
      [(LOG_WARNING,
        "Ignoring REPLY_ADDR4 as LOCAL_IPV4 or BLOCK_IPV4 has been specified.")])%list).
Proof.
  intros fp st buffer a Hkey Hpton st'. subst st'.
  unfold legacy_REPLY_ADDR4. rewrite Hkey, Hpton. split.
  - intros H1 H2. rewrite H1, H2. cbn [orb].
    repeat split;
      repeat first [ rewrite cur_store_same | rewrite cur_store_other by reflexivity ];
      reflexivity.
  - intros [H|H]; rewrite H; [|rewrite orb_true_r]; split; reflexivity.
Qed.

(** C5: with REPLY_ADDR6=::1 alone in the legacy file, neither IPv6 address
    is set and neither flag is raised, although ::1 is an IPv6 address and
    the same value under LOCAL_IPV6 sets the host address; a dotted quad
    under REPLY_ADDR6 is taken instead. *)
Theorem reply_addr6_parsed_as_ipv4 :
  let st' := snd (readFTLlegacy zeroed (legacy_file (line "REPLY_ADDR6=::1")) startup) in
  let st4 := snd (readFTLlegacy zeroed (legacy_file (line "REPLY_ADDR6=1.2.3.4")) startup) in
  let sib := snd (readFTLlegacy zeroed (legacy_file (line "LOCAL_IPV6=::1")) startup) in
  cur st' dns_reply_host_v6 = V_in6_addr in6_addr_zero /\
  cur st' dns_reply_blocking_v6 = V_in6_addr in6_addr_zero /\
  cur st' dns_reply_host_overwrite_v6 = V_bool false /\
  cur st' dns_reply_blocking_overwrite_v6 = V_bool false /\
  logged st' = [(LOG_NOTICE, "Reading legacy config file")] /\
  inet_pton6 "::1" = Some (repeat octet_zero 15 ++ ["001"%char])%list /\
  cur sib dns_reply_host_v6 = V_in6_addr (repeat octet_zero 15 ++ ["001"%char])%list /\
  cur st4 dns_reply_host_overwrite_v6 = V_bool true /\
  cur st4 dns_reply_host_v6
  = V_in6_addr (["001"; "002"; "003"; "004"]%char ++ repeat octet_zero 12)%list.
Proof.
  repeat split; vm_compute; reflexivity.
Qed.

(** ** LOGFILE *)

(** [sscanf] with the format %127ms returns 1 or [EOF], never 0. *)
Lemma sscanf_ms_ret : forall buffer,
  fst (sscanf_ms buffer) = 1 \/ fst (sscanf_ms buffer) = EOF.
Proof.
  intros buffer. unfold sscanf_ms. destruct (skip_space buffer); [now right|now left].
Qed.

(** The branch of [getLogFilePathLegacy] commented "Empty file string",
    which tests the return value of [sscanf] against 0, is never taken.
    With a file to read, [NULL] is left in the log file path exactly when
    the file has a LOGFILE line whose value holds no word, and the message
    of that branch is not logged then, nor ever: the call logs nothing. *)
Theorem getLogFilePathLegacy_null_without_notice :
  forall (fs : filesystem) (fp : option FILE) (st : state) (f : FILE),
    file_used fs fp = Some f ->
    let r := getLogFilePathLegacy fs fp st in
    (cur (snd r) files_log = V_str None <-> blank f "LOGFILE" = true) /\
    logged (snd r) = logged st /\
    (forall buffer, fst (sscanf_ms buffer) <> 0).
Proof.
  intros fs fp st f Hf. cbv zeta. unfold getLogFilePathLegacy, file_used, blank in *.
  rewrite Hf.
  split; [|split].
  - destruct (parseFTLconf f "LOGFILE") as [buffer|].
    + unfold sscanf_ms. destruct (skip_space buffer) as [|c s].
      * change (EOF =? 0) with false. cbv iota. cbn [snd].
        rewrite cur_store_same. split; reflexivity.
      * change (1 =? 0) with false. cbv iota. cbn [snd].
        rewrite cur_store_same. split; discriminate.
    + cbn [snd]. rewrite cur_store_same. split; discriminate.
  - destruct (parseFTLconf f "LOGFILE") as [buffer|]; [|reflexivity].
    unfold sscanf_ms. now destruct (skip_space buffer).
  - intros buffer. destruct (sscanf_ms_ret buffer) as [H|H]; rewrite H; discriminate.
Qed.

End Findings.

(* ================================================================== *)
(** * Properties: the queries made before the full load *)
(* ================================================================== *)

Module PreLoad.

Import TomlReader.

Section Queries.
Context {E : External}.

Lemma parseTOML_unreadable : forall fs st,
  unreadable fs ->
  fst (parseTOML fs st) = None /\ config (snd (parseTOML fs st)) = config st.
Proof.
  intros fs st H. unfold parseTOML, unreadable in *.
  destruct (openFTLtoml_r fs) as [text|]; [|split; reflexivity].
  destruct H as [errbuf H]. rewrite H. split; reflexivity.
Qed.

(** C9: when the structured file is absent or does not parse, each of
    [getPrivacyLevel], [getBlockingMode] and [getLogFilePathTOML] returns
    false, has a defined result, and leaves every configuration item as it
    was. *)
Theorem preload_queries_tolerate_unreadable_file :
  forall (fs : filesystem) (st : state),
    unreadable fs ->
    (fst (getPrivacyLevel fs st) = false /\
     config (snd (getPrivacyLevel fs st)) = config st) /\
    (fst (getBlockingMode fs st) = false /\
     config (snd (getBlockingMode fs st)) = config st) /\
    (exists st', getLogFilePathTOML fs st = Some (false, st') /\ config st' = config st).
Proof.
  intros fs st H.
  assert (Hp : forall s, fst (parseTOML fs s) = None /\
                         config (snd (parseTOML fs s)) = config s)
    by (intros s; now apply parseTOML_unreadable).
  repeat split.
  - unfold getPrivacyLevel.
    destruct (Hp (log_msg st LOG_DEBUG "Reading TOML config file: privacy level")) as [H1 _].
    destruct (parseTOML fs _) as [[conf|] st1]; [discriminate H1|reflexivity].
  - unfold getPrivacyLevel.
    destruct (Hp (log_msg st LOG_DEBUG "Reading TOML config file: privacy level")) as [H1 H2].
    destruct (parseTOML fs _) as [[conf|] st1]; [discriminate H1|exact H2].
  - unfold getBlockingMode.
    destruct (Hp (log_msg st LOG_DEBUG "Reading TOML config file: DNS blocking mode"))
      as [H1 _].
    destruct (parseTOML fs _) as [[conf|] st1]; [discriminate H1|reflexivity].
  - unfold getBlockingMode.
    destruct (Hp (log_msg st LOG_DEBUG "Reading TOML config file: DNS blocking mode"))
      as [H1 H2].
    destruct (parseTOML fs _) as [[conf|] st1]; [discriminate H1|exact H2].
  - unfold getLogFilePathTOML.
    destruct (Hp (log_msg st LOG_DEBUG "Reading TOML config file: log file path"))
      as [H1 H2].
    destruct (parseTOML fs _) as [[conf|] st1]; [discriminate H1|].
    exists st1. split; [reflexivity|exact H2].
Qed.

End Queries.

Lemma unreadable_no_files : unreadable (E := Reference.reference) Reference.no_files.
Proof. exact I. Qed.

Lemma unreadable_syntax_error :
  unreadable (E := Reference.reference) (Reference.toml_file (Reference.line "[misc")).
Proof. exists "syntax error". reflexivity. Qed.

Lemma preload_queries_witness :
  (unreadable (E := Reference.reference) Reference.no_files /\
   fst (getPrivacyLevel (E := Reference.reference) Reference.no_files Reference.startup)
   = false) /\
  (unreadable (E := Reference.reference) (Reference.toml_file (Reference.line "[misc")) /\
   fst (getBlockingMode (E := Reference.reference)
          (Reference.toml_file (Reference.line "[misc")) Reference.startup) = false).
Proof.
  split; (split; [|]).
  - exact unreadable_no_files.
  - exact (proj1 (proj1 (preload_queries_tolerate_unreadable_file
                           Reference.no_files Reference.startup unreadable_no_files))).
  - exact unreadable_syntax_error.
  - exact (proj1 (proj1 (proj2 (preload_queries_tolerate_unreadable_file
                                  (Reference.toml_file (Reference.line "[misc"))
                                  Reference.startup unreadable_syntax_error)))).
Defined.

End PreLoad.

(* ================================================================== *)
(** * Worked inputs *)
(* ================================================================== *)

Module Worked.

Import Legacy TomlReader Reference.
Import StringPrinter QuotedText RoundTrip Frame DefaultStands LegacyKeys.

(** ** Writing and reading back *)

Lemma write_then_read_witness :
  let log := registry files_log in
  let mode := registry dns_blockingmode in
  (survives (t log) (v log) /\
   fst (readTOMLvalue (with_v log (V_str None)) "log" (written "log" log))
   = with_v (with_v log (V_str None)) (v log)) /\
  (survives (t mode) (v mode) /\
   fst (readTOMLvalue (with_v mode (V_blocking_mode MODE_NULL)) "blockingmode"
          (written "blockingmode" mode))
   = with_v (with_v mode (V_blocking_mode MODE_NULL)) (v mode)).
Proof.
  cbv zeta. split; (split; [vm_compute; auto|]).
  - apply write_then_read_round_trip; reflexivity.
  - apply write_then_read_round_trip; [vm_compute; auto|reflexivity|reflexivity].
Defined.

(** C1 fails for a string item that holds [NULL]: the writer substitutes the
    empty string, and the reader stores the empty string, not [NULL]. *)
Lemma null_string_read_back_as_empty :
  let src := new_item "files.log" CONF_STRING (V_str None) in
  writeTOMLvalue (t src) (v src) = String dquote (String dquote EmptyString) /\
  v (fst (readTOMLvalue src "log" (written "log" src))) = V_str (Some EmptyString) /\
  v src = V_str None.
Proof.
  cbv zeta. repeat split.
Qed.

(** The other values the reader does not take back: an unsigned long from
    2^63 on, a privacy level above [PRIVACY_MAXIMUM], and a string with a
    byte that is written as a backslash, 0x and two digits. *)
Example top_unsigned_long_not_read_back :
  let src := new_item "n" CONF_ULONG (V_w64 (2 ^ 64 - 1)) in
  let dst := new_item "n" CONF_ULONG (V_w64 0) in
  writeTOMLvalue (t src) (v src) = "18446744073709551615" /\
  v (fst (readTOMLvalue dst "n" (written "n" src))) = V_w64 0.
Proof.
  cbv zeta. split; vm_compute; reflexivity.
Qed.

Example privacy_nostats_not_read_back :
  let src := new_item "misc.privacylevel" CONF_ENUM_PRIVACY_LEVEL (V_w32 PRIVACY_NOSTATS) in
  let dst := registry misc_privacylevel in
  writeTOMLvalue (t src) (v src) = "4" /\
  v (fst (readTOMLvalue dst "privacylevel" (written "privacylevel" src))) = V_w32 0.
Proof.
  cbv zeta. split; vm_compute; reflexivity.
Qed.

Example control_byte_not_read_back :
  let src := new_item "s" CONF_STRING (V_str (Some (String "001" "x"))) in
  let dst := new_item "s" CONF_STRING (V_str (Some "before")) in
  writeTOMLvalue (t src) (v src)
  = String dquote ("\0x01x" ++ String dquote EmptyString) /\
  v (fst (readTOMLvalue dst "s" (written "s" src))) = V_str (Some "before").
Proof.
  cbv zeta. split; vm_compute; reflexivity.
Qed.

(** ** Absent and malformed keys *)

(** C3 fails for BLOCK_TTL: with no BLOCK_TTL line in the file an item that
    held 5 holds the constant 2 after the load. *)
Lemma absent_block_ttl_overwritten :
  let st := startup_with dns_blockTTL (V_w32 5) in
  let fs := legacy_file (line "PRIVACYLEVEL=0") in
  parseFTLconf (line "PRIVACYLEVEL=0") "BLOCK_TTL" = None /\
  cur st dns_blockTTL = V_w32 5 /\
  cur (snd (readFTLlegacy zeroed fs st)) dns_blockTTL = V_w32 2.
Proof.
  cbv zeta. repeat split; vm_compute; reflexivity.
Qed.

Lemma startup_paths_hold_strings : forall i x,
  is_path_item i = false -> paths_hold_strings (startup_with i x).
Proof.
  intros i x Hi j Hj. unfold startup_with. rewrite cur_store.
  destruct (item_eqb i j) eqn:Hij.
  - unfold item_eqb in Hij. apply Nat.eqb_eq in Hij.
    destruct i, j; try discriminate Hi; try discriminate Hj; discriminate Hij.
  - destruct j; try discriminate Hj; reflexivity.
Qed.

Lemma default_stands_witness :
  let st := startup_with database_maxDBdays (V_w32 7) in
  let text := line "MAXDBDAYS=-5" in
  database_maxDBdays <> misc_check_disk /\
  no_usable_key text database_maxDBdays /\
  cur (snd (readFTLlegacy zeroed (legacy_file text) st)) database_maxDBdays = V_w32 7.
Proof.
  cbv zeta. split; [discriminate|]. split; [split; reflexivity|].
  apply (default_stands_on_absent_or_malformed zeroed
           (legacy_file (line "MAXDBDAYS=-5"))
           (line "MAXDBDAYS=-5") "/etc/pihole/pihole-FTL.conf"
           (startup_with database_maxDBdays (V_w32 7)) database_maxDBdays).
  - reflexivity.
  - apply startup_paths_hold_strings. reflexivity.
  - discriminate.
  - split; reflexivity.
Defined.

(** A DBFILE line with an empty value leaves no path: the default path is
    taken and the days of history are set to 0. *)
Example blank_dbfile_disables_history :
  let st' := snd (readFTLlegacy zeroed (legacy_file (line "DBFILE=")) startup) in
  cur startup database_maxDBdays = V_w32 365 /\
  cur st' files_database = V_str (get_s (dflt startup files_database)) /\
  cur st' database_maxDBdays = V_w32 0.
Proof.
  cbv zeta. repeat split; vm_compute; reflexivity.
Qed.

(** Numbers at the edge of [unsigned long], read with [%u]. *)
Example unsigned_numbers_out_of_range :
  sscanf_u "-18446744073709551616" = Assigned 4294967295 /\
  sscanf_u "-18446744073709551615" = Assigned 1 /\
  sscanf_u "18446744073709551616" = Assigned 4294967295 /\
  sscanf_u "-5" = Assigned 4294967291.
Proof.
  repeat split; vm_compute; reflexivity.
Qed.

(** ** MAXDBDAYS *)

Lemma maxdbdays_witness :
  let text := line "MAXDBDAYS=999999999" in
  parseFTLconf text "MAXDBDAYS" = Some "999999999" /\
  sscanf_i "999999999" = Assigned 999999999 /\
  get_i (cur (legacy_MAXDBDAYS text startup) database_maxDBdays) = INT_MAX / 86400.
Proof.
  cbv zeta. split; [reflexivity|]. split; [reflexivity|].
  apply (proj1 (maxdbdays_clamped_or_rejected (line "MAXDBDAYS=999999999")
                  "999999999" startup 999999999 eq_refl eq_refl)).
  reflexivity.
Defined.

(** The three values the specification names. *)
Example maxdbdays_examples :
  let days text :=
    get_i (cur (snd (readFTLlegacy zeroed (legacy_file (line text)) startup))
               database_maxDBdays) in
  days "MAXDBDAYS=999999999" = 24855 /\
  days "MAXDBDAYS=-5" = 365 /\
  days "MAXDBDAYS=-1" = -1 /\
  days "MAXDBDAYS=30" = 30.
Proof.
  cbv zeta. repeat split; vm_compute; reflexivity.
Qed.

(** ** PRIVACYLEVEL and BLOCKINGMODE *)

Lemma privacy_level_witness :
  let text := line "PRIVACYLEVEL=2" in
  parseFTLconf text "PRIVACYLEVEL" = Some "2" /\
  level startup < 2 /\
  level (getPrivacyLevelLegacy (legacy_file text) None startup) = 2.
Proof.
  cbv zeta. split; [reflexivity|]. split; [reflexivity|].
  apply (proj2 (proj2 (proj2 privacy_level_never_lowered))
           (legacy_file (line "PRIVACYLEVEL=2")) None (line "PRIVACYLEVEL=2")
           startup "2" 2 eq_refl eq_refl eq_refl).
  - split; discriminate.
  - reflexivity.
Defined.

Lemma blockingmode_witness :
  let text := line "BLOCKINGMODE=NxDomain" in
  let bogus := line "BLOCKINGMODE=bogus" in
  (lower_case "NxDomain" = lower_case "NXDOMAIN" /\
   cur (getBlockingModeLegacy (legacy_file text) None startup) dns_blockingmode
   = V_blocking_mode MODE_NX) /\
  (no_name ["NXDOMAIN"; "NULL"; "IP-NODATA-AAAA"; "IP"; "NODATA"] bogus "BLOCKINGMODE" /\
   cur (getBlockingModeLegacy (legacy_file bogus) None startup) dns_blockingmode
   = V_blocking_mode MODE_IP).
Proof.
  cbv zeta. split; (split; [reflexivity|]).
  - apply (proj1 blockingmode_case_insensitive
             (legacy_file (line "BLOCKINGMODE=NxDomain")) None
             (line "BLOCKINGMODE=NxDomain") startup "NxDomain" eq_refl eq_refl eq_refl).
  - apply (proj1 (proj1 (proj2 (proj2 blockingmode_case_insensitive))
             (legacy_file (line "BLOCKINGMODE=bogus")) None
             (line "BLOCKINGMODE=bogus") startup "bogus" eq_refl eq_refl eq_refl)).
Defined.

(** ** Deprecated addresses and the log file path *)

Lemma reply_addr4_precedence_witness :
  let text := line "REPLY_ADDR4=10.0.0.1" in
  let a := ("010"%char, "000"%char, "000"%char, "001"%char) in
  parseFTLconf text "REPLY_ADDR4" = Some "10.0.0.1" /\
  inet_pton4 "10.0.0.1" = Some a /\
  cur (legacy_REPLY_ADDR4 text startup) dns_reply_host_v4 = V_in_addr a /\
  cur (legacy_REPLY_ADDR4 text startup) dns_reply_blocking_v4 = V_in_addr a.
Proof.
  cbv zeta. split; [reflexivity|]. split; [reflexivity|].
  pose proof (proj1 (Findings.legacy_REPLY_ADDR4_precedence
                       (line "REPLY_ADDR4=10.0.0.1") startup "10.0.0.1"
                       ("010"%char, "000"%char, "000"%char, "001"%char)
                       eq_refl eq_refl) eq_refl eq_refl) as H.
  split; [exact (proj1 H) | exact (proj1 (proj2 H))].
Defined.

Lemma reply_addr6_colon_hex_witness :
  let text := line "REPLY_ADDR6=fe80::1" in
  parseFTLconf text "REPLY_ADDR6" = Some "fe80::1" /\
  legacy_REPLY_ADDR6 zeroed text startup = startup.
Proof.
  cbv zeta. split; [reflexivity|].
  apply (Findings.legacy_REPLY_ADDR6_ignores_colon_hex zeroed
           (line "REPLY_ADDR6=fe80::1") startup "fe80::1" eq_refl).
  simpl. tauto.
Defined.


Lemma getLogFilePathLegacy_null_without_notice_witness :
  let st := startup_with files_log (V_str (Some "/tmp/custom.log")) in
  let fs := legacy_file (line "LOGFILE=") in
  file_used fs None = Some (line "LOGFILE=") /\
  logged (snd (getLogFilePathLegacy fs None st)) = logged st.
Proof.
  cbv zeta. split; [reflexivity|].
  apply (proj1 (proj2 (Findings.getLogFilePathLegacy_null_without_notice
                         (legacy_file (line "LOGFILE=")) None
                         (startup_with files_log (V_str (Some "/tmp/custom.log")))
                         (line "LOGFILE=") eq_refl))).
Defined.

End Worked.

(* ================================================================== *)
(** * Properties: the shape of what the string printer writes *)
(* ================================================================== *)

Module PrinterShape.

Import StringPrinter QuotedText.

Lemma printable_text_app : forall a b,
  printable_text (a ++ b) = printable_text a && printable_text b.
Proof.
  intros a b. unfold printable_text.
  induction a as [|c a IH]; [reflexivity|].
  cbn [append list_ascii_of_string forallb]. now rewrite IH, andb_assoc.
Qed.

Lemma escape_char_printable : forall c, printable_text (escape_char (char_val c)) = true.
Proof.
  intros c. destruct c as [[|] [|] [|] [|] [|] [|] [|] [|]]; reflexivity.
Qed.

Lemma escape_loop_printable : forall len s, printable_text (escape_loop len s) = true.
Proof.
  induction len as [|len IH]; intros [|c s]; try reflexivity.
  cbn [escape_loop]. now rewrite printable_text_app, escape_char_printable, IH.
Qed.

Lemma printTOMLstring_printable : forall s, printable_text (printTOMLstring s) = true.
Proof.
  intros [s|]; [|reflexivity].
  rewrite printTOMLstring_is_slow. unfold printTOMLstring_slow.
  change (String dquote ?x) with (String dquote EmptyString ++ x).
  now rewrite !printable_text_app, escape_loop_printable.
Qed.

Lemma escape_char_unescaped : forall c rest,
  unescape_loop (escape_char (char_val c) ++ rest)
  = option_map (String c) (unescape_loop rest).
Proof.
  intros c rest. destruct c as [[|] [|] [|] [|] [|] [|] [|] [|]]; reflexivity.
Qed.

Lemma escape_loop_unescaped : forall s,
  unescape_loop (escape_loop (strlen s) s ++ String dquote EmptyString) = Some (c_str s).
Proof.
  induction s as [|c s IH]; [reflexivity|].
  cbn [strlen c_str]. destruct (Ascii.eqb c NUL); [reflexivity|].
  cbn [escape_loop]. rewrite append_assoc, escape_char_unescaped, IH. reflexivity.
Qed.

(** Two strings that are written as the same text are the same string: the
    escaping loses nothing. *)
Theorem printTOMLstring_injective : forall s1 s2 : string,
  printTOMLstring (Some s1) = printTOMLstring (Some s2) -> c_str s1 = c_str s2.
Proof.
  intros s1 s2 H. rewrite !printTOMLstring_is_slow in H.
  unfold printTOMLstring_slow in H. inversion H as [H1].
  apply (f_equal unescape_loop) in H1.
  rewrite !escape_loop_unescaped in H1. now inversion H1.
Qed.

Lemma printTOMLstring_injective_witness :
  let s1 := String "a" (String NUL "x") in
  printTOMLstring (Some s1) = printTOMLstring (Some "a") /\ c_str s1 = c_str "a".
Proof.
  cbv zeta. split; [reflexivity|].
  apply (printTOMLstring_injective (String "a" (String NUL "x")) "a"). reflexivity.
Defined.

Lemma escape_char_length : forall c,
  (1 <= String.length (escape_char (char_val c)) <= 5)%nat.
Proof.
  intros c. destruct c as [[|] [|] [|] [|] [|] [|] [|] [|]]; vm_compute; split; lia.
Qed.

Lemma length_app : forall a b : string,
  String.length (a ++ b) = (String.length a + String.length b)%nat.
Proof.
  intros a b. induction a as [|c a IH]; [reflexivity|]. cbn. now rewrite IH.
Qed.

Lemma escape_loop_length : forall s,
  (strlen s <= String.length (escape_loop (strlen s) s) <= 5 * strlen s)%nat.
Proof.
  induction s as [|c s IH]; [cbn; lia|].
  cbn [strlen]. destruct (Ascii.eqb c NUL); [cbn; lia|].
  cbn [escape_loop]. rewrite length_app.
  pose proof (escape_char_length c). lia.
Qed.

(** Whatever bytes the string holds, and for the [NULL] pointer too, the
    text written starts with a double quote, ends with one, and is made of
    printable ASCII characters only.  For a string of [n] characters it has
    between [n + 2] and [5 n + 2] characters: the two quotes, and one to
    five characters for each character of the string. *)
Theorem printTOMLstring_writes_printable : forall s : option string,
  printable_text (printTOMLstring s) = true /\
  (exists body, printTOMLstring s = String dquote (body ++ String dquote EmptyString)) /\
  let n := match s with Some x => strlen x | None => O end in
  (n + 2 <= String.length (printTOMLstring s) <= 5 * n + 2)%nat.
Proof.
  intros s. split; [apply printTOMLstring_printable|].
  destruct s as [s|]; [|split; [now exists EmptyString|cbn; lia]].
  rewrite printTOMLstring_is_slow. unfold printTOMLstring_slow. split.
  - now exists (escape_loop (strlen s) s).
  - cbv zeta. cbn [String.length]. rewrite length_app. cbn [String.length].
    pose proof (escape_loop_length s). lia.
Qed.

End PrinterShape.

(* ================================================================== *)
(** * Properties: values read from and written to the structured file *)
(* ================================================================== *)

Module ValueShape.

Import StringPrinter QuotedText RoundTrip PrinterShape.

Lemma string_of_uint_printable : forall u,
  printable_text (NilEmpty.string_of_uint u) = true.
Proof.
  intros u; induction u as [|u IH|u IH|u IH|u IH|u IH|u IH|u IH|u IH|u IH|u IH];
    [reflexivity|..]; exact IH.
Qed.

Lemma fmt_d_printable : forall z, printable_text (fmt_d z) = true.
Proof.
  intros z. unfold fmt_d, NilZero.string_of_int, NilZero.string_of_uint.
  destruct (Z.to_int z) as [u|u]; destruct u;
    first [reflexivity | apply string_of_uint_printable
          | apply (string_of_uint_printable (Decimal.D0 _)) | idtac ];
    try (change (String "-" ?x) with (String "-" EmptyString ++ x);
         rewrite printable_text_app; cbn [andb];
         first [reflexivity | apply string_of_uint_printable]).
Qed.

Lemma fmt_d_nonempty : forall z, fmt_d z <> EmptyString.
Proof.
  intros z. unfold fmt_d, NilZero.string_of_int, NilZero.string_of_uint.
  destruct (Z.to_int z) as [u|u]; destruct u; discriminate.
Qed.

Lemma printTOMLstring_nonempty : forall s, printTOMLstring s <> EmptyString.
Proof.
  intros [s|]; [|discriminate].
  rewrite printTOMLstring_is_slow. discriminate.
Qed.

Section Values.
Context {E : External}.

(** Whatever the tag and the value, and whatever names the enum tables and
    the IPv6 conversion supply, the text written for a value is not empty
    and is made of printable ASCII characters only: a value never brings a
    newline or a control character into the file. *)
Theorem writeTOMLvalue_writes_printable : forall (ty : conf_type) (x : conf_value),
  printable_text (writeTOMLvalue ty x) = true /\ writeTOMLvalue ty x <> EmptyString.
Proof.
  intros ty x. destruct ty; cbn [writeTOMLvalue]; split;
    first [ apply fmt_d_printable
          | apply fmt_d_nonempty
          | apply printTOMLstring_printable
          | apply printTOMLstring_nonempty
          | now destruct (get_b x) ].
Qed.

Lemma readTOMLvalue_schema : forall (it : conf_item) (key : string) (toml : toml_table_t),
  let it' := fst (readTOMLvalue it key toml) in
  k it' = k it /\ h it' = h it /\ t it' = t it /\ d it' = d it.
Proof.
  intros it key toml. cbv zeta. unfold readTOMLvalue, read_enum.
  destruct (t it) eqn:Ht;
    repeat match goal with
           | |- context [match ?x with _ => _ end] =>
               lazymatch x with
               | context [match _ with _ => _ end] => fail
               | _ => destruct x
               end
           end;
    cbn [fst with_v k h t d]; auto.
Qed.

(** With no value under the key, the item is left as it was.  One debug
    message that starts with the key of the item is logged, except for the
    two address tags, for which nothing is logged. *)
Theorem readTOMLvalue_missing_key : forall (it : conf_item) (key : string) (toml : toml_table_t),
  toml_raw_in toml key = None ->
  fst (readTOMLvalue it key toml) = it /\
  match t it with
  | CONF_STRUCT_IN_ADDR | CONF_STRUCT_IN6_ADDR => snd (readTOMLvalue it key toml) = []
  | _ => exists what, snd (readTOMLvalue it key toml) = [(LOG_DEBUG, k it ++ what)]
  end.
Proof.
  intros it key toml H.
  unfold readTOMLvalue, read_enum, toml_bool_in, toml_int_in, toml_string_in, not_of_type.
  rewrite H. destruct (t it); split; try reflexivity; eexists; reflexivity.
Qed.

Lemma readTOMLvalue_twice : forall (it : conf_item) (key : string) (toml : toml_table_t),
  readTOMLvalue (fst (readTOMLvalue it key toml)) key toml = readTOMLvalue it key toml.
Proof.
  intros it key toml.
  destruct (readTOMLvalue it key toml) as [it' l] eqn:Hr. cbn [fst].
  unfold readTOMLvalue, read_enum in *.
  destruct (t it) eqn:Ht;
    repeat match type of Hr with
           | context [match ?x with _ => _ end] =>
               lazymatch x with
               | context [match _ with _ => _ end] => fail
               | _ => destruct x eqn:?
               end
           end;
    inversion Hr; subst it' l; cbn [t k h with_v]; rewrite ?Ht; cbv iota;
    repeat match goal with
           | H : ?a = _ |- context [?a] => rewrite H
           end;
    reflexivity.
Qed.

(** A read changes at most the current value of an item: its key, its help
    text, its tag and its default are those from before the call.  And a
    read is idempotent: reading the item a second time from the same table
    gives the item and the messages of the first read. *)
Theorem readTOMLvalue_idempotent : forall (it : conf_item) (key : string) (toml : toml_table_t),
  let it' := fst (readTOMLvalue it key toml) in
  (k it' = k it /\ h it' = h it /\ t it' = t it /\ d it' = d it) /\
  readTOMLvalue it' key toml = readTOMLvalue it key toml.
Proof.
  intros it key toml. cbv zeta. split.
  - apply readTOMLvalue_schema.
  - apply readTOMLvalue_twice.
Qed.

Lemma wrap_s32_u32 : forall n, wrap_s32 (wrap_u32 n) = wrap_s32 n.
Proof.
  intros n. unfold wrap_s32, wrap_u32.
  change (2 ^ 32) with 4294967296. change (2 ^ 31) with 2147483648.
  Z.to_euclidean_division_equations; lia.
Qed.

(** The integer of the document is not checked against the width of a
    32-bit item: an item of tag [CONF_INT] takes its low 32 bits as a signed
    number, one of tag [CONF_UINT] the number modulo 2^32 when it is not
    negative.  A negative number is rejected for the unsigned tags, and the
    64-bit tags take every number of their range as it is. *)
Theorem readTOMLvalue_integer_width :
  forall (it : conf_item) (key : string) (toml : toml_table_t) (n : Z),
    toml_int_in toml key = Some n ->
    let it' := fst (readTOMLvalue it key toml) in
    (t it = CONF_INT -> get_i (v it') = wrap_s32 n) /\
    (t it = CONF_UINT -> 0 <= n -> get_ui (v it') = n mod 2 ^ 32) /\
    (t it = CONF_LONG -> LONG_MIN <= n <= LONG_MAX -> get_l (v it') = n) /\
    (t it = CONF_ULONG -> 0 <= n <= LONG_MAX -> get_ul (v it') = n) /\
    ((t it = CONF_UINT \/ t it = CONF_ULONG) -> n < 0 -> it' = it).
Proof.
  intros it key toml n Hn. cbv zeta. unfold readTOMLvalue.
  repeat split.
  - intros Ht. rewrite Ht, Hn. cbn [fst with_v v]. unfold get_i, set_i.
    apply wrap_s32_u32.
  - intros Ht Hpos. rewrite Ht, Hn.
    replace (0 <=? n) with true by (symmetry; apply Z.leb_le; exact Hpos).
    reflexivity.
  - intros Ht Hr. rewrite Ht, Hn. cbn [fst with_v v]. unfold get_l, set_l.
    unfold wrap_s64, wrap_u64, LONG_MIN, LONG_MAX in *.
    change (2 ^ 64) with 18446744073709551616 in *.
    change (2 ^ 63) with 9223372036854775808 in *.
    Z.to_euclidean_division_equations; lia.
  - intros Ht Hr. rewrite Ht, Hn.
    replace (0 <=? n) with true by (symmetry; apply Z.leb_le; lia).
    cbn [fst with_v v]. unfold get_ul, set_ul, wrap_u64, LONG_MAX in *.
    apply Z.mod_small.
    change (2 ^ 64) with 18446744073709551616 in *.
    change (2 ^ 63) with 9223372036854775808 in *. lia.
  - intros [Ht|Ht] Hneg; rewrite Ht, Hn;
      replace (0 <=? n) with false by (symmetry; apply Z.leb_gt; exact Hneg);
      reflexivity.
Qed.

Lemma readTOMLvalue_privacy_level_range :
  forall (it : conf_item) (key : string) (toml : toml_table_t),
    t it = CONF_ENUM_PRIVACY_LEVEL ->
    PRIVACY_SHOW_ALL <= get_privacy_level (v it) <= PRIVACY_MAXIMUM ->
    PRIVACY_SHOW_ALL
    <= get_privacy_level (v (fst (readTOMLvalue it key toml))) <= PRIVACY_MAXIMUM.
Proof.
  intros it key toml Ht Hr. unfold readTOMLvalue. rewrite Ht.
  destruct (toml_int_in toml key) as [i|]; [|exact Hr].
  destruct ((PRIVACY_SHOW_ALL <=? i) && (i <=? PRIVACY_MAXIMUM)) eqn:Hc; [|exact Hr].
  apply andb_prop in Hc. destruct Hc as [Hlo Hhi].
  apply Z.leb_le in Hlo. apply Z.leb_le in Hhi.
  cbn [fst with_v v]. unfold get_privacy_level, get_ui, set_i, wrap_u32.
  unfold PRIVACY_SHOW_ALL, PRIVACY_MAXIMUM in *.
  rewrite Z.mod_small by (change (2 ^ 32) with 4294967296; lia). lia.
Qed.

End Values.

Lemma readTOMLvalue_integer_width_witness :
  let it := Reference.new_item "n" CONF_UINT (V_w32 7) in
  let toml := toml_table [("n", "4294967297")] [] in
  toml_int_in toml "n" = Some 4294967297 /\
  t it = CONF_UINT /\
  get_ui (v (fst (readTOMLvalue (E := Reference.reference) it "n" toml))) = 1.
Proof.
  cbv zeta. split; [reflexivity|]. split; [reflexivity|].
  apply (proj1 (proj2 (readTOMLvalue_integer_width (E := Reference.reference)
                         (Reference.new_item "n" CONF_UINT (V_w32 7)) "n"
                         (toml_table [("n", "4294967297")] []) 4294967297 eq_refl)));
    [reflexivity|lia].
Defined.

Lemma readTOMLvalue_missing_key_witness :
  let it := Reference.registry dns_reply_host_v4 in
  toml_raw_in (toml_table [] []) "IPv4" = None /\
  readTOMLvalue (E := Reference.reference) it "IPv4" (toml_table [] []) = (it, []).
Proof.
  cbv zeta. split; [reflexivity|].
  pose proof (readTOMLvalue_missing_key (E := Reference.reference)
                (Reference.registry dns_reply_host_v4) "IPv4" (toml_table [] []) eq_refl)
    as [H1 H2].
  cbn [t Reference.registry Reference.new_item] in H2.
  destruct (readTOMLvalue _ _ _) as [a b]. cbn [fst snd] in *. now subst.
Defined.

End ValueShape.

(* ================================================================== *)
(** * Properties: what the queries on the structured file store *)
(* ================================================================== *)

Module Queries.

Import Legacy TomlReader Frame Handlers DefaultStands LegacyKeys.

Lemma item_eqb_eq : forall i j, item_eqb i j = true -> i = j.
Proof.
  intros i j H. unfold item_eqb in H. apply Nat.eqb_eq in H.
  destruct i, j; simpl in H; try discriminate H; try reflexivity.
  f_equal. lia.
Qed.

Lemma item_eqb_neq : forall i j, i <> j -> item_eqb i j = false.
Proof.
  intros i j H. destruct (item_eqb i j) eqn:He; [|reflexivity].
  elim H. now apply item_eqb_eq.
Qed.

Lemma byte_val_inj : forall x y, byte_val x = byte_val y -> x = y.
Proof.
  intros x y H. unfold byte_val in H. apply N2Z.inj in H.
  rewrite <- (ascii_N_embedding x), <- (ascii_N_embedding y). now rewrite H.
Qed.

Lemma byte_val_NUL : forall x, byte_val x = 0 -> x = NUL.
Proof. intros x H. apply byte_val_inj. exact H. Qed.

(** Strings that [strcmp] finds equal are the same C string. *)
Lemma strcmp_zero : forall a b, strcmp a b = 0 -> c_str a = c_str b.
Proof.
  intros a; induction a as [|x a IH]; intros [|y b] H; cbn [strcmp] in H.
  - reflexivity.
  - assert (y = NUL) by (apply byte_val_NUL; lia). subst y. reflexivity.
  - assert (x = NUL) by (apply byte_val_NUL; lia). subst x. reflexivity.
  - cbv zeta in H. destruct (Z.eqb_spec (byte_val x - byte_val y) 0) as [Hd|Hd];
      [|contradiction].
    assert (x = y) by (apply byte_val_inj; lia). subst y.
    cbn [c_str]. destruct (Ascii.eqb x NUL); [reflexivity|]. f_equal. now apply IH.
Qed.

Section Structured.
Context {E : External}.

Lemma parseTOML_frame : forall fs st, config (snd (parseTOML fs st)) = config st.
Proof.
  intros fs st. unfold parseTOML.
  destruct (openFTLtoml_r fs) as [text|]; [|reflexivity].
  now destruct (toml_parse_file text).
Qed.

Lemma parseTOML_found : forall fs st text conf,
  openFTLtoml_r fs = Some text -> toml_parse_file text = inl conf ->
  parseTOML fs st = (Some conf, log_msg st LOG_DEBUG "TOML file parsing: OK").
Proof.
  intros fs st text conf H1 H2. unfold parseTOML. now rewrite H1, H2.
Qed.

(** [getPrivacyLevel] on a document that has misc.privacyLevel returns true
    whether the level is valid or not.  A level from [PRIVACY_SHOW_ALL] to
    [PRIVACY_MAXIMUM] is stored, also when it is lower than the level held
    before; any other number leaves the configuration as it was and logs a
    warning. *)
Theorem getPrivacyLevel_takes_document_level :
  forall (fs : filesystem) (st : state) (text : string) (conf misc : toml_table_t) (i : Z),
    openFTLtoml_r fs = Some text ->
    toml_parse_file text = inl conf ->
    toml_table_in conf "misc" = Some misc ->
    toml_int_in misc "privacyLevel" = Some i ->
    let r := getPrivacyLevel fs st in
    fst r = true /\
    (PRIVACY_SHOW_ALL <= i <= PRIVACY_MAXIMUM -> level (snd r) = i) /\
    (i < PRIVACY_SHOW_ALL \/ PRIVACY_MAXIMUM < i ->
     config (snd r) = config st /\
     In (LOG_WARNING, "Invalid setting for misc.privacyLevel") (logged (snd r))).
Proof.
  intros fs st text conf misc i Hopen Hparse Hmisc Hlevel. cbv zeta.
  unfold getPrivacyLevel. rewrite (parseTOML_found _ _ _ _ Hopen Hparse), Hmisc, Hlevel.
  unfold PRIVACY_SHOW_ALL, PRIVACY_MAXIMUM.
  destruct (Z.leb_spec i 3) as [Hhi|Hhi]; destruct (Z.leb_spec 0 i) as [Hlo|Hlo];
    rewrite Z.geb_leb;
    [ replace (0 <=? i) with true by (symmetry; apply Z.leb_le; lia)
    | replace (0 <=? i) with false by (symmetry; apply Z.leb_gt; lia)
    | replace (0 <=? i) with true by (symmetry; apply Z.leb_le; lia)
    | replace (0 <=? i) with false by (symmetry; apply Z.leb_gt; lia) ];
    cbn [andb fst snd]; (split; [reflexivity|]); split; intros H; try lia.
  - unfold level. rewrite cur_store_same.
    unfold get_privacy_level, get_ui, set_ui, wrap_u32.
    apply Z.mod_small. change (2 ^ 32) with 4294967296. lia.
  - split; [reflexivity|]. cbn [logged log_msg]. apply in_or_app. right. now left.
  - split; [reflexivity|]. cbn [logged log_msg]. apply in_or_app. right. now left.
Qed.

(** [getBlockingMode] on a document that has dns.blockingmode returns true
    whether the name is known or not.  A known name is stored; an unknown
    one leaves the configuration as it was, the mode is not reset to its
    default, and a warning is logged. *)
Theorem getBlockingMode_takes_document_mode :
  forall (fs : filesystem) (st : state) (text : string) (conf dns : toml_table_t)
         (s : string),
    openFTLtoml_r fs = Some text ->
    toml_parse_file text = inl conf ->
    toml_table_in conf "dns" = Some dns ->
    toml_string_in dns "blockingmode" = Some s ->
    let r := getBlockingMode fs st in
    fst r = true /\
    (forall m, get_blocking_mode_val s = Some m ->
               cur (snd r) dns_blockingmode = V_blocking_mode m) /\
    (get_blocking_mode_val s = None ->
     config (snd r) = config st /\
     exists msg, logged (snd r) = (logged st ++
       [(LOG_DEBUG, "Reading TOML config file: DNS blocking mode");
        (LOG_DEBUG, "TOML file parsing: OK"); (LOG_WARNING, msg)])%list).
Proof.
  intros fs st text conf dns s Hopen Hparse Hdns Hmode. cbv zeta.
  unfold getBlockingMode. rewrite (parseTOML_found _ _ _ _ Hopen Hparse), Hdns, Hmode.
  destruct (get_blocking_mode_val s) as [m|]; cbn [fst snd].
  - split; [reflexivity|]. split; [|discriminate].
    intros m' Hm. inversion Hm. now rewrite cur_store_same.
  - split; [reflexivity|]. split; [discriminate|]. intros _.
    split; [reflexivity|]. eexists. cbn [logged log_msg].
    rewrite <- !app_assoc. reflexivity.
Qed.

(** [getLogFilePathTOML] on a document that has files.log, with a log file
    path held before the call: the call returns true and the item holds the
    path of the document afterwards, whether the string was replaced or
    found equal. *)
Theorem getLogFilePathTOML_takes_document_path :
  forall (fs : filesystem) (st : state) (text : string) (conf files : toml_table_t)
         (s current : string),
    openFTLtoml_r fs = Some text ->
    toml_parse_file text = inl conf ->
    toml_table_in conf "files" = Some files ->
    toml_string_in files "log" = Some s ->
    cur st files_log = V_str (Some current) ->
    exists st' p,
      getLogFilePathTOML fs st = Some (true, st') /\
      cur st' files_log = V_str (Some p) /\ c_str p = c_str s.
Proof.
  intros fs st text conf files s current Hopen Hparse Hfiles Hlog Hcur.
  unfold getLogFilePathTOML.
  rewrite (parseTOML_found _ _ _ _ Hopen Hparse), Hfiles, Hlog.
  rewrite !cur_log_msg, Hcur. cbn [get_s].
  destruct (Z.eqb_spec (strcmp current s) 0) as [Heq|Hne]; cbn [negb].
  - eexists. exists current. split; [reflexivity|].
    rewrite !cur_log_msg. split; [exact Hcur|]. now apply strcmp_zero.
  - eexists. exists s. split; [reflexivity|].
    rewrite cur_store_same. split; reflexivity.
Qed.

(** Each of the three queries writes one item only: the privacy level, the
    blocking mode, the log file path.  Every other item holds after the
    call what it held before, and no default is changed. *)
Theorem preload_queries_write_one_item :
  forall (fs : filesystem) (st : state) (i : item),
    (i <> misc_privacylevel -> cur (snd (getPrivacyLevel fs st)) i = cur st i) /\
    (i <> dns_blockingmode -> cur (snd (getBlockingMode fs st)) i = cur st i) /\
    (i <> files_log ->
     forall r, getLogFilePathTOML fs st = Some r -> cur (snd r) i = cur st i) /\
    dflt (snd (getPrivacyLevel fs st)) i = dflt st i /\
    dflt (snd (getBlockingMode fs st)) i = dflt st i /\
    (forall r, getLogFilePathTOML fs st = Some r -> dflt (snd r) i = dflt st i).
Proof.
  intros fs st i.
  assert (Hc : forall s j, cur (snd (parseTOML fs s)) j = cur s j)
    by (intros s j; unfold cur; now rewrite parseTOML_frame).
  assert (Hd : forall s j, dflt (snd (parseTOML fs s)) j = dflt s j)
    by (intros s j; unfold dflt; now rewrite parseTOML_frame).
  repeat split.
  - intros Hi. apply not_eq_sym in Hi. apply item_eqb_neq in Hi.
    unfold getPrivacyLevel.
    specialize (Hc (log_msg st LOG_DEBUG "Reading TOML config file: privacy level") i).
    destruct (parseTOML fs _) as [[conf|] s1]; cbn [snd] in *; [|exact Hc].
    handler_cases; cbn [snd]; rewrite ?cur_store_other by assumption; exact Hc.
  - intros Hi. apply not_eq_sym in Hi. apply item_eqb_neq in Hi.
    unfold getBlockingMode.
    specialize (Hc (log_msg st LOG_DEBUG "Reading TOML config file: DNS blocking mode") i).
    destruct (parseTOML fs _) as [[conf|] s1]; cbn [snd] in *; [|exact Hc].
    handler_cases; cbn [snd]; rewrite ?cur_store_other by assumption; exact Hc.
  - intros Hi r Hr. apply not_eq_sym in Hi. apply item_eqb_neq in Hi.
    unfold getLogFilePathTOML in Hr.
    specialize (Hc (log_msg st LOG_DEBUG "Reading TOML config file: log file path") i).
    destruct (parseTOML fs _) as [[conf|] s1]; cbn [snd] in *;
      [|inversion Hr; exact Hc].
    repeat match type of Hr with
           | context [match ?x with _ => _ end] =>
               lazymatch x with
               | context [match _ with _ => _ end] => fail
               | _ => destruct x
               end
           end;
      inversion Hr; cbn [snd]; rewrite ?cur_store_other by assumption; exact Hc.
  - unfold getPrivacyLevel.
    specialize (Hd (log_msg st LOG_DEBUG "Reading TOML config file: privacy level") i).
    destruct (parseTOML fs _) as [[conf|] s1]; cbn [snd] in *; [|exact Hd].
    handler_cases; cbn [snd]; rewrite ?dflt_store; exact Hd.
  - unfold getBlockingMode.
    specialize (Hd (log_msg st LOG_DEBUG "Reading TOML config file: DNS blocking mode") i).
    destruct (parseTOML fs _) as [[conf|] s1]; cbn [snd] in *; [|exact Hd].
    handler_cases; cbn [snd]; rewrite ?dflt_store; exact Hd.
  - intros r Hr. unfold getLogFilePathTOML in Hr.
    specialize (Hd (log_msg st LOG_DEBUG "Reading TOML config file: log file path") i).
    destruct (parseTOML fs _) as [[conf|] s1]; cbn [snd] in *;
      [|inversion Hr; exact Hd].
    repeat match type of Hr with
           | context [match ?x with _ => _ end] =>
               lazymatch x with
               | context [match _ with _ => _ end] => fail
               | _ => destruct x
               end
           end;
      inversion Hr; cbn [snd]; rewrite ?dflt_store; exact Hd.
Qed.

End Structured.
End Queries.

(* ================================================================== *)
(** * Properties: what a legacy load leaves alone *)
(* ================================================================== *)

Module LegacyInvariants.

Import Legacy Frame Handlers DefaultStands LegacyKeys.

Lemma schema_store : forall st j x i, schema (store st j x) i = schema st i.
Proof.
  intros st j x i. unfold schema, store, set_config, set_v. cbn [config].
  now destruct (item_eqb j i).
Qed.

Lemma schema_log_msg : forall st sev msg i, schema (log_msg st sev msg) i = schema st i.
Proof. reflexivity. Qed.

Ltac schema_solve :=
  intros; handler_cases; cbn [fst snd];
  repeat first [ rewrite schema_store | rewrite schema_log_msg ];
  reflexivity.

Section Schema.
Context {E : External}.

Lemma legacy_bool_schema : forall key j fp st i,
  schema (legacy_bool key j fp st) i = schema st i.
Proof. unfold legacy_bool. schema_solve. Qed.

Lemma legacy_path_schema : forall key j fp st i,
  schema (legacy_path key j fp st) i = schema st i.
Proof. unfold legacy_path, getPath. schema_solve. Qed.

Lemma legacy_MAXDBDAYS_schema : forall fp st i, schema (legacy_MAXDBDAYS fp st) i = schema st i.
Proof. unfold legacy_MAXDBDAYS. schema_solve. Qed.

Lemma legacy_DBINTERVAL_schema : forall fp st i,
  schema (legacy_DBINTERVAL fp st) i = schema st i.
Proof. unfold legacy_DBINTERVAL. schema_solve. Qed.

Lemma legacy_DBFILE_schema : forall fp st i, schema (legacy_DBFILE fp st) i = schema st i.
Proof. unfold legacy_DBFILE. schema_solve. Qed.

Lemma legacy_MAXLOGAGE_schema : forall fp st i, schema (legacy_MAXLOGAGE fp st) i = schema st i.
Proof. unfold legacy_MAXLOGAGE. schema_solve. Qed.

Lemma getPrivacyLevelLegacy_schema : forall fs fp st i,
  schema (getPrivacyLevelLegacy fs fp st) i = schema st i.
Proof. unfold getPrivacyLevelLegacy. schema_solve. Qed.

Lemma legacy_IGNORE_LOCALHOST_schema : forall fp st i,
  schema (legacy_IGNORE_LOCALHOST fp st) i = schema st i.
Proof. unfold legacy_IGNORE_LOCALHOST. schema_solve. Qed.

Lemma getBlockingModeLegacy_schema : forall fs fp st i,
  schema (getBlockingModeLegacy fs fp st) i = schema st i.
Proof. unfold getBlockingModeLegacy. schema_solve. Qed.

Lemma legacy_ANALYZE_ONLY_A_AND_AAAA_schema : forall fp st i,
  schema (legacy_ANALYZE_ONLY_A_AND_AAAA fp st) i = schema st i.
Proof. unfold legacy_ANALYZE_ONLY_A_AND_AAAA. schema_solve. Qed.

Lemma legacy_DELAY_STARTUP_schema : forall ind fp st i,
  schema (legacy_DELAY_STARTUP ind fp st) i = schema st i.
Proof. unfold legacy_DELAY_STARTUP. schema_solve. Qed.

Lemma legacy_WEBPORT_schema : forall fp st i, schema (legacy_WEBPORT fp st) i = schema st i.
Proof. unfold legacy_WEBPORT. schema_solve. Qed.

Lemma legacy_WEBACL_schema : forall fp st i, schema (legacy_WEBACL fp st) i = schema st i.
Proof. unfold legacy_WEBACL. schema_solve. Qed.

Lemma legacy_API_SESSION_TIMEOUT_schema : forall fp st i,
  schema (legacy_API_SESSION_TIMEOUT fp st) i = schema st i.
Proof. unfold legacy_API_SESSION_TIMEOUT. schema_solve. Qed.

Lemma legacy_MAXNETAGE_schema : forall fp st i,
  schema (fst (legacy_MAXNETAGE fp st)) i = schema st i.
Proof. unfold legacy_MAXNETAGE. schema_solve. Qed.

Lemma legacy_REFRESH_HOSTNAMES_schema : forall fp st i,
  schema (legacy_REFRESH_HOSTNAMES fp st) i = schema st i.
Proof. unfold legacy_REFRESH_HOSTNAMES. schema_solve. Qed.

Lemma legacy_RATE_LIMIT_schema : forall fp st i,
  schema (legacy_RATE_LIMIT fp st) i = schema st i.
Proof. unfold legacy_RATE_LIMIT. schema_solve. Qed.

Lemma legacy_addr4_schema : forall key o a fp st i,
  schema (legacy_addr4 key o a fp st) i = schema st i.
Proof. unfold legacy_addr4. schema_solve. Qed.

Lemma legacy_addr6_schema : forall key o a fp st i,
  schema (legacy_addr6 key o a fp st) i = schema st i.
Proof. unfold legacy_addr6. schema_solve. Qed.

Lemma legacy_REPLY_ADDR4_schema : forall fp st i,
  schema (legacy_REPLY_ADDR4 fp st) i = schema st i.
Proof. unfold legacy_REPLY_ADDR4. schema_solve. Qed.

Lemma legacy_REPLY_ADDR6_schema : forall ind fp st i,
  schema (legacy_REPLY_ADDR6 ind fp st) i = schema st i.
Proof. unfold legacy_REPLY_ADDR6. schema_solve. Qed.

Lemma legacy_PIHOLE_PTR_schema : forall fp st i,
  schema (legacy_PIHOLE_PTR fp st) i = schema st i.
Proof. unfold legacy_PIHOLE_PTR. schema_solve. Qed.

Lemma legacy_REPLY_WHEN_BUSY_schema : forall fp st i,
  schema (legacy_REPLY_WHEN_BUSY fp st) i = schema st i.
Proof. unfold legacy_REPLY_WHEN_BUSY. schema_solve. Qed.

Lemma legacy_BLOCK_TTL_schema : forall fp st i, schema (legacy_BLOCK_TTL fp st) i = schema st i.
Proof. unfold legacy_BLOCK_TTL. schema_solve. Qed.

Lemma legacy_CHECK_SHMEM_schema : forall iv fp st i,
  schema (fst (legacy_CHECK_SHMEM iv fp st)) i = schema st i.
Proof. unfold legacy_CHECK_SHMEM. schema_solve. Qed.

Lemma legacy_CHECK_DISK_schema : forall iv fp st i,
  schema (fst (legacy_CHECK_DISK iv fp st)) i = schema st i.
Proof. unfold legacy_CHECK_DISK. schema_solve. Qed.

Lemma set_all_debug_schema : forall b st i, schema (set_all_debug b st) i = schema st i.
Proof.
  intros b st i. unfold schema, set_all_debug, set_config. cbn [config].
  now destruct (is_debug_item i).
Qed.

Lemma setDebugOption_schema : forall fp opt j st i,
  schema (setDebugOption fp opt j st) i = schema st i.
Proof. unfold setDebugOption. schema_solve. Qed.

Lemma setDebugOptions_schema : forall names fp n st i,
  schema (setDebugOptions fp names n st) i = schema st i.
Proof.
  intros names; induction names as [|name names IH]; intros fp n st i; [reflexivity|].
  cbn [setDebugOptions]. now rewrite IH, setDebugOption_schema.
Qed.

Lemma readDebugingSettingsLegacy_schema : forall fs fp st i,
  schema (readDebugingSettingsLegacy fs fp st) i = schema st i.
Proof.
  intros fs fp st i. unfold readDebugingSettingsLegacy.
  destruct (match fp with Some f => Some f | None => fst (openFTLconf fs) end) as [f|];
    [|apply set_all_debug_schema].
  match goal with |- context [if ?c then _ else _] => destruct c end;
    unfold parse_debug_options, schema; cbn [config];
    change (schema (setDebugOptions f debug_names 0
                      (setDebugOption f "DEBUG_ALL" debug_all (set_all_debug false st))) i
            = schema st i);
    now rewrite setDebugOptions_schema, setDebugOption_schema, set_all_debug_schema.
Qed.

End Schema.

(** One step through the outermost handler around [schema]. *)
Ltac schema_step :=
  match goal with
  | |- context [schema ?s _] =>
      lazymatch s with
      | log_msg _ _ _ => rewrite schema_log_msg
      | legacy_bool _ _ _ _ => rewrite legacy_bool_schema
      | legacy_path _ _ _ _ => rewrite legacy_path_schema
      | legacy_MAXDBDAYS _ _ => rewrite legacy_MAXDBDAYS_schema
      | legacy_DBINTERVAL _ _ => rewrite legacy_DBINTERVAL_schema
      | legacy_DBFILE _ _ => rewrite legacy_DBFILE_schema
      | legacy_MAXLOGAGE _ _ => rewrite legacy_MAXLOGAGE_schema
      | getPrivacyLevelLegacy _ _ _ => rewrite getPrivacyLevelLegacy_schema
      | legacy_IGNORE_LOCALHOST _ _ => rewrite legacy_IGNORE_LOCALHOST_schema
      | getBlockingModeLegacy _ _ _ => rewrite getBlockingModeLegacy_schema
      | legacy_ANALYZE_ONLY_A_AND_AAAA _ _ => rewrite legacy_ANALYZE_ONLY_A_AND_AAAA_schema
      | legacy_DELAY_STARTUP _ _ _ => rewrite legacy_DELAY_STARTUP_schema
      | legacy_WEBPORT _ _ => rewrite legacy_WEBPORT_schema
      | legacy_WEBACL _ _ => rewrite legacy_WEBACL_schema
      | legacy_API_SESSION_TIMEOUT _ _ => rewrite legacy_API_SESSION_TIMEOUT_schema
      | fst (legacy_MAXNETAGE _ _) => rewrite legacy_MAXNETAGE_schema
      | legacy_REFRESH_HOSTNAMES _ _ => rewrite legacy_REFRESH_HOSTNAMES_schema
      | legacy_RATE_LIMIT _ _ => rewrite legacy_RATE_LIMIT_schema
      | legacy_addr4 _ _ _ _ _ => rewrite legacy_addr4_schema
      | legacy_addr6 _ _ _ _ _ => rewrite legacy_addr6_schema
      | legacy_REPLY_ADDR4 _ _ => rewrite legacy_REPLY_ADDR4_schema
      | legacy_REPLY_ADDR6 _ _ _ => rewrite legacy_REPLY_ADDR6_schema
      | legacy_PIHOLE_PTR _ _ => rewrite legacy_PIHOLE_PTR_schema
      | legacy_REPLY_WHEN_BUSY _ _ => rewrite legacy_REPLY_WHEN_BUSY_schema
      | legacy_BLOCK_TTL _ _ => rewrite legacy_BLOCK_TTL_schema
      | fst (legacy_CHECK_SHMEM _ _ _) => rewrite legacy_CHECK_SHMEM_schema
      | fst (legacy_CHECK_DISK _ _ _) => rewrite legacy_CHECK_DISK_schema
      | readDebugingSettingsLegacy _ _ _ => rewrite readDebugingSettingsLegacy_schema
      end
  end.

Section Load.
Context {E : External}.

(** A legacy load changes current values only: after [readFTLlegacy] every
    item has the key, the help text, the tag and the default it had before,
    whatever the file holds. *)
Theorem readFTLlegacy_keeps_schema :
  forall (ind : indeterminate) (fs : filesystem) (st : state) (i : item),
    schema (snd (readFTLlegacy ind fs st)) i = schema st i.
Proof.
  intros ind fs st i. unfold readFTLlegacy.
  destruct (openFTLconf fs) as [[fp|] path]; [|reflexivity].
  cbv zeta. cbn [snd]. repeat schema_step. reflexivity.
Qed.

(** [readFTLlegacy] returns [NULL] exactly when neither legacy file can be
    opened, and the state is then as before the call, the log too.
    Otherwise it returns the path of the file it read, which is the local
    file whenever there is one: what the system file holds plays no part
    then. *)
Theorem readFTLlegacy_file_choice :
  forall (ind : indeterminate) (fs : filesystem) (st : state),
    (fst (readFTLlegacy ind fs st) = None <->
     local_conf fs = None /\ global_conf fs = None) /\
    (fst (readFTLlegacy ind fs st) = None -> snd (readFTLlegacy ind fs st) = st) /\
    (forall text, local_conf fs = Some text ->
       fst (readFTLlegacy ind fs st) = Some "pihole-FTL.conf" /\
       forall other,
         readFTLlegacy ind (mk_filesystem (Some text) other (local_toml fs) (global_toml fs)) st
         = readFTLlegacy ind fs st) /\
    (forall text, local_conf fs = None -> global_conf fs = Some text ->
       fst (readFTLlegacy ind fs st) = Some "/etc/pihole/pihole-FTL.conf").
Proof.
  intros ind fs st. destruct fs as [lc gc lt gt].
  cbn [local_conf global_conf local_toml global_toml].
  destruct lc as [l|]; [|destruct gc as [g|]].
  - split; [split; [discriminate|intros [H _]; discriminate H]|].
    split; [discriminate|].
    split; [|intros text H; discriminate H].
    intros text H. inversion H. subst text. split; reflexivity.
  - split; [split; [discriminate|intros [_ H]; discriminate H]|].
    split; [discriminate|].
    split; [intros text H; discriminate H|].
    intros text _ _. reflexivity.
  - split; [split; [split; reflexivity|reflexivity]|].
    split; [reflexivity|].
    split; intros text H; discriminate.
Qed.

End Load.
End LegacyInvariants.

(* ================================================================== *)
(** * Properties: ranges and flags after a legacy load *)
(* ================================================================== *)

Module LegacyRanges.

Import Legacy TomlReader Frame Handlers DefaultStands LegacyKeys Queries.

Lemma get_ui_set_ui : forall z, 0 <= z < 2 ^ 32 -> get_ui (set_ui z) = z.
Proof. intros z H. unfold get_ui, set_ui, wrap_u32. now apply Z.mod_small. Qed.

Lemma sscanf_u_range : forall buffer value,
  sscanf_u buffer = Assigned value -> 0 <= value < 2 ^ 32.
Proof.
  intros buffer value H. unfold sscanf_u, scan_number in H.
  destruct (skip_space buffer) as [|c s]; [discriminate H|].
  destruct (read_sign (String c s)) as [neg s2].
  destruct (read_digits 10 s2 0 0) as [[m n] rest].
  destruct n; [discriminate H|].
  cbn [fst] in H. inversion H. unfold wrap_u32. apply Z.mod_pos_bound. reflexivity.
Qed.

Lemma sscanf_i_blank : forall buffer, skip_space buffer = EmptyString -> sscanf_i buffer = InputFail.
Proof. intros buffer H. unfold sscanf_i, scan_number. now rewrite H. Qed.

Lemma sscanf_u_blank : forall buffer, skip_space buffer = EmptyString -> sscanf_u buffer = InputFail.
Proof. intros buffer H. unfold sscanf_u, scan_number. now rewrite H. Qed.

Section Ranges.
Context {E : External}.

(** ** One handler *)

Lemma legacy_MAXDBDAYS_range : forall fp st,
  within (-1) (INT_MAX / 24 / 60 / 60) (get_i (cur st database_maxDBdays)) ->
  within (-1) (INT_MAX / 24 / 60 / 60)
         (get_i (cur (legacy_MAXDBDAYS fp st) database_maxDBdays)).
Proof.
  intros fp st H. unfold legacy_MAXDBDAYS. cbv zeta.
  change (INT_MAX / 24 / 60 / 60) with 24855 in *.
  destruct (parseFTLconf fp "MAXDBDAYS") as [buffer|]; [|exact H].
  destruct (sscanf_i buffer) as [value| |] eqn:Hscan; cbn [scan_ret scan_store Z.eqb];
    [|exact H|].
  - pose proof (sscanf_i_range buffer value Hscan) as Hr.
    change (2 ^ 31) with 2147483648 in Hr.
    destruct (Z.gtb_spec value 24855) as [Hgt|Hle].
    + change ((24855 =? -1) || (24855 >=? 0)) with true. cbv iota.
      rewrite cur_store_same. unfold within. now vm_compute.
    + destruct (Z.eqb_spec value (-1)) as [->|Hne]; cbn [orb].
      * rewrite cur_store_same. unfold within. now vm_compute.
      * destruct (Z.geb_spec value 0) as [Hge|Hlt]; [|exact H].
        rewrite cur_store_same, get_i_set_i by (change (2 ^ 31) with 2147483648; lia).
        unfold within. lia.
  - change (EOF =? 0) with false. cbv iota.
    change (0 >? 24855) with false. cbv iota.
    change ((0 =? -1) || (0 >=? 0)) with true. cbv iota.
    rewrite cur_store_same. unfold within. now vm_compute.
Qed.

Lemma legacy_DBFILE_days : forall fp st,
  cur (legacy_DBFILE fp st) database_maxDBdays = set_i 0 \/
  cur (legacy_DBFILE fp st) database_maxDBdays = cur st database_maxDBdays.
Proof.
  intros fp st. unfold legacy_DBFILE. cbv zeta.
  match goal with |- context [if ?c then _ else _] => destruct c end.
  - left. now rewrite cur_store_same.
  - right. handler_cases; rewrite ?cur_store_other by reflexivity; reflexivity.
Qed.

Lemma legacy_DBFILE_path : forall fp st,
  empty_path (get_s (dflt st files_database)) = false ->
  empty_path (get_s (cur (legacy_DBFILE fp st) files_database)) = false.
Proof.
  intros fp st Hd. unfold legacy_DBFILE. cbv zeta.
  match goal with |- context [if ?c then _ else _] => destruct c eqn:He end.
  - rewrite cur_store_other by reflexivity. rewrite cur_store_same. cbn [get_s].
    match goal with
    | |- context [dflt ?s files_database] =>
        replace (dflt s files_database) with (dflt st files_database)
          by (handler_cases; rewrite ?dflt_store; reflexivity)
    end.
    exact Hd.
  - unfold empty_path. exact He.
Qed.

Lemma legacy_DELAY_STARTUP_range : forall ind fp st,
  within 0 300 (get_ui (cur st misc_delay_startup)) ->
  within 0 300 (get_ui (cur (legacy_DELAY_STARTUP ind fp st) misc_delay_startup)).
Proof.
  intros ind fp st H. unfold legacy_DELAY_STARTUP. cbv zeta.
  destruct (parseFTLconf fp "DELAY_STARTUP") as [buffer|]; [|exact H].
  match goal with |- context [if ?c then _ else _] => destruct c eqn:Hc end; [|exact H].
  apply andb_prop in Hc. destruct Hc as [Hc Hhi]. apply andb_prop in Hc.
  destruct Hc as [_ Hlo].
  rewrite Z.gtb_ltb in Hlo. apply Z.ltb_lt in Hlo. apply Z.leb_le in Hhi.
  rewrite cur_store_same, get_ui_set_ui by (change (2 ^ 32) with 4294967296; lia).
  unfold within. lia.
Qed.

Lemma legacy_API_SESSION_TIMEOUT_range : forall fp st,
  within 1 INT_MAX (get_ui (cur st http_sessionTimeout)) ->
  within 1 INT_MAX (get_ui (cur (legacy_API_SESSION_TIMEOUT fp st) http_sessionTimeout)).
Proof.
  intros fp st H. unfold legacy_API_SESSION_TIMEOUT. cbv zeta.
  destruct (parseFTLconf fp "API_SESSION_TIMEOUT") as [buffer|]; [|exact H].
  destruct (sscanf_i buffer) as [value| |] eqn:Hscan;
    cbn [scan_ret scan_store Z.eqb negb andb]; [|exact H|exact H].
  pose proof (sscanf_i_range buffer value Hscan) as Hr.
  change (2 ^ 31) with 2147483648 in Hr.
  destruct (Z.gtb_spec value 0) as [Hgt|Hle]; [|exact H].
  rewrite cur_store_same, get_ui_set_ui by (change (2 ^ 32) with 4294967296; lia).
  unfold within, INT_MAX. change (2 ^ 31 - 1) with 2147483647. lia.
Qed.

Lemma legacy_MAXNETAGE_range : forall fp st,
  within 1 8760 (get_ui (cur st database_network_expire)) ->
  within 1 8760 (get_ui (cur (fst (legacy_MAXNETAGE fp st)) database_network_expire)).
Proof.
  intros fp st H. unfold legacy_MAXNETAGE. cbv zeta.
  destruct (parseFTLconf fp "MAXNETAGE") as [buffer|]; [|exact H].
  match goal with |- context [if ?c then _ else _] => destruct c eqn:Hc end; [|exact H].
  apply andb_prop in Hc. destruct Hc as [Hc Hhi]. apply andb_prop in Hc.
  destruct Hc as [_ Hlo].
  rewrite Z.gtb_ltb in Hlo. apply Z.ltb_lt in Hlo. apply Z.leb_le in Hhi.
  cbn [fst].
  rewrite cur_store_same, get_ui_set_ui by (change (2 ^ 32) with 4294967296; lia).
  unfold within. lia.
Qed.

Lemma legacy_CHECK_SHMEM_range : forall iv fp st,
  within 0 100 (get_ui (cur (fst (legacy_CHECK_SHMEM iv fp st)) misc_check_shmem)).
Proof.
  intros iv fp st. unfold legacy_CHECK_SHMEM. cbv zeta.
  destruct (parseFTLconf fp "CHECK_SHMEM") as [buffer|];
    [|cbn [fst]; rewrite cur_store_same; unfold within; now vm_compute].
  match goal with |- context [if ?c then _ else _] => destruct c eqn:Hc end;
    [|cbn [fst]; rewrite cur_store_same; unfold within; now vm_compute].
  apply andb_prop in Hc. destruct Hc as [Hc Hhi]. apply andb_prop in Hc.
  destruct Hc as [_ Hlo].
  rewrite Z.geb_leb in Hlo. apply Z.leb_le in Hlo. apply Z.leb_le in Hhi.
  cbn [fst].
  rewrite cur_store_same, get_ui_set_ui by (change (2 ^ 32) with 4294967296; lia).
  unfold within. lia.
Qed.

Lemma getPrivacyLevelLegacy_range : forall fs fp st,
  within PRIVACY_SHOW_ALL PRIVACY_MAXIMUM (level st) ->
  within PRIVACY_SHOW_ALL PRIVACY_MAXIMUM (level (getPrivacyLevelLegacy fs fp st)).
Proof.
  intros fs fp st H. unfold getPrivacyLevelLegacy. cbv zeta.
  destruct (match fp with Some f => Some f | None => fst (openFTLconf fs) end) as [f|];
    [|exact H].
  destruct (parseFTLconf f "PRIVACYLEVEL") as [buffer|]; [|exact H].
  destruct (scan_ret (sscanf_i buffer) =? 1); [|exact H].
  match goal with |- context [if ?c then _ else _] => destruct c eqn:Hc end; [|exact H].
  apply andb_prop in Hc. destruct Hc as [Hc _]. apply andb_prop in Hc.
  destruct Hc as [Hlo Hhi].
  rewrite Z.geb_leb in Hlo. apply Z.leb_le in Hlo. apply Z.leb_le in Hhi.
  unfold level. rewrite cur_store_same. unfold get_privacy_level.
  unfold PRIVACY_SHOW_ALL, PRIVACY_MAXIMUM in *.
  rewrite get_ui_set_ui by (change (2 ^ 32) with 4294967296; lia).
  unfold within. lia.
Qed.

Lemma getPrivacyLevel_range : forall fs st,
  within PRIVACY_SHOW_ALL PRIVACY_MAXIMUM (level st) ->
  within PRIVACY_SHOW_ALL PRIVACY_MAXIMUM (level (snd (getPrivacyLevel fs st))).
Proof.
  intros fs st H. unfold getPrivacyLevel.
  assert (Hc : level (snd (parseTOML fs
                 (log_msg st LOG_DEBUG "Reading TOML config file: privacy level")))
               = level st)
    by (unfold level, cur; now rewrite parseTOML_frame).
  destruct (parseTOML fs _) as [[conf|] s1]; cbn [snd] in *; [|now rewrite Hc].
  destruct (toml_table_in conf "misc") as [misc|]; [|cbn [snd]; now rewrite <- Hc in H].
  destruct (toml_int_in misc "privacyLevel") as [i|];
    [|cbn [snd]; now rewrite <- Hc in H].
  match goal with |- context [if ?c then _ else _] => destruct c eqn:Hi end;
    [|cbn [snd]; now rewrite <- Hc in H].
  apply andb_prop in Hi. destruct Hi as [Hlo Hhi].
  rewrite Z.geb_leb in Hlo. apply Z.leb_le in Hlo. apply Z.leb_le in Hhi.
  cbn [snd]. unfold level. rewrite cur_store_same. unfold get_privacy_level.
  unfold PRIVACY_SHOW_ALL, PRIVACY_MAXIMUM in *.
  rewrite get_ui_set_ui by (change (2 ^ 32) with 4294967296; lia).
  unfold within. lia.
Qed.

(** ** The readers *)

(** No reader stores a privacy level outside the range from
    [PRIVACY_SHOW_ALL] to [PRIVACY_MAXIMUM]: a level of that range is one
    after [getPrivacyLevelLegacy], after a whole legacy load, after
    [getPrivacyLevel] on the structured file, and after [readTOMLvalue] on
    an item of tag [CONF_ENUM_PRIVACY_LEVEL], whatever the files hold. *)
Theorem privacy_level_stays_in_range :
  (forall (st : state),
     within PRIVACY_SHOW_ALL PRIVACY_MAXIMUM (level st) ->
     (forall fs fp,
        within PRIVACY_SHOW_ALL PRIVACY_MAXIMUM (level (getPrivacyLevelLegacy fs fp st))) /\
     (forall ind fs,
        within PRIVACY_SHOW_ALL PRIVACY_MAXIMUM (level (snd (readFTLlegacy ind fs st)))) /\
     (forall fs,
        within PRIVACY_SHOW_ALL PRIVACY_MAXIMUM (level (snd (getPrivacyLevel fs st))))) /\
  (forall (it : conf_item) (key : string) (toml : toml_table_t),
     t it = CONF_ENUM_PRIVACY_LEVEL ->
     within PRIVACY_SHOW_ALL PRIVACY_MAXIMUM (get_privacy_level (v it)) ->
     within PRIVACY_SHOW_ALL PRIVACY_MAXIMUM
            (get_privacy_level (v (fst (readTOMLvalue it key toml))))).
Proof.
  split.
  - intros st H. split; [|split].
    + intros fs fp. now apply getPrivacyLevelLegacy_range.
    + intros ind fs. unfold readFTLlegacy.
      destruct (openFTLconf fs) as [[fp|] path]; [|exact H].
      cbv zeta. cbn [snd]. unfold level at 1. repeat legacy_step.
      apply getPrivacyLevelLegacy_range. unfold level. repeat legacy_step. exact H.
    + intros fs. now apply getPrivacyLevel_range.
  - intros it key toml Ht H. unfold within in *.
    now apply ValueShape.readTOMLvalue_privacy_level_range.
Qed.

(** The bounds the legacy reader checks its numbers against hold of the
    items after a load when they held before it: the days of history from
    -1 to [INT_MAX/24/60/60], the start-up delay up to 300, the session
    timeout from 1 to [INT_MAX], the network table age from 1 to 8760.  The
    shared-memory limit is from 0 to 100 after every load of a file. *)
Theorem readFTLlegacy_keeps_ranges :
  forall (ind : indeterminate) (fs : filesystem) (st : state),
    let st' := snd (readFTLlegacy ind fs st) in
    (within (-1) (INT_MAX / 24 / 60 / 60) (get_i (cur st database_maxDBdays)) ->
     within (-1) (INT_MAX / 24 / 60 / 60) (get_i (cur st' database_maxDBdays))) /\
    (within 0 300 (get_ui (cur st misc_delay_startup)) ->
     within 0 300 (get_ui (cur st' misc_delay_startup))) /\
    (within 1 INT_MAX (get_ui (cur st http_sessionTimeout)) ->
     within 1 INT_MAX (get_ui (cur st' http_sessionTimeout))) /\
    (within 1 8760 (get_ui (cur st database_network_expire)) ->
     within 1 8760 (get_ui (cur st' database_network_expire))) /\
    (fst (readFTLlegacy ind fs st) <> None ->
     within 0 100 (get_ui (cur st' misc_check_shmem))).
Proof.
  intros ind fs st. cbv zeta.
  destruct (openFTLconf fs) as [[fp|] path] eqn:Hopen.
  2:{ unfold readFTLlegacy. rewrite Hopen. cbn [fst snd].
      split; [auto|]. split; [auto|]. split; [auto|]. split; [auto|].
      intros H. now elim H. }
  split; [|split; [|split; [|split]]].
  - intros H. rewrite (readFTLlegacy_maxDBdays ind fs fp path st Hopen).
    destruct (legacy_DBFILE_days fp
                (legacy_DBINTERVAL fp
                   (legacy_bool "RESOLVE_IPV4" resolver_resolveIPv4 fp
                      (legacy_bool "RESOLVE_IPV6" resolver_resolveIPv6 fp
                         (legacy_MAXDBDAYS fp
                            (legacy_bool "AAAA_QUERY_ANALYSIS" dns_analyzeAAAA fp
                               (log_msg st LOG_NOTICE "Reading legacy config file")))))))
      as [H0|H0]; rewrite H0.
    + unfold within. now vm_compute.
    + repeat legacy_step. apply legacy_MAXDBDAYS_range. now repeat legacy_step.
  - intros H. unfold readFTLlegacy. rewrite Hopen. cbv zeta. cbn [snd].
    repeat legacy_step. apply legacy_DELAY_STARTUP_range. now repeat legacy_step.
  - intros H. unfold readFTLlegacy. rewrite Hopen. cbv zeta. cbn [snd].
    repeat legacy_step. apply legacy_API_SESSION_TIMEOUT_range. now repeat legacy_step.
  - intros H. unfold readFTLlegacy. rewrite Hopen. cbv zeta. cbn [snd].
    repeat legacy_step. apply legacy_MAXNETAGE_range. now repeat legacy_step.
  - intros _. unfold readFTLlegacy. rewrite Hopen. cbv zeta. cbn [snd].
    repeat legacy_step. apply legacy_CHECK_SHMEM_range.
Qed.

(** After a legacy load the path of the database is neither [NULL] nor
    empty, whatever the file says under DBFILE, as long as the default path
    is neither. *)
Theorem readFTLlegacy_database_path_not_empty :
  forall (ind : indeterminate) (fs : filesystem) (st : state) (path : string),
    fst (readFTLlegacy ind fs st) = Some path ->
    empty_path (get_s (dflt st files_database)) = false ->
    empty_path (get_s (cur (snd (readFTLlegacy ind fs st)) files_database)) = false.
Proof.
  intros ind fs st path Hret Hd. unfold readFTLlegacy in *.
  destruct (openFTLconf fs) as [[fp|] p]; [|discriminate Hret].
  cbv zeta. cbn [snd]. repeat legacy_step.
  apply legacy_DBFILE_path. now repeat legacy_step.
Qed.

Lemma legacy_MAXNETAGE_ivalue : forall fp st,
  snd (legacy_MAXNETAGE fp st)
  = match parseFTLconf fp "MAXNETAGE" with
    | None => 0
    | Some m => scan_store (sscanf_i m) 0
    end.
Proof.
  intros fp st. unfold legacy_MAXNETAGE. cbv zeta.
  destruct (parseFTLconf fp "MAXNETAGE"); [|reflexivity].
  now match goal with |- context [if ?c then _ else _] => destruct c end.
Qed.

Lemma legacy_CHECK_SHMEM_blank : forall iv fp st buffer,
  parseFTLconf fp "CHECK_SHMEM" = Some buffer -> skip_space buffer = EmptyString ->
  0 <= iv <= 100 ->
  cur (fst (legacy_CHECK_SHMEM iv fp st)) misc_check_shmem = set_ui iv.
Proof.
  intros iv fp st buffer Hkey Hblank Hiv. unfold legacy_CHECK_SHMEM.
  rewrite Hkey, (sscanf_i_blank buffer Hblank). cbn [scan_ret scan_store].
  change (negb (EOF =? 0)) with true.
  rewrite geb_true by lia.
  replace (iv <=? 100) with true by (symmetry; apply Z.leb_le; lia).
  cbn [andb fst]. now rewrite cur_store_same.
Qed.

(** A numeric key with an empty value is not a key without a number:
    [sscanf] returns [EOF], which the test of the handler takes for a match,
    and the variable holds what it held before the call.  So a line
    MAXDBDAYS= sets the days of history to 0 and a line BLOCK_TTL= sets the
    TTL to 0, not to the defaults the comments name.  CHECK_SHMEM shares
    its variable with MAXNETAGE: a line CHECK_SHMEM= sets the shared-memory
    limit to the number that was read for MAXNETAGE when that is from 0 to
    100, and to 0 when the file has no MAXNETAGE. *)
Theorem empty_number_keeps_variable :
  forall (ind : indeterminate) (fs : filesystem) (fp : FILE) (path : string) (st : state)
         (buffer : string),
    openFTLconf fs = (Some fp, path) ->
    skip_space buffer = EmptyString ->
    let st' := snd (readFTLlegacy ind fs st) in
    (parseFTLconf fp "MAXDBDAYS" = Some buffer -> cur st' database_maxDBdays = set_i 0) /\
    (parseFTLconf fp "BLOCK_TTL" = Some buffer -> cur st' dns_blockTTL = set_ui 0) /\
    (parseFTLconf fp "CHECK_SHMEM" = Some buffer ->
     (parseFTLconf fp "MAXNETAGE" = None -> cur st' misc_check_shmem = set_ui 0) /\
     (forall m n, parseFTLconf fp "MAXNETAGE" = Some m -> sscanf_i m = Assigned n ->
        0 <= n <= 100 -> cur st' misc_check_shmem = set_ui n)).
Proof.
  intros ind fs fp path st buffer Hopen Hblank. cbv zeta.
  split; [|split]; intros Hkey.
  - rewrite (readFTLlegacy_maxDBdays ind fs fp path st Hopen).
    match goal with
    | |- cur (legacy_DBFILE ?f ?s) _ = _ => destruct (legacy_DBFILE_days f s) as [H0|H0]
    end; rewrite H0; [reflexivity|].
    repeat legacy_step. unfold legacy_MAXDBDAYS.
    rewrite Hkey, (sscanf_i_blank buffer Hblank). cbn [scan_ret scan_store].
    change (EOF =? 0) with false. cbv iota zeta.
    change (0 >? INT_MAX / 24 / 60 / 60) with false. cbv iota.
    change ((0 =? -1) || (0 >=? 0)) with true. cbv iota.
    now rewrite cur_store_same.
  - unfold readFTLlegacy. rewrite Hopen. cbv zeta. cbn [snd].
    repeat legacy_step. unfold legacy_BLOCK_TTL.
    rewrite Hkey, (sscanf_u_blank buffer Hblank). cbn [scan_ret scan_store].
    change (EOF =? 0) with false. cbv iota zeta.
    now rewrite cur_store_same.
  - split.
    + intros Hnet. unfold readFTLlegacy. rewrite Hopen. cbv zeta. cbn [snd].
      repeat legacy_step. rewrite legacy_MAXNETAGE_ivalue, Hnet.
      apply (legacy_CHECK_SHMEM_blank _ _ _ buffer Hkey Hblank). lia.
    + intros m n Hnet Hscan Hn. unfold readFTLlegacy. rewrite Hopen. cbv zeta. cbn [snd].
      repeat legacy_step. rewrite legacy_MAXNETAGE_ivalue, Hnet, Hscan. cbn [scan_store].
      now apply (legacy_CHECK_SHMEM_blank _ _ _ buffer Hkey Hblank).
Qed.

(** ** Addresses and their flags *)

Lemma legacy_addr4_unset_zero : forall key o a fp st,
  item_eqb a o = false -> item_eqb o a = false ->
  get_b (cur (legacy_addr4 key o a fp st) o) = false ->
  cur (legacy_addr4 key o a fp st) a = V_in_addr in_addr_zero.
Proof.
  intros key o a fp st Hao Hoa. unfold legacy_addr4.
  destruct (parseFTLconf fp key) as [buffer|];
    [destruct (inet_pton4 buffer) as [x|]|];
    rewrite ?cur_store_same;
    first [ intros _; reflexivity | cbn [get_b]; intros Hx; discriminate Hx ].
Qed.

Lemma legacy_addr6_unset_zero : forall key o a fp st,
  item_eqb a o = false -> item_eqb o a = false ->
  get_b (cur (legacy_addr6 key o a fp st) o) = false ->
  cur (legacy_addr6 key o a fp st) a = V_in6_addr in6_addr_zero.
Proof.
  intros key o a fp st Hao Hoa. unfold legacy_addr6.
  destruct (parseFTLconf fp key) as [buffer|];
    [destruct (inet_pton6 buffer) as [x|]|];
    rewrite ?cur_store_same;
    first [ intros _; reflexivity | cbn [get_b]; intros Hx; discriminate Hx ].
Qed.

Ltac reply_cases :=
  intros;
  match goal with
  | |- context [parseFTLconf ?fp ?key] => destruct (parseFTLconf fp key); [|auto]
  end;
  match goal with
  | |- context [inet_pton4 ?b] => destruct (inet_pton4 b); [|auto]
  end;
  match goal with |- context [if ?c then _ else _] => destruct c end;
  [ rewrite !cur_log_msg; auto
  | match goal with
    | Hx : get_b (cur _ _) = false |- _ =>
        repeat first [ rewrite cur_store_same in Hx
                     | rewrite cur_store_other in Hx by reflexivity ];
        discriminate Hx
    end ].

Lemma legacy_REPLY_ADDR4_host : forall fp st,
  (get_b (cur st dns_reply_host_overwrite_v4) = false ->
   cur st dns_reply_host_v4 = V_in_addr in_addr_zero) ->
  get_b (cur (legacy_REPLY_ADDR4 fp st) dns_reply_host_overwrite_v4) = false ->
  cur (legacy_REPLY_ADDR4 fp st) dns_reply_host_v4 = V_in_addr in_addr_zero.
Proof. unfold legacy_REPLY_ADDR4. reply_cases. Qed.

Lemma legacy_REPLY_ADDR4_blocking : forall fp st,
  (get_b (cur st dns_reply_blocking_overwrite_v4) = false ->
   cur st dns_reply_blocking_v4 = V_in_addr in_addr_zero) ->
  get_b (cur (legacy_REPLY_ADDR4 fp st) dns_reply_blocking_overwrite_v4) = false ->
  cur (legacy_REPLY_ADDR4 fp st) dns_reply_blocking_v4 = V_in_addr in_addr_zero.
Proof. unfold legacy_REPLY_ADDR4. reply_cases. Qed.

Lemma legacy_REPLY_ADDR6_host : forall ind fp st,
  (get_b (cur st dns_reply_host_overwrite_v6) = false ->
   cur st dns_reply_host_v6 = V_in6_addr in6_addr_zero) ->
  get_b (cur (legacy_REPLY_ADDR6 ind fp st) dns_reply_host_overwrite_v6) = false ->
  cur (legacy_REPLY_ADDR6 ind fp st) dns_reply_host_v6 = V_in6_addr in6_addr_zero.
Proof. unfold legacy_REPLY_ADDR6. reply_cases. Qed.

Lemma legacy_REPLY_ADDR6_blocking : forall ind fp st,
  (get_b (cur st dns_reply_blocking_overwrite_v6) = false ->
   cur st dns_reply_blocking_v6 = V_in6_addr in6_addr_zero) ->
  get_b (cur (legacy_REPLY_ADDR6 ind fp st) dns_reply_blocking_overwrite_v6) = false ->
  cur (legacy_REPLY_ADDR6 ind fp st) dns_reply_blocking_v6 = V_in6_addr in6_addr_zero.
Proof. unfold legacy_REPLY_ADDR6. reply_cases. Qed.

(** After a legacy load an address item whose overwrite flag is not set
    holds the zero address, for both families and for the host and the
    blocking address: no address from before the load is left behind
    without its flag. *)
Theorem readFTLlegacy_unset_address_is_zero :
  forall (ind : indeterminate) (fs : filesystem) (st : state) (path : string),
    fst (readFTLlegacy ind fs st) = Some path ->
    let st' := snd (readFTLlegacy ind fs st) in
    (get_b (cur st' dns_reply_host_overwrite_v4) = false ->
     cur st' dns_reply_host_v4 = V_in_addr in_addr_zero) /\
    (get_b (cur st' dns_reply_blocking_overwrite_v4) = false ->
     cur st' dns_reply_blocking_v4 = V_in_addr in_addr_zero) /\
    (get_b (cur st' dns_reply_host_overwrite_v6) = false ->
     cur st' dns_reply_host_v6 = V_in6_addr in6_addr_zero) /\
    (get_b (cur st' dns_reply_blocking_overwrite_v6) = false ->
     cur st' dns_reply_blocking_v6 = V_in6_addr in6_addr_zero).
Proof.
  intros ind fs st path Hret. cbv zeta. unfold readFTLlegacy in *.
  destruct (openFTLconf fs) as [[fp|] p]; [|discriminate Hret].
  clear Hret. cbv zeta. cbn [snd].
  split; [|split; [|split]]; repeat legacy_step.
  - apply legacy_REPLY_ADDR4_host. repeat legacy_step.
    intros Hx. repeat legacy_step. revert Hx.
    apply legacy_addr4_unset_zero; reflexivity.
  - apply legacy_REPLY_ADDR4_blocking. repeat legacy_step.
    intros Hx. repeat legacy_step. revert Hx.
    apply legacy_addr4_unset_zero; reflexivity.
  - apply legacy_REPLY_ADDR6_host. repeat legacy_step.
    intros Hx. repeat legacy_step. revert Hx.
    apply legacy_addr6_unset_zero; reflexivity.
  - apply legacy_REPLY_ADDR6_blocking. repeat legacy_step.
    intros Hx. repeat legacy_step. revert Hx.
    apply legacy_addr6_unset_zero; reflexivity.
Qed.

End Ranges.
End LegacyRanges.

(* ================================================================== *)
(** * Properties: paths and boolean words *)
(* ================================================================== *)

Module LegacyValues.

Import Legacy Frame Handlers DefaultStands LegacyKeys Queries QuotedText.

(** ** The characters of a value *)

Lemma c_str_no_NUL : forall s, ~ In NUL (list_ascii_of_string (c_str s)).
Proof.
  induction s as [|c s IH]; [intros []|].
  cbn [c_str]. destruct (Ascii.eqb_spec c NUL) as [->|Hc]; [intros []|].
  intros [H|H]; [now elim Hc|now elim IH].
Qed.

Lemma find_equals_chars : forall s c, In c (list_ascii_of_string (find_equals s)) -> In c (list_ascii_of_string s).
Proof.
  induction s as [|x s IH]; intros c H; [exact H|].
  cbn [find_equals] in H. destruct (Ascii.eqb x "="); [exact H|].
  right. now apply IH.
Qed.

Lemma next_char_chars : forall s c, In c (list_ascii_of_string (next_char s)) -> In c (list_ascii_of_string s).
Proof. intros [|x s] c H; [exact H|now right]. Qed.

Lemma skip_space_chars : forall s c, In c (list_ascii_of_string (skip_space s)) -> In c (list_ascii_of_string s).
Proof.
  induction s as [|x s IH]; intros c H; [exact H|].
  cbn [skip_space] in H. destruct (isspace (byte_val x)); [|exact H].
  right. now apply IH.
Qed.

Lemma trim_end_chars : forall s c, In c (list_ascii_of_string (trim_end s)) -> In c (list_ascii_of_string s).
Proof.
  induction s as [|x s IH]; intros c H; [exact H|].
  cbn [trim_end] in H. destruct (trim_end s) as [|y r] eqn:Ht.
  - destruct (isspace (byte_val x)); [destruct H|].
    destruct H as [H|[]]. now left.
  - destruct H as [H|H]; [now left|right]. now apply IH.
Qed.

Lemma read_word_chars : forall n s c, In c (list_ascii_of_string (read_word n s)) -> In c (list_ascii_of_string s).
Proof.
  induction n as [|n IH]; intros [|x s] c H; try (now destruct H).
  cbn [read_word] in H. destruct (isspace (byte_val x)); [destruct H|].
  destruct H as [H|H]; [now left|right]. now apply IH.
Qed.

(** The value [parseFTLconf] returns is a C string. *)
Lemma parseFTLconf_no_NUL : forall fp key buffer,
  parseFTLconf fp key = Some buffer -> ~ In NUL (list_ascii_of_string buffer).
Proof.
  intros fp key buffer. unfold parseFTLconf.
  induction (getlines EmptyString fp) as [|l lines IH]; [discriminate|].
  cbn [parseFTLconf_loop]. cbv zeta.
  destruct (_ || _)%bool; [exact IH|].
  destruct (strstr (c_str l) (key ++ "=")); [|exact IH].
  intros H. inversion H. subst buffer. clear H. intros Hin.
  unfold trim_whitespace in Hin.
  apply trim_end_chars, skip_space_chars, next_char_chars, find_equals_chars in Hin.
  now apply (c_str_no_NUL l).
Qed.

Lemma skip_space_head : forall s c r,
  skip_space s = String c r -> isspace (byte_val c) = false.
Proof.
  induction s as [|x s IH]; intros c r H; [discriminate H|].
  cbn [skip_space] in H. destruct (isspace (byte_val x)) eqn:Hx; [now apply (IH c r)|].
  inversion H. now subst.
Qed.

Lemma read_word_length : forall n s, (String.length (read_word n s) <= n)%nat.
Proof.
  induction n as [|n IH]; intros [|x s]; cbn [read_word String.length]; try lia.
  destruct (isspace (byte_val x)); cbn [String.length]; [lia|].
  specialize (IH s). lia.
Qed.

Lemma read_word_no_space : forall n s, no_space (read_word n s) = true.
Proof.
  induction n as [|n IH]; intros [|x s]; try reflexivity.
  cbn [read_word]. destruct (isspace (byte_val x)) eqn:Hx; [reflexivity|].
  unfold no_space. cbn [list_ascii_of_string forallb]. rewrite Hx. apply IH.
Qed.

Lemma read_word_prefix : forall n s, String.prefix (read_word n s) s = true.
Proof.
  induction n as [|n IH]; intros [|x s]; try reflexivity.
  cbn [read_word]. destruct (isspace (byte_val x)); [reflexivity|].
  cbn [String.prefix]. destruct (ascii_dec x x) as [_|Hne]; [apply IH|now elim Hne].
Qed.

Section Values.
Context {E : External}.

Lemma legacy_path_blank : forall key i fp st buffer,
  parseFTLconf fp key = Some buffer -> skip_space buffer = EmptyString ->
  cur (legacy_path key i fp st) i = V_str None.
Proof.
  intros key i fp st buffer Hbuf Hskip. unfold legacy_path, getPath, sscanf_ms.
  rewrite Hbuf, Hskip. change (negb (EOF =? 1)) with true. cbv iota.
  apply cur_store_same.
Qed.

(** [getPath] never logs: the branch for the empty path is not reached.
    With the key absent it returns the pointer it was given.  With a value
    that holds no word it returns [NULL], whatever pointer it was given:
    [sscanf] has cleared the parameter before the early return.  Otherwise
    it returns the first word of the value: at least one and at most 127
    characters, none of them white space, so a path is cut at its first
    blank.  So after a legacy load the item of a path key whose value holds
    no word is [NULL]. *)
Theorem getPath_returns_word_or_null :
  forall (fp : FILE) (opt : string) (ptr : option string) (st : state),
    let r := getPath fp opt ptr st in
    snd r = st /\
    match parseFTLconf fp opt with
    | None => fst r = ptr
    | Some buffer =>
        match skip_space buffer with
        | EmptyString => fst r = None
        | String _ _ =>
            exists w,
              fst r = Some w /\ String.prefix w (skip_space buffer) = true /\
              (1 <= strlen w)%nat /\ (String.length w <= 127)%nat /\ no_space w = true
        end
    end /\
    (forall ind fs path i buffer,
       openFTLconf fs = (Some fp, path) -> path_key i = Some opt ->
       parseFTLconf fp opt = Some buffer -> skip_space buffer = EmptyString ->
       cur (snd (readFTLlegacy ind fs st)) i = V_str None).
Proof.
  intros fp opt ptr st. cbv zeta. split; [|split].
  - unfold getPath. destruct (parseFTLconf fp opt) as [buffer|] eqn:Hkey; [|reflexivity].
    unfold sscanf_ms. destruct (skip_space buffer) as [|c s] eqn:Hskip; [reflexivity|].
    change (negb (1 =? 1)) with false. cbv iota.
    assert (Hc : c <> NUL).
    { intros ->. apply (parseFTLconf_no_NUL fp opt buffer Hkey).
      apply skip_space_chars. rewrite Hskip. now left. }
    pose proof (skip_space_head buffer c s Hskip) as Hsp.
    cbn [read_word]. rewrite Hsp. cbn [strlen].
    apply Ascii.eqb_neq in Hc. rewrite Hc. reflexivity.
  - unfold getPath. destruct (parseFTLconf fp opt) as [buffer|] eqn:Hkey; [|reflexivity].
    unfold sscanf_ms. destruct (skip_space buffer) as [|c s] eqn:Hskip; [reflexivity|].
    change (negb (1 =? 1)) with false. cbv iota.
    assert (Hc : c <> NUL).
    { intros ->. apply (parseFTLconf_no_NUL fp opt buffer Hkey).
      apply skip_space_chars. rewrite Hskip. now left. }
    pose proof (skip_space_head buffer c s Hskip) as Hsp.
    assert (Hw : read_word 127 (String c s) = String c (read_word 126 s))
      by (cbn [read_word]; now rewrite Hsp).
    assert (Hlen : (1 <= strlen (read_word 127 (String c s)))%nat).
    { rewrite Hw. cbn [strlen]. apply Ascii.eqb_neq in Hc. rewrite Hc. lia. }
    exists (read_word 127 (String c s)).
    split; [now destruct (strlen (read_word 127 (String c s)) =? 0)%nat|].
    repeat split; [apply read_word_prefix|exact Hlen|apply read_word_length
                  |apply read_word_no_space].
  - intros ind fs path i buffer Hopen Hkey Hbuf Hskip.
    unfold readFTLlegacy. rewrite Hopen. cbv zeta. cbn [snd].
    destruct i; cbn [path_key] in Hkey; try discriminate Hkey;
      inversion Hkey; subst opt; clear Hkey;
      repeat legacy_step; now apply (legacy_path_blank _ _ _ _ buffer).
Qed.

End Values.

(** ** Words in any letter case *)

Lemma tolower_zero : forall x, tolower (byte_val x) = 0 -> x = NUL.
Proof.
  intros x H. apply byte_val_NUL. unfold tolower in H.
  destruct ((65 <=? byte_val x) && (byte_val x <=? 90)) eqn:Hc; [|exact H].
  apply andb_prop in Hc. destruct Hc as [Hlo _]. apply Z.leb_le in Hlo. lia.
Qed.

Lemma tolower_NUL : tolower (byte_val NUL) = 0.
Proof. reflexivity. Qed.

(** [strcasecmp] finds a string equal to a word exactly when the string is
    the word in some letter case. *)
Lemma strcasecmp_zero_iff : forall w a,
  ~ In NUL (list_ascii_of_string w) ->
  (strcasecmp a w = 0 <-> lower_case (c_str a) = lower_case w).
Proof.
  intros w; induction w as [|y w IH]; intros a Hw.
  - destruct a as [|x a]; [split; reflexivity|].
    cbn [strcasecmp c_str]. split; intros H.
    + apply tolower_zero in H. subst x. reflexivity.
    + destruct (Ascii.eqb_spec x NUL) as [->|Hx]; [reflexivity|discriminate H].
  - assert (Hy : y <> NUL) by (intros ->; apply Hw; now left).
    assert (Hw' : ~ In NUL (list_ascii_of_string w)) by (intros Hin; apply Hw; now right).
    destruct a as [|x a].
    + cbn [strcasecmp c_str]. split; intros H; [|discriminate H].
      exfalso. apply Hy. apply tolower_zero. lia.
    + cbn [strcasecmp c_str]. cbv zeta.
      destruct (Z.eqb_spec (tolower (byte_val x) - tolower (byte_val y)) 0) as [Hd|Hd].
      * assert (Hx : x <> NUL).
        { intros ->. rewrite tolower_NUL in Hd. apply Hy. apply tolower_zero. lia. }
        apply Ascii.eqb_neq in Hx. rewrite Hx.
        unfold lower_case. cbn [list_ascii_of_string map].
        specialize (IH a Hw'). unfold lower_case in IH.
        split; intros H.
        -- f_equal; [lia|]. now apply IH.
        -- apply IH. now inversion H.
      * split; intros H; [contradiction|].
        exfalso. apply Hd.
        destruct (Ascii.eqb x NUL); [discriminate H|].
        unfold lower_case in H. cbn [list_ascii_of_string map] in H.
        inversion H. lia.
Qed.

Lemma word_no_NUL : forall w,
  In w ["false"; "no"; "true"; "yes"] -> ~ In NUL (list_ascii_of_string w).
Proof.
  intros w Hw Hin. cbn [In] in Hw.
  repeat (destruct Hw as [<-|Hw];
          [cbn in Hin; repeat (destruct Hin as [Hin|Hin]; [discriminate Hin|]);
           exact Hin|]).
  exact Hw.
Qed.

(** [parseBool] knows four words, each in any letter case: true and yes set
    the variable, false and no clear it.  Anything else (1, on, the empty
    value, a word with something after it) is no setting, as is [NULL]. *)
Theorem parseBool_knows_four_words : forall o : string,
  (parseBool (Some o) = Some true <->
   lower_case (c_str o) = lower_case "true" \/ lower_case (c_str o) = lower_case "yes") /\
  (parseBool (Some o) = Some false <->
   lower_case (c_str o) = lower_case "false" \/ lower_case (c_str o) = lower_case "no") /\
  parseBool None = None.
Proof.
  intros o.
  pose proof (strcasecmp_zero_iff "false" o
                (word_no_NUL "false" ltac:(cbn; tauto))) as Hf.
  pose proof (strcasecmp_zero_iff "no" o (word_no_NUL "no" ltac:(cbn; tauto))) as Hn.
  pose proof (strcasecmp_zero_iff "true" o (word_no_NUL "true" ltac:(cbn; tauto))) as Ht.
  pose proof (strcasecmp_zero_iff "yes" o (word_no_NUL "yes" ltac:(cbn; tauto))) as Hy.
  unfold parseBool.
  change (lower_case "false") with [102; 97; 108; 115; 101] in *.
  change (lower_case "no") with [110; 111] in *.
  change (lower_case "true") with [116; 114; 117; 101] in *.
  change (lower_case "yes") with [121; 101; 115] in *.
  destruct (Z.eqb_spec (strcasecmp o "false") 0) as [H1|H1];
    destruct (Z.eqb_spec (strcasecmp o "no") 0) as [H2|H2];
    destruct (Z.eqb_spec (strcasecmp o "true") 0) as [H3|H3];
    destruct (Z.eqb_spec (strcasecmp o "yes") 0) as [H4|H4];
    cbn [orb];
    repeat match goal with
           | H : strcasecmp _ _ = 0, H' : _ <-> _ |- _ => apply H' in H
           end;
    (split; [|split; [|reflexivity]]); split;
    try discriminate; try (intros _; tauto);
    try (intros [H|H]; congruence);
    try (intros [H|H]; exfalso; tauto).
Qed.


(** A string that [strcasecmp] finds equal to true or to yes is one for
    which [parseBool] returns true and sets the variable. *)
Lemma parseBool_true_word : forall b : string,
  strcasecmp b "true" = 0 \/ strcasecmp b "yes" = 0 -> parseBool (Some b) = Some true.
Proof.
  intros b H.
  pose proof (strcasecmp_zero_iff "false" b
                (word_no_NUL "false" ltac:(cbn; tauto))) as Hf.
  pose proof (strcasecmp_zero_iff "no" b (word_no_NUL "no" ltac:(cbn; tauto))) as Hn.
  pose proof (strcasecmp_zero_iff "true" b (word_no_NUL "true" ltac:(cbn; tauto))) as Ht.
  pose proof (strcasecmp_zero_iff "yes" b (word_no_NUL "yes" ltac:(cbn; tauto))) as Hy.
  change (lower_case "false") with [102; 97; 108; 115; 101] in *.
  change (lower_case "no") with [110; 111] in *.
  change (lower_case "true") with [116; 114; 117; 101] in *.
  change (lower_case "yes") with [121; 101; 115] in *.
  unfold parseBool.
  destruct (Z.eqb_spec (strcasecmp b "false") 0) as [H1|H1];
    [apply Hf in H1; destruct H as [H|H]; [apply Ht in H|apply Hy in H]; congruence|].
  destruct (Z.eqb_spec (strcasecmp b "no") 0) as [H2|H2];
    [apply Hn in H2; destruct H as [H|H]; [apply Ht in H|apply Hy in H]; congruence|].
  cbn [orb].
  destruct H as [H|H]; rewrite H; cbn [Z.eqb orb]; [reflexivity|].
  now rewrite orb_true_r.
Qed.

(** A written-out word holds no NUL. *)
Ltac no_NUL :=
  let H := fresh in
  cbn; intros H; repeat (destruct H as [H|H]; [discriminate H|]); exact H.

(** Decides every comparison of [b] with a word, given the word [b] is in
    some letter case. *)
Ltac word_chain b Hw :=
  repeat match goal with
         | |- context [strcasecmp b ?w =? 0] =>
             let Hz := fresh "Hz" in
             destruct (Z.eqb_spec (strcasecmp b w) 0) as [Hz|Hz];
             [ apply (proj1 (strcasecmp_zero_iff w b ltac:(no_NUL))) in Hz;
               try (rewrite Hw in Hz; discriminate Hz)
             | try (exfalso; apply Hz;
                    apply (proj2 (strcasecmp_zero_iff w b ltac:(no_NUL))); exact Hw) ]
         end.

Section Redundant.
Context {E : External}.

Lemma store_twice : forall st i x, same_state (store (store st i x) i x) (store st i x).
Proof.
  intros st i x. repeat split. intros j.
  unfold store, set_config, set_v. cbn [config].
  now destruct (item_eqb i j).
Qed.

Lemma same_state_refl : forall st, same_state st st.
Proof. intros st. repeat split. Qed.

(** The tests that follow [parseBool] in the blocks of IGNORE_LOCALHOST and
    ANALYZE_ONLY_A_AND_AAAA change nothing: each block leaves the state
    that the plain sequence of [parseFTLconf] and [parseBool] leaves. *)
Theorem legacy_second_test_changes_nothing : forall (fp : FILE) (st : state),
  same_state (legacy_IGNORE_LOCALHOST fp st)
             (legacy_bool "IGNORE_LOCALHOST" dns_ignoreLocalhost fp st) /\
  same_state (legacy_ANALYZE_ONLY_A_AND_AAAA fp st)
             (legacy_bool "ANALYZE_ONLY_A_AND_AAAA" dns_analyzeOnlyAandAAAA fp st).
Proof.
  intros fp st. split.
  - unfold legacy_IGNORE_LOCALHOST, legacy_bool.
    destruct (parseFTLconf fp "IGNORE_LOCALHOST") as [b|]; [|apply same_state_refl].
    destruct (Z.eqb_spec (strcasecmp b "yes") 0) as [Hy|Hy]; [|apply same_state_refl].
    assert (Hb : parseBool (Some b) = Some true).
    { apply parseBool_true_word. now right. }
    rewrite Hb. apply store_twice.
  - unfold legacy_ANALYZE_ONLY_A_AND_AAAA, legacy_bool.
    destruct (parseFTLconf fp "ANALYZE_ONLY_A_AND_AAAA") as [b|]; [|apply same_state_refl].
    destruct (Z.eqb_spec (strcasecmp b "true") 0) as [Hy|Hy]; [|apply same_state_refl].
    assert (Hb : parseBool (Some b) = Some true).
    { apply parseBool_true_word. now left. }
    rewrite Hb. apply store_twice.
Qed.

Lemma legacy_bool_sets : forall key i fp st b,
  parseBool (parseFTLconf fp key) = Some b ->
  cur (legacy_bool key i fp st) i = V_bool b.
Proof.
  intros key i fp st b Hb. unfold legacy_bool. rewrite Hb. apply cur_store_same.
Qed.

Lemma legacy_IGNORE_LOCALHOST_sets : forall fp st b,
  parseBool (parseFTLconf fp "IGNORE_LOCALHOST") = Some b ->
  cur (legacy_IGNORE_LOCALHOST fp st) dns_ignoreLocalhost = V_bool b.
Proof.
  intros fp st b Hb. unfold legacy_IGNORE_LOCALHOST. rewrite Hb.
  destruct (parseFTLconf fp "IGNORE_LOCALHOST") as [w|]; [|discriminate Hb].
  destruct (Z.eqb_spec (strcasecmp w "yes") 0) as [Hy|Hy];
    rewrite cur_store_same; [|reflexivity].
  rewrite (parseBool_true_word w (or_intror Hy)) in Hb. now inversion Hb.
Qed.

Lemma legacy_ANALYZE_ONLY_A_AND_AAAA_sets : forall fp st b,
  parseBool (parseFTLconf fp "ANALYZE_ONLY_A_AND_AAAA") = Some b ->
  cur (legacy_ANALYZE_ONLY_A_AND_AAAA fp st) dns_analyzeOnlyAandAAAA = V_bool b.
Proof.
  intros fp st b Hb. unfold legacy_ANALYZE_ONLY_A_AND_AAAA. rewrite Hb.
  destruct (parseFTLconf fp "ANALYZE_ONLY_A_AND_AAAA") as [w|]; [|discriminate Hb].
  destruct (Z.eqb_spec (strcasecmp w "true") 0) as [Hy|Hy];
    rewrite cur_store_same; [|reflexivity].
  rewrite (parseBool_true_word w (or_introl Hy)) in Hb. now inversion Hb.
Qed.

Lemma legacy_path_sets : forall key i fp st buffer c s,
  parseFTLconf fp key = Some buffer -> skip_space buffer = String c s ->
  cur (legacy_path key i fp st) i = V_str (Some (read_word 127 (String c s))).
Proof.
  intros key i fp st buffer c s Hbuf Hskip. unfold legacy_path.
  destruct (getPath fp key (get_s (cur st i)) st) as [p st1] eqn:Hp.
  rewrite cur_store_same. f_equal.
  unfold getPath, sscanf_ms in Hp. rewrite Hbuf, Hskip in Hp.
  change (negb (1 =? 1)) with false in Hp. cbv iota in Hp.
  destruct (strlen (read_word 127 (String c s)) =? 0)%nat; now inversion Hp.
Qed.

Lemma enum_BLOCKINGMODE : forall fs fp st buffer word x,
  parseFTLconf fp "BLOCKINGMODE" = Some buffer ->
  In (word, x) [("NXDOMAIN", V_blocking_mode MODE_NX);
                ("NULL", V_blocking_mode MODE_NULL);
                ("IP-NODATA-AAAA", V_blocking_mode MODE_IP_NODATA_AAAA);
                ("IP", V_blocking_mode MODE_IP);
                ("NODATA", V_blocking_mode MODE_NODATA)] ->
  lower_case (c_str buffer) = lower_case word ->
  cur (getBlockingModeLegacy fs (Some fp) st) dns_blockingmode = x.
Proof.
  intros fs fp st buffer word x Hkey Hin Hw. unfold getBlockingModeLegacy.
  rewrite Hkey. cbn [In] in Hin.
  repeat (destruct Hin as [Hin|Hin];
          [inversion Hin; subst word x; clear Hin; word_chain buffer Hw;
           apply cur_store_same|]).
  destruct Hin.
Qed.

Lemma enum_REFRESH_HOSTNAMES : forall fp st buffer word x,
  parseFTLconf fp "REFRESH_HOSTNAMES" = Some buffer ->
  In (word, x) [("ALL", V_refresh_hostnames REFRESH_ALL);
                ("NONE", V_refresh_hostnames REFRESH_NONE);
                ("UNKNOWN", V_refresh_hostnames REFRESH_UNKNOWN)] ->
  lower_case (c_str buffer) = lower_case word ->
  cur (legacy_REFRESH_HOSTNAMES fp st) resolver_refreshNames = x.
Proof.
  intros fp st buffer word x Hkey Hin Hw. unfold legacy_REFRESH_HOSTNAMES.
  rewrite Hkey. cbv zeta. cbn [In] in Hin.
  repeat (destruct Hin as [Hin|Hin];
          [inversion Hin; subst word x; clear Hin; word_chain buffer Hw;
           apply cur_store_same|]).
  destruct Hin.
Qed.

Lemma enum_PIHOLE_PTR : forall fp st buffer word x,
  parseFTLconf fp "PIHOLE_PTR" = Some buffer ->
  In (word, x) [("none", V_ptr_type PTR_NONE);
                ("false", V_ptr_type PTR_NONE);
                ("hostname", V_ptr_type PTR_HOSTNAME);
                ("hostnamefqdn", V_ptr_type PTR_HOSTNAMEFQDN)] ->
  lower_case (c_str buffer) = lower_case word ->
  cur (legacy_PIHOLE_PTR fp st) dns_piholePTR = x.
Proof.
  intros fp st buffer word x Hkey Hin Hw. unfold legacy_PIHOLE_PTR.
  rewrite Hkey. cbn [In] in Hin.
  repeat (destruct Hin as [Hin|Hin];
          [inversion Hin; subst word x; clear Hin; word_chain buffer Hw;
           cbn [orb]; apply cur_store_same|]).
  destruct Hin.
Qed.

Lemma enum_REPLY_WHEN_BUSY : forall fp st buffer word x,
  parseFTLconf fp "REPLY_WHEN_BUSY" = Some buffer ->
  In (word, x) [("DROP", V_busy_reply BUSY_DROP);
                ("REFUSE", V_busy_reply BUSY_REFUSE);
                ("BLOCK", V_busy_reply BUSY_BLOCK)] ->
  lower_case (c_str buffer) = lower_case word ->
  cur (legacy_REPLY_WHEN_BUSY fp st) dns_replyWhenBusy = x.
Proof.
  intros fp st buffer word x Hkey Hin Hw. unfold legacy_REPLY_WHEN_BUSY.
  rewrite Hkey. cbn [In] in Hin.
  repeat (destruct Hin as [Hin|Hin];
          [inversion Hin; subst word x; clear Hin; word_chain buffer Hw;
           apply cur_store_same|]).
  destruct Hin.
Qed.

(** Every boolean key, every path key and every enum key sets its item:
    after a legacy load, the item of a boolean key whose value is one of
    the four words holds the word's truth value, the item of a path key
    whose value has a word holds that word, and the item of an enum key
    whose value is one of the words of the key, in any letter case, holds
    the value the word stands for, whatever the item held before and
    whatever else the file holds. *)
Theorem legacy_keys_set_items :
  forall (ind : indeterminate) (fs : filesystem) (fp : FILE) (path : string) (st : state)
         (i : item) (key : string),
    openFTLconf fs = (Some fp, path) ->
    (bool_key i = Some key ->
     forall b, parseBool (parseFTLconf fp key) = Some b ->
               cur (snd (readFTLlegacy ind fs st)) i = V_bool b) /\
    (path_key i = Some key ->
     forall buffer c s,
       parseFTLconf fp key = Some buffer -> skip_space buffer = String c s ->
       cur (snd (readFTLlegacy ind fs st)) i = V_str (Some (read_word 127 (String c s)))) /\
    (forall words word x buffer,
       enum_words i = Some (key, words) -> In (word, x) words ->
       parseFTLconf fp key = Some buffer ->
       lower_case (c_str buffer) = lower_case word ->
       cur (snd (readFTLlegacy ind fs st)) i = x).
Proof.
  intros ind fs fp path st i key Hopen. split; [|split].
  - intros Hkey b Hb. unfold readFTLlegacy. rewrite Hopen. cbv zeta. cbn [snd].
    destruct i; cbn [bool_key] in Hkey; try discriminate Hkey;
      inversion Hkey; subst key; clear Hkey;
      revert Hb; repeat legacy_step; intros Hb;
      first [ now apply legacy_bool_sets
            | now apply legacy_IGNORE_LOCALHOST_sets
            | now apply legacy_ANALYZE_ONLY_A_AND_AAAA_sets ].
  - intros Hkey buffer c s Hbuf Hskip.
    unfold readFTLlegacy. rewrite Hopen. cbv zeta. cbn [snd].
    destruct i; cbn [path_key] in Hkey; try discriminate Hkey;
      inversion Hkey; subst key; clear Hkey;
      repeat legacy_step; now apply (legacy_path_sets _ _ _ _ buffer).
  - intros words word x buffer Hkey Hin Hbuf Hw.
    unfold readFTLlegacy. rewrite Hopen. cbv zeta. cbn [snd].
    destruct i; cbn [enum_words] in Hkey; try discriminate Hkey;
      inversion Hkey; subst key words; clear Hkey; repeat legacy_step;
      first [ now apply (enum_BLOCKINGMODE _ _ _ buffer word)
            | now apply (enum_PIHOLE_PTR _ _ buffer word)
            | now apply (enum_REPLY_WHEN_BUSY _ _ buffer word)
            | now apply (enum_REFRESH_HOSTNAMES _ _ buffer word) ].
Qed.

End Redundant.
End LegacyValues.

(* ================================================================== *)
(** * Properties: lines of the legacy file, the rate limit, indentation *)
(* ================================================================== *)

Module LegacyLookup.

Import Legacy Frame Handlers DefaultStands LegacyKeys Queries QuotedText LegacyValues.

(** ** Lines *)

Lemma getlines_line : forall l acc rest,
  one_line l ->
  getlines acc (l ++ String LF rest)
  = (acc ++ l ++ String LF EmptyString) :: getlines EmptyString rest.
Proof.
  induction l as [|c l IH]; intros acc rest Hl; [reflexivity|].
  cbn [append getlines].
  destruct (Ascii.eqb_spec c LF) as [->|Hc]; [elim Hl; now left|].
  rewrite IH by (intros Hin; apply Hl; now right).
  now rewrite append_assoc.
Qed.

Lemma is_comment_first : forall l,
  is_comment l
  = (let first := match c_str l with String c _ => c | EmptyString => NUL end in
     Ascii.eqb first "#" || Ascii.eqb first ";")%bool.
Proof. intros l. unfold is_comment. now destruct (c_str l). Qed.

(** The lookup goes through the file line by line: a comment line and a
    line without KEY= are passed over, and the first other line decides,
    whatever follows it; so of two lines for a key the first one counts.
    A file without lines has no key. *)
Theorem parseFTLconf_first_match_wins : forall (key l rest : string),
  one_line l ->
  let first := l ++ String LF EmptyString in
  (is_comment first = true ->
   parseFTLconf (first ++ rest) key = parseFTLconf rest key) /\
  (strstr (c_str first) (key ++ "=") = None ->
   parseFTLconf (first ++ rest) key = parseFTLconf rest key) /\
  (is_comment first = false -> strstr (c_str first) (key ++ "=") <> None ->
   parseFTLconf (first ++ rest) key <> None /\
   forall rest', parseFTLconf (first ++ rest') key = parseFTLconf (first ++ rest) key) /\
  parseFTLconf EmptyString key = None.
Proof.
  intros key l rest Hl. cbv zeta.
  assert (Hlines : forall r,
            parseFTLconf ((l ++ String LF EmptyString) ++ r) key
            = parseFTLconf_loop (key ++ "=")
                ((l ++ String LF EmptyString) :: getlines EmptyString r)).
  { intros r. unfold parseFTLconf. rewrite append_assoc. cbn [append].
    now rewrite getlines_line. }
  split; [|split; [|split; [|reflexivity]]].
  - intros Hc. rewrite Hlines. cbn [parseFTLconf_loop].
    rewrite is_comment_first in Hc. cbv zeta in *. now rewrite Hc.
  - intros Hs. rewrite Hlines. cbn [parseFTLconf_loop]. cbv zeta. rewrite Hs.
    now destruct (_ || _)%bool.
  - intros Hc Hs. rewrite is_comment_first in Hc. cbv zeta in Hc.
    assert (Hone : forall r,
              parseFTLconf ((l ++ String LF EmptyString) ++ r) key
              = Some (trim_whitespace
                        (next_char (find_equals (c_str (l ++ String LF EmptyString)))))).
    { intros r. rewrite Hlines. cbn [parseFTLconf_loop]. cbv zeta. rewrite Hc.
      destruct (strstr (c_str (l ++ String LF EmptyString)) (key ++ "="));
        [reflexivity|contradiction]. }
    split; [rewrite Hone; discriminate|].
    intros rest'. now rewrite !Hone.
Qed.

(** ** RATE_LIMIT *)

Lemma read_digits_rest : forall base s acc n c,
  In c (list_ascii_of_string (snd (read_digits base s acc n))) ->
  In c (list_ascii_of_string s).
Proof.
  intros base s; induction s as [|x s IH]; intros acc n c H; [exact H|].
  cbn [read_digits] in H. destruct (digit_val base x); [|exact H].
  right. now apply (IH _ _ _ H).
Qed.

Lemma read_sign_rest : forall s c,
  In c (list_ascii_of_string (snd (read_sign s))) -> In c (list_ascii_of_string s).
Proof.
  intros [|x s] c H; [exact H|].
  unfold read_sign in H.
  destruct x as [[|] [|] [|] [|] [|] [|] [|] [|]]; cbn [snd] in H;
    first [exact H | now right].
Qed.

Lemma scan_number_rest : forall s c,
  In c (list_ascii_of_string (snd (scan_number false false s))) ->
  In c (list_ascii_of_string s).
Proof.
  intros s c H. unfold scan_number in H.
  destruct (skip_space s) as [|x s1] eqn:Hs; [destruct H|].
  apply skip_space_chars. rewrite Hs.
  destruct (read_sign (String x s1)) as [neg s2] eqn:Hsign.
  destruct (read_digits 10 s2 0 0) as [[m n] rest] eqn:Hd.
  assert (Hrest : In c (list_ascii_of_string rest) ->
                  In c (list_ascii_of_string (String x s1))).
  { intros Hin. apply read_sign_rest. rewrite Hsign. cbn [snd].
    apply (read_digits_rest 10 s2 0 0). now rewrite Hd. }
  destruct n; cbn [snd] in H; [exact H|now apply Hrest].
Qed.

(** [sscanf] with the format of RATE_LIMIT returns 2 only on a buffer that
    has a slash. *)
Lemma sscanf_u_slash_u_two : forall buffer c0 i0 ret count interval,
  sscanf_u_slash_u buffer c0 i0 = (ret, count, interval) ->
  ret = 2 -> In "/"%char (list_ascii_of_string buffer).
Proof.
  intros buffer c0 i0 ret count interval H Hret. subst ret.
  unfold sscanf_u_slash_u in H.
  destruct (scan_number false false buffer) as [r rest] eqn:Hscan.
  destruct r as [c| |]; [|discriminate H|discriminate H].
  destruct rest as [|x rest]; [discriminate H|].
  destruct (Ascii.eqb_spec x "/") as [->|Hx].
  - apply scan_number_rest. rewrite Hscan. now left.
  - exfalso.
    destruct x as [[|] [|] [|] [|] [|] [|] [|] [|]]; try discriminate H.
    now elim Hx.
Qed.

Section RateLimit.
Context {E : External}.

(** ** Without a legacy file *)

(** When neither legacy file can be opened, [getPrivacyLevelLegacy] leaves
    the state as it was and [getLogFilePathLegacy] returns false and leaves
    it too; [getBlockingModeLegacy] has by then put the blocking mode back
    to its default, and changes nothing else. *)
Theorem legacy_queries_without_file : forall (fs : filesystem) (st : state),
  local_conf fs = None -> global_conf fs = None ->
  getPrivacyLevelLegacy fs None st = st /\
  getLogFilePathLegacy fs None st = (false, st) /\
  getBlockingModeLegacy fs None st
  = store st dns_blockingmode (V_blocking_mode (get_blocking_mode (dflt st dns_blockingmode))).
Proof.
  intros fs st Hl Hg.
  unfold getPrivacyLevelLegacy, getLogFilePathLegacy, getBlockingModeLegacy, openFTLconf.
  rewrite Hl, Hg. cbn [fst]. repeat split.
Qed.

End RateLimit.

(** ** LOGFILE *)

Section LogFile.
Context {E : External}.

(** [getLogFilePathLegacy] returns true exactly when it has a file to read.
    It never logs, and it writes no item but the log file path, which is
    afterwards the default path when the file has no LOGFILE line, the
    first word of the value when there is one, [NULL] when the value holds
    no word, and the path from before the call when no file was found. *)
Theorem getLogFilePathLegacy_cases :
  forall (fs : filesystem) (fp : option FILE) (st : state),
    let r := getLogFilePathLegacy fs fp st in
    logged (snd r) = logged st /\
    (forall i, i <> files_log -> cur (snd r) i = cur st i) /\
    match file_used fs fp with
    | None => fst r = false /\ cur (snd r) files_log = cur st files_log
    | Some f =>
        fst r = true /\
        match parseFTLconf f "LOGFILE" with
        | None => cur (snd r) files_log = V_str (Some "/var/log/pihole/FTL.log")
        | Some buffer =>
            match skip_space buffer with
            | EmptyString => cur (snd r) files_log = V_str None
            | String c s =>
                cur (snd r) files_log = V_str (Some (read_word 127 (String c s)))
            end
        end
    end.
Proof.
  intros fs fp st. cbv zeta. unfold getLogFilePathLegacy, file_used.
  destruct (match fp with Some f => Some f | None => fst (openFTLconf fs) end) as [f|];
    [|repeat split].
  destruct (parseFTLconf f "LOGFILE") as [buffer|].
  - unfold sscanf_ms. destruct (skip_space buffer) as [|c s].
    + change (EOF =? 0) with false. cbv iota. cbn [fst snd].
      split; [reflexivity|]. split; [|split; [reflexivity|apply cur_store_same]].
      intros i Hi. apply cur_store_other. apply item_eqb_neq. now apply not_eq_sym.
    + change (1 =? 0) with false. cbv iota. cbn [fst snd].
      split; [reflexivity|]. split; [|split; [reflexivity|apply cur_store_same]].
      intros i Hi. apply cur_store_other. apply item_eqb_neq. now apply not_eq_sym.
  - cbn [fst snd]. split; [reflexivity|].
    split; [|split; [reflexivity|apply cur_store_same]].
    intros i Hi. apply cur_store_other. apply item_eqb_neq. now apply not_eq_sym.
Qed.

End LogFile.

(** ** Indentation *)

Lemma indent_loop_add : forall a b,
  indent_loop (a + b) = indent_loop a ++ indent_loop b.
Proof.
  induction a as [|a IH]; intros b; [reflexivity|].
  cbn [Nat.add indent_loop append]. now rewrite IH.
Qed.

Lemma indent_loop_length : forall n, String.length (indent_loop n) = n.
Proof. induction n as [|n IH]; [reflexivity|]. cbn. now rewrite IH. Qed.

(** Up to 2^31 - 1 levels, [indentTOML] writes two characters for each
    level, so the indentation of [a + b] levels is that of [a] levels
    followed by that of [b] levels; at 2^31 levels the count wraps around
    and nothing is written. *)
Theorem indentTOML_adds_up : forall a b : Z,
  0 <= a -> 0 <= b -> a + b < 2 ^ 31 ->
  indentTOML (a + b) = indentTOML a ++ indentTOML b /\
  String.length (indentTOML a) = Z.to_nat (2 * a) /\
  indentTOML (2 ^ 31) = EmptyString.
Proof.
  intros a b Ha Hb Hab. change (2 ^ 31) with 2147483648 in *.
  assert (Hw : forall x, 0 <= x < 2147483648 ->
            Z.to_nat (wrap_u32 (2 * wrap_u32 x)) = Z.to_nat (2 * x)).
  { intros x Hx. unfold wrap_u32. change (2 ^ 32) with 4294967296.
    rewrite (Z.mod_small x) by lia. now rewrite Z.mod_small by lia. }
  unfold indentTOML. rewrite !Hw by lia.
  split; [|split; [apply indent_loop_length|reflexivity]].
  rewrite <- indent_loop_add. f_equal. lia.
Qed.

End LegacyLookup.

(* ================================================================== *)
(** * Properties: the numbers of the legacy file *)
(* ================================================================== *)

Module LegacyNumbers.

Import Legacy Frame Handlers DefaultStands LegacyKeys LegacyLookup.

Section Numbers.
Context {E : External}.

(** ** One handler *)

Lemma legacy_DELAY_STARTUP_number : forall ind fp st buffer n,
  parseFTLconf fp "DELAY_STARTUP" = Some buffer -> sscanf_u buffer = Assigned n ->
  legacy_DELAY_STARTUP ind fp st
  = if (0 <? n) && (n <=? 300) then store st misc_delay_startup (set_ui n) else st.
Proof.
  intros ind fp st buffer n Hkey Hscan. unfold legacy_DELAY_STARTUP.
  rewrite Hkey, Hscan. cbn [scan_ret scan_store]. change (negb (1 =? 0)) with true.
  now rewrite Z.gtb_ltb.
Qed.

Lemma legacy_API_SESSION_TIMEOUT_number : forall fp st buffer n,
  parseFTLconf fp "API_SESSION_TIMEOUT" = Some buffer -> sscanf_i buffer = Assigned n ->
  legacy_API_SESSION_TIMEOUT fp st
  = if 0 <? n then store st http_sessionTimeout (set_ui n) else st.
Proof.
  intros fp st buffer n Hkey Hscan. unfold legacy_API_SESSION_TIMEOUT.
  rewrite Hkey, Hscan. cbn [scan_ret scan_store]. change (negb (1 =? 0)) with true.
  now rewrite Z.gtb_ltb.
Qed.

Lemma legacy_MAXNETAGE_number : forall fp st buffer n,
  parseFTLconf fp "MAXNETAGE" = Some buffer -> sscanf_i buffer = Assigned n ->
  fst (legacy_MAXNETAGE fp st)
  = if (0 <? n) && (n <=? 8760) then store st database_network_expire (set_ui n) else st.
Proof.
  intros fp st buffer n Hkey Hscan. unfold legacy_MAXNETAGE.
  rewrite Hkey, Hscan. cbn [scan_ret scan_store]. change (negb (1 =? 0)) with true.
  rewrite Z.gtb_ltb. cbn [andb]. now destruct ((0 <? n) && (n <=? 8760)).
Qed.

Lemma legacy_BLOCK_TTL_number : forall fp st buffer n,
  parseFTLconf fp "BLOCK_TTL" = Some buffer -> sscanf_u buffer = Assigned n ->
  cur (legacy_BLOCK_TTL fp st) dns_blockTTL = set_ui n.
Proof.
  intros fp st buffer n Hkey Hscan. unfold legacy_BLOCK_TTL.
  rewrite Hkey, Hscan. cbn [scan_ret scan_store]. change (1 =? 0) with false.
  cbv iota. apply cur_store_same.
Qed.

Lemma legacy_CHECK_SHMEM_number : forall iv fp st buffer n,
  parseFTLconf fp "CHECK_SHMEM" = Some buffer -> sscanf_i buffer = Assigned n ->
  cur (fst (legacy_CHECK_SHMEM iv fp st)) misc_check_shmem
  = if (0 <=? n) && (n <=? 100) then set_ui n else set_ui 90.
Proof.
  intros iv fp st buffer n Hkey Hscan. unfold legacy_CHECK_SHMEM.
  rewrite Hkey, Hscan. cbn [scan_ret scan_store]. change (negb (1 =? 0)) with true.
  rewrite Z.geb_leb. cbn [andb].
  destruct ((0 <=? n) && (n <=? 100)); cbn [fst]; apply cur_store_same.
Qed.

Lemma legacy_CHECK_DISK_number : forall iv fp st buffer n,
  parseFTLconf fp "CHECK_DISK" = Some buffer -> sscanf_i buffer = Assigned n ->
  cur (fst (legacy_CHECK_DISK iv fp st)) misc_check_disk
  = if (0 <=? n) && (n <=? 100) then set_b_of_int n else set_b_of_int 90.
Proof.
  intros iv fp st buffer n Hkey Hscan. unfold legacy_CHECK_DISK.
  rewrite Hkey, Hscan. cbn [scan_ret scan_store]. change (negb (1 =? 0)) with true.
  rewrite Z.geb_leb. cbn [andb].
  destruct ((0 <=? n) && (n <=? 100)); cbn [fst]; apply cur_store_same.
Qed.

Lemma legacy_CHECK_DISK_absent : forall iv fp st,
  parseFTLconf fp "CHECK_DISK" = None ->
  cur (fst (legacy_CHECK_DISK iv fp st)) misc_check_disk = set_b_of_int 90.
Proof.
  intros iv fp st Hkey. unfold legacy_CHECK_DISK. rewrite Hkey. cbn [fst].
  apply cur_store_same.
Qed.

(** ** The whole load *)

Lemma legacy_RATE_LIMIT_number : forall fp st buffer ret count interval,
  parseFTLconf fp "RATE_LIMIT" = Some buffer ->
  sscanf_u_slash_u buffer 0 0 = (ret, count, interval) ->
  legacy_RATE_LIMIT fp st
  = if ret =? 2
    then store (store st dns_rateLimit_count (set_ui count))
               dns_rateLimit_interval (set_ui interval)
    else st.
Proof.
  intros fp st buffer ret count interval Hkey Hscan. unfold legacy_RATE_LIMIT.
  now rewrite Hkey, Hscan.
Qed.

(** A number under a numeric key is stored when it passes the test of its
    handler and ignored when it does not: DELAY_STARTUP takes 1 to 300,
    API_SESSION_TIMEOUT every number above 0, MAXNETAGE 1 to 8760, and any
    other number leaves the item as it was before the load; CHECK_SHMEM
    takes 0 to 100 and any other number leaves the 90 the handler starts
    from; BLOCK_TTL takes every number.  RATE_LIMIT sets the count and the
    interval together or not at all: both are stored when [sscanf] converts
    two numbers, which takes a slash in the value, and a value such as a
    lone count leaves both as they were. *)
Theorem legacy_numbers_stored_or_ignored :
  forall (ind : indeterminate) (fs : filesystem) (fp : FILE) (path : string) (st : state)
         (buffer : string) (n : Z),
    openFTLconf fs = (Some fp, path) ->
    let st' := snd (readFTLlegacy ind fs st) in
    (parseFTLconf fp "DELAY_STARTUP" = Some buffer -> sscanf_u buffer = Assigned n ->
     cur st' misc_delay_startup
     = if (0 <? n) && (n <=? 300) then set_ui n else cur st misc_delay_startup) /\
    (parseFTLconf fp "API_SESSION_TIMEOUT" = Some buffer -> sscanf_i buffer = Assigned n ->
     cur st' http_sessionTimeout
     = if 0 <? n then set_ui n else cur st http_sessionTimeout) /\
    (parseFTLconf fp "MAXNETAGE" = Some buffer -> sscanf_i buffer = Assigned n ->
     cur st' database_network_expire
     = if (0 <? n) && (n <=? 8760) then set_ui n else cur st database_network_expire) /\
    (parseFTLconf fp "CHECK_SHMEM" = Some buffer -> sscanf_i buffer = Assigned n ->
     cur st' misc_check_shmem = if (0 <=? n) && (n <=? 100) then set_ui n else set_ui 90) /\
    (parseFTLconf fp "BLOCK_TTL" = Some buffer -> sscanf_u buffer = Assigned n ->
     cur st' dns_blockTTL = set_ui n) /\
    (parseFTLconf fp "RATE_LIMIT" = Some buffer ->
     forall ret count interval,
       sscanf_u_slash_u buffer 0 0 = (ret, count, interval) ->
       (ret = 2 ->
        In "/"%char (list_ascii_of_string buffer) /\
        cur st' dns_rateLimit_count = set_ui count /\
        cur st' dns_rateLimit_interval = set_ui interval) /\
       (ret <> 2 ->
        cur st' dns_rateLimit_count = cur st dns_rateLimit_count /\
        cur st' dns_rateLimit_interval = cur st dns_rateLimit_interval)).
Proof.
  intros ind fs fp path st buffer n Hopen. cbv zeta.
  unfold readFTLlegacy. rewrite Hopen. cbv zeta. cbn [snd].
  split; [|split; [|split; [|split; [|split]]]].
  - intros Hkey Hscan. repeat legacy_step.
    rewrite (legacy_DELAY_STARTUP_number ind fp _ buffer n Hkey Hscan).
    destruct ((0 <? n) && (n <=? 300)); [apply cur_store_same|].
    now repeat legacy_step.
  - intros Hkey Hscan. repeat legacy_step.
    rewrite (legacy_API_SESSION_TIMEOUT_number fp _ buffer n Hkey Hscan).
    destruct (0 <? n); [apply cur_store_same|].
    now repeat legacy_step.
  - intros Hkey Hscan. repeat legacy_step.
    rewrite (legacy_MAXNETAGE_number fp _ buffer n Hkey Hscan).
    destruct ((0 <? n) && (n <=? 8760)); [apply cur_store_same|].
    now repeat legacy_step.
  - intros Hkey Hscan. repeat legacy_step.
    apply (legacy_CHECK_SHMEM_number _ fp _ buffer n Hkey Hscan).
  - intros Hkey Hscan. repeat legacy_step.
    apply (legacy_BLOCK_TTL_number fp _ buffer n Hkey Hscan).
  - intros Hkey ret count interval Hscan. split; intros Hret.
    + split; [exact (sscanf_u_slash_u_two _ _ _ _ _ _ Hscan Hret)|].
      subst ret. split; repeat legacy_step;
        rewrite (legacy_RATE_LIMIT_number fp _ buffer 2 count interval Hkey Hscan);
        change (2 =? 2) with true; cbv iota.
      * now rewrite cur_store_other, cur_store_same by reflexivity.
      * now rewrite cur_store_same.
    + apply Z.eqb_neq in Hret. split; repeat legacy_step;
        rewrite (legacy_RATE_LIMIT_number fp _ buffer ret count interval Hkey Hscan), Hret;
        now repeat legacy_step.
Qed.

(** The disk limit is written through the [bool] member of the value: after
    a legacy load the item holds only whether the limit is zero or not.  A
    limit from 1 to 100 is stored as true, as is the 90 the handler starts
    from when the key is absent or its number is out of range; 0 is stored
    as false.  So two different limits leave the same value. *)
Theorem CHECK_DISK_keeps_only_nonzero :
  forall (ind : indeterminate) (fs : filesystem) (fp : FILE) (path : string) (st : state),
    openFTLconf fs = (Some fp, path) ->
    let st' := snd (readFTLlegacy ind fs st) in
    (parseFTLconf fp "CHECK_DISK" = None -> cur st' misc_check_disk = V_bool true) /\
    (forall buffer n,
       parseFTLconf fp "CHECK_DISK" = Some buffer -> sscanf_i buffer = Assigned n ->
       cur st' misc_check_disk = V_bool (negb (n =? 0) || (100 <? n))).
Proof.
  intros ind fs fp path st Hopen. cbv zeta.
  unfold readFTLlegacy. rewrite Hopen. cbv zeta. cbn [snd]. split.
  - intros Hkey. repeat legacy_step. now rewrite legacy_CHECK_DISK_absent.
  - intros buffer n Hkey Hscan. repeat legacy_step.
    rewrite (legacy_CHECK_DISK_number _ fp _ buffer n Hkey Hscan).
    unfold set_b_of_int.
    destruct (Z.leb_spec 0 n) as [Hlo|Hlo]; destruct (Z.leb_spec n 100) as [Hhi|Hhi];
      cbn [andb].
    + rewrite (proj2 (Z.ltb_ge 100 n)) by lia. now rewrite orb_false_r.
    + rewrite (proj2 (Z.ltb_lt 100 n)) by lia. now rewrite orb_true_r.
    + rewrite (proj2 (Z.eqb_neq n 0)) by lia. reflexivity.
    + lia.
Qed.

End Numbers.
End LegacyNumbers.

(* ================================================================== *)
(** * Worked inputs, continued *)
(* ================================================================== *)

Module WorkedMore.

Import Legacy TomlReader Reference.
Import PrinterShape ValueShape Queries LegacyInvariants LegacyRanges LegacyValues LegacyLookup.
Import LegacyNumbers.

(** ** The structured file *)

Lemma getPrivacyLevel_takes_document_level_witness :
  let text := line "[misc]" ++ line "privacyLevel = 2" in
  let misc := toml_table [("privacyLevel", "2")] [] in
  let conf := toml_table [] [("misc", misc)] in
  let st := startup_with misc_privacylevel (V_w32 3) in
  (openFTLtoml_r (toml_file text) = Some text /\
   toml_parse_file text = inl conf /\
   toml_table_in conf "misc" = Some misc /\
   toml_int_in misc "privacyLevel" = Some 2 /\
   PRIVACY_SHOW_ALL <= 2 <= PRIVACY_MAXIMUM) /\
  level st = 3 /\
  level (snd (getPrivacyLevel (toml_file text) st)) = 2.
Proof.
  cbv zeta. split; [repeat split; discriminate|]. split; [reflexivity|].
  unshelve eapply (proj1 (proj2 (getPrivacyLevel_takes_document_level
                         (toml_file (line "[misc]" ++ line "privacyLevel = 2"))
                         (startup_with misc_privacylevel (V_w32 3))
                         (line "[misc]" ++ line "privacyLevel = 2")
                         (toml_table [] [("misc", toml_table [("privacyLevel", "2")] [])])
                         (toml_table [("privacyLevel", "2")] []) 2
                         _ _ _ _)));
    first [reflexivity | split; discriminate].
Defined.

Lemma getBlockingMode_takes_document_mode_witness :
  let text := line "[dns]" ++ line ("blockingmode = " ++ quoted "null") in
  let dns := toml_table [("blockingmode", quoted "null")] [] in
  let conf := toml_table [] [("dns", dns)] in
  (openFTLtoml_r (toml_file text) = Some text /\
   toml_parse_file text = inl conf /\
   toml_table_in conf "dns" = Some dns /\
   toml_string_in dns "blockingmode" = Some "null" /\
   get_blocking_mode_val "null" = Some MODE_NULL) /\
  cur (snd (getBlockingMode (toml_file text) startup)) dns_blockingmode
  = V_blocking_mode MODE_NULL.
Proof.
  cbv zeta. split; [repeat split|].
  unshelve eapply (proj1 (proj2 (getBlockingMode_takes_document_mode
                         (toml_file (line "[dns]" ++ line ("blockingmode = " ++ quoted "null")))
                         startup
                         (line "[dns]" ++ line ("blockingmode = " ++ quoted "null"))
                         (toml_table [] [("dns", toml_table [("blockingmode", quoted "null")] [])])
                         (toml_table [("blockingmode", quoted "null")] []) "null"
                         _ _ _ _)));
    first [reflexivity | split; discriminate].
Defined.

Lemma getLogFilePathTOML_takes_document_path_witness :
  let text := line "[files]" ++ line ("log = " ++ quoted "/tmp/FTL.log") in
  let files := toml_table [("log", quoted "/tmp/FTL.log")] [] in
  let conf := toml_table [] [("files", files)] in
  (openFTLtoml_r (toml_file text) = Some text /\
   toml_parse_file text = inl conf /\
   toml_table_in conf "files" = Some files /\
   toml_string_in files "log" = Some "/tmp/FTL.log" /\
   cur startup files_log = V_str (Some "/var/log/pihole/FTL.log")) /\
  exists st' p,
    getLogFilePathTOML (toml_file text) startup = Some (true, st') /\
    cur st' files_log = V_str (Some p) /\ c_str p = c_str "/tmp/FTL.log".
Proof.
  cbv zeta. split; [repeat split|].
  unshelve eapply (getLogFilePathTOML_takes_document_path
           (toml_file (line "[files]" ++ line ("log = " ++ quoted "/tmp/FTL.log")))
           startup
           (line "[files]" ++ line ("log = " ++ quoted "/tmp/FTL.log"))
           (toml_table [] [("files", toml_table [("log", quoted "/tmp/FTL.log")] [])])
           (toml_table [("log", quoted "/tmp/FTL.log")] [])
           "/tmp/FTL.log" "/var/log/pihole/FTL.log"
           _ _ _ _ _);
    first [reflexivity | split; discriminate].
Defined.

Lemma preload_queries_write_one_item_witness :
  let fs := toml_file (line "[misc]" ++ line "privacyLevel = 2") in
  files_log <> misc_privacylevel /\
  cur (snd (getPrivacyLevel fs startup)) files_log = cur startup files_log.
Proof.
  cbv zeta. split; [discriminate|].
  apply (proj1 (preload_queries_write_one_item
                  (toml_file (line "[misc]" ++ line "privacyLevel = 2")) startup files_log)).
  discriminate.
Defined.

(** ** The legacy file *)

Lemma readFTLlegacy_file_choice_witness :
  let fs := mk_filesystem (Some (line "BLOCK_TTL=7")) (Some (line "BLOCK_TTL=9")) None None in
  local_conf fs = Some (line "BLOCK_TTL=7") /\
  fst (readFTLlegacy zeroed fs startup) = Some "pihole-FTL.conf".
Proof.
  cbv zeta. split; [reflexivity|].
  unshelve eapply (proj1 (proj2 (proj2 (readFTLlegacy_file_choice zeroed
           (mk_filesystem (Some (line "BLOCK_TTL=7")) (Some (line "BLOCK_TTL=9")) None None)
           startup))) (line "BLOCK_TTL=7") _);
    first [reflexivity | split; discriminate].
Defined.

Lemma within_startup_level : within PRIVACY_SHOW_ALL PRIVACY_MAXIMUM (level startup).
Proof. split; discriminate. Qed.

Lemma privacy_level_stays_in_range_witness :
  within PRIVACY_SHOW_ALL PRIVACY_MAXIMUM (level startup) /\
  within PRIVACY_SHOW_ALL PRIVACY_MAXIMUM
         (level (snd (readFTLlegacy zeroed (legacy_file (line "PRIVACYLEVEL=7")) startup))).
Proof.
  split; [exact within_startup_level|].
  apply (proj1 (proj2 (proj1 privacy_level_stays_in_range startup within_startup_level))).
Defined.

Lemma within_startup_days :
  within (-1) (INT_MAX / 24 / 60 / 60) (get_i (cur startup database_maxDBdays)).
Proof. split; discriminate. Qed.

Lemma readFTLlegacy_keeps_ranges_witness :
  let fs := legacy_file (line "MAXDBDAYS=999999999") in
  within (-1) (INT_MAX / 24 / 60 / 60) (get_i (cur startup database_maxDBdays)) /\
  within (-1) (INT_MAX / 24 / 60 / 60)
         (get_i (cur (snd (readFTLlegacy zeroed fs startup)) database_maxDBdays)).
Proof.
  cbv zeta. split; [exact within_startup_days|].
  apply (proj1 (readFTLlegacy_keeps_ranges zeroed
                  (legacy_file (line "MAXDBDAYS=999999999")) startup)).
  exact within_startup_days.
Defined.

Lemma readFTLlegacy_database_path_not_empty_witness :
  let fs := legacy_file (line "DBFILE=") in
  fst (readFTLlegacy zeroed fs startup) = Some "/etc/pihole/pihole-FTL.conf" /\
  empty_path (get_s (dflt startup files_database)) = false /\
  empty_path (get_s (cur (snd (readFTLlegacy zeroed fs startup)) files_database)) = false.
Proof.
  cbv zeta. split; [reflexivity|]. split; [reflexivity|].
  apply (readFTLlegacy_database_path_not_empty zeroed (legacy_file (line "DBFILE=")) startup
           "/etc/pihole/pihole-FTL.conf"); reflexivity.
Defined.

Lemma empty_number_keeps_variable_witness :
  let text := line "MAXNETAGE=50" ++ line "CHECK_SHMEM=" in
  openFTLconf (legacy_file text) = (Some text, "/etc/pihole/pihole-FTL.conf") /\
  skip_space EmptyString = EmptyString /\
  parseFTLconf text "CHECK_SHMEM" = Some EmptyString /\
  parseFTLconf text "MAXNETAGE" = Some "50" /\
  sscanf_i "50" = Assigned 50 /\
  0 <= 50 <= 100 /\
  cur (snd (readFTLlegacy zeroed (legacy_file text) startup)) misc_check_shmem = set_ui 50.
Proof.
  cbv zeta. repeat (split; [reflexivity|]). split; [split; discriminate|].
  unshelve eapply (proj2 (proj2 (proj2 (empty_number_keeps_variable zeroed
                  (legacy_file (line "MAXNETAGE=50" ++ line "CHECK_SHMEM="))
                  (line "MAXNETAGE=50" ++ line "CHECK_SHMEM=")
                  "/etc/pihole/pihole-FTL.conf" startup EmptyString
                  _ _)) _) "50" 50 _ _);
    first [reflexivity | split; discriminate].
Defined.

Lemma readFTLlegacy_unset_address_is_zero_witness :
  let fs := legacy_file (line "LOCAL_IPV4=nowhere") in
  let st := startup_with dns_reply_host_v4 (V_in_addr ("001", "002", "003", "004")%char) in
  fst (readFTLlegacy zeroed fs st) = Some "/etc/pihole/pihole-FTL.conf" /\
  get_b (cur (snd (readFTLlegacy zeroed fs st)) dns_reply_host_overwrite_v4) = false /\
  cur (snd (readFTLlegacy zeroed fs st)) dns_reply_host_v4 = V_in_addr in_addr_zero.
Proof.
  cbv zeta. split; [reflexivity|]. split; [reflexivity|].
  unshelve eapply (proj1 (readFTLlegacy_unset_address_is_zero zeroed
                  (legacy_file (line "LOCAL_IPV4=nowhere"))
                  (startup_with dns_reply_host_v4 (V_in_addr ("001", "002", "003", "004")%char))
                  "/etc/pihole/pihole-FTL.conf" _));
    first [reflexivity | split; discriminate].
Defined.

Lemma one_line_comment : one_line "#MAXDBDAYS=1".
Proof.
  unfold one_line. cbn. intros H.
  repeat (destruct H as [H|H]; [discriminate H|]). exact H.
Qed.

Lemma parseFTLconf_first_match_wins_witness :
  one_line "#MAXDBDAYS=1" /\
  is_comment (line "#MAXDBDAYS=1") = true /\
  parseFTLconf (line "#MAXDBDAYS=1" ++ line "MAXDBDAYS=2") "MAXDBDAYS"
  = parseFTLconf (line "MAXDBDAYS=2") "MAXDBDAYS".
Proof.
  split; [exact one_line_comment|]. split; [reflexivity|].
  apply (proj1 (parseFTLconf_first_match_wins "MAXDBDAYS" "#MAXDBDAYS=1"
                  (line "MAXDBDAYS=2") one_line_comment)).
  reflexivity.
Defined.

Lemma legacy_queries_without_file_witness :
  local_conf no_files = None /\ global_conf no_files = None /\
  getLogFilePathLegacy no_files None startup = (false, startup).
Proof.
  split; [reflexivity|]. split; [reflexivity|].
  unshelve eapply (proj1 (proj2 (legacy_queries_without_file no_files startup _ _)));
    first [reflexivity | split; discriminate].
Defined.

Lemma legacy_keys_set_items_witness :
  let text := line "BLOCK_ESNI=No" ++ line "PIDFILE= /run/my pid" in
  openFTLconf (legacy_file text) = (Some text, "/etc/pihole/pihole-FTL.conf") /\
  bool_key dns_blockESNI = Some "BLOCK_ESNI" /\
  parseBool (parseFTLconf text "BLOCK_ESNI") = Some false /\
  cur (snd (readFTLlegacy zeroed (legacy_file text) startup)) dns_blockESNI = V_bool false.
Proof.
  cbv zeta. repeat (split; [reflexivity|]).
  unshelve eapply (proj1 (legacy_keys_set_items zeroed
                  (legacy_file (line "BLOCK_ESNI=No" ++ line "PIDFILE= /run/my pid"))
                  (line "BLOCK_ESNI=No" ++ line "PIDFILE= /run/my pid")
                  "/etc/pihole/pihole-FTL.conf" startup dns_blockESNI "BLOCK_ESNI"
                  _) _ false _); reflexivity.
Defined.

Lemma legacy_numbers_stored_or_ignored_witness :
  let text := line "DELAY_STARTUP=301" in
  openFTLconf (legacy_file text) = (Some text, "/etc/pihole/pihole-FTL.conf") /\
  parseFTLconf text "DELAY_STARTUP" = Some "301" /\
  sscanf_u "301" = Assigned 301 /\
  cur (snd (readFTLlegacy zeroed (legacy_file text) startup)) misc_delay_startup
  = cur startup misc_delay_startup.
Proof.
  cbv zeta. repeat (split; [reflexivity|]).
  unshelve eapply (proj1 (legacy_numbers_stored_or_ignored zeroed
                  (legacy_file (line "DELAY_STARTUP=301")) (line "DELAY_STARTUP=301")
                  "/etc/pihole/pihole-FTL.conf" startup "301" 301 _) _ _);
    reflexivity.
Defined.

Lemma CHECK_DISK_keeps_only_nonzero_witness :
  let text := line "CHECK_DISK=50" in
  openFTLconf (legacy_file text) = (Some text, "/etc/pihole/pihole-FTL.conf") /\
  parseFTLconf text "CHECK_DISK" = Some "50" /\
  sscanf_i "50" = Assigned 50 /\
  cur (snd (readFTLlegacy zeroed (legacy_file text) startup)) misc_check_disk = V_bool true.
Proof.
  cbv zeta. repeat (split; [reflexivity|]).
  unshelve eapply (proj2 (CHECK_DISK_keeps_only_nonzero zeroed
                  (legacy_file (line "CHECK_DISK=50")) (line "CHECK_DISK=50")
                  "/etc/pihole/pihole-FTL.conf" startup _) "50" 50 _ _);
    reflexivity.
Defined.

Lemma getPath_returns_word_or_null_witness :
  let text := line "PIDFILE=" in
  let st := startup_with files_pid (V_str (Some "/run/custom.pid")) in
  openFTLconf (legacy_file text) = (Some text, "/etc/pihole/pihole-FTL.conf") /\
  path_key files_pid = Some "PIDFILE" /\
  parseFTLconf text "PIDFILE" = Some EmptyString /\
  cur st files_pid = V_str (Some "/run/custom.pid") /\
  cur (snd (readFTLlegacy zeroed (legacy_file text) st)) files_pid = V_str None.
Proof.
  cbv zeta. repeat (split; [reflexivity|]).
  apply (proj2 (proj2 (getPath_returns_word_or_null (line "PIDFILE=") "PIDFILE" None
                         (startup_with files_pid (V_str (Some "/run/custom.pid")))))
               zeroed (legacy_file (line "PIDFILE=")) "/etc/pihole/pihole-FTL.conf"
               files_pid EmptyString eq_refl eq_refl eq_refl eq_refl).
Defined.

Lemma getLogFilePathLegacy_cases_witness :
  let st := startup_with files_log (V_str (Some "/tmp/custom.log")) in
  let fs := legacy_file (line "LOGFILE=/var/log/my log") in
  dns_blockTTL <> files_log /\
  cur (snd (getLogFilePathLegacy fs None st)) dns_blockTTL = cur st dns_blockTTL /\
  cur (snd (getLogFilePathLegacy fs None st)) files_log = V_str (Some "/var/log/my").
Proof.
  cbv zeta. split; [discriminate|]. split; [|reflexivity].
  apply (proj1 (proj2 (getLogFilePathLegacy_cases
                         (legacy_file (line "LOGFILE=/var/log/my log")) None
                         (startup_with files_log (V_str (Some "/tmp/custom.log")))))).
  discriminate.
Defined.

Lemma indentTOML_adds_up_witness :
  0 <= 1 /\ 0 <= 2 /\ 1 + 2 < 2 ^ 31 /\ indentTOML (1 + 2) = indentTOML 1 ++ indentTOML 2.
Proof.
  assert (H0 : 0 <= 1) by discriminate.
  assert (H1 : 0 <= 2) by discriminate.
  assert (H2 : 1 + 2 < 2 ^ 31) by reflexivity.
  split; [exact H0|]. split; [exact H1|]. split; [exact H2|].
  exact (proj1 (indentTOML_adds_up 1 2 H0 H1 H2)).
Defined.

End WorkedMore.
